(** * Verification of [PRNode] (src/view/treeNodes/pullRequestNode.ts)

    A shallow embedding of the comment-thread cache, the optimistic comment
    life cycle, the reaction toggle and the document content provider of the
    pull-request tree node, together with the properties checked against
    them.

    Conventions of the embedding.
    - A JavaScript function that may throw, or an [async] function whose
      promise may reject, yields an [Outcome]: [Returned v] (normal return /
      promise fulfilled with [v]) or [Thrown e] (exception / promise rejected
      with [e]).
    - Mutable objects in scope are threaded as an explicit state; what the
      node does to the view host and the data layer is recorded, in order,
      as a list of [Effect]s.
    - Calls into the data layer ([PullRequestModel], the git repository) are
      opaque: their results are supplied by a record of responses. *)

From stdpp Require Import base ssreflect strings list gmap pretty.
From Stdlib Require Import ZArith Ascii.

Set Default Proof Using "Type".
Set Warnings "-rewrite-rw".

(** ** JavaScript outcomes and effects *)

Inductive JsError :=
| TypeError (msg : string)
| Error (msg : string).

Inductive Outcome (A : Type) :=
| Returned (a : A)
| Thrown (e : JsError).
Arguments Returned {A} a.
Arguments Thrown {A} e.

(** The result of evaluating a call expression [f(args)] whose callee returns
    a promise: the call itself may throw synchronously, or it returns a
    promise, given here by the way it settles. *)
Inductive Call (A : Type) :=
| SyncThrow (e : JsError)
| Promise (settled : Outcome A).
Arguments SyncThrow {A} e.
Arguments Promise {A} settled.

(** Requests sent to the data layer. *)
Inductive RemoteCall :=
| GetReviewComments
| GetFileChangesInfo
| GetFile (filePath commit : string)
| RepositoryShow (commit filePath : string)
| CreateCommentReply (body inReplyTo : string)
| CreateReviewThread (body filePath : string) (line : Z)
| EditReviewComment (graphNodeId text : string)
| DeleteReviewComment (commentId : string)
| ValidateDraftMode
| SubmitReview
| DeleteReview
| AddCommentReaction (graphNodeId label : string)
| DeleteCommentReaction (graphNodeId label : string).

Inductive Effect :=
| Request (r : RemoteCall)
| LogLine (msg : string)
| ShowErrorMessage (prefix : string) (e : JsError)
| ShowWarningMessage (msg action : string)
| SetContext (key : string) (value : bool)
| UnhandledRejection (e : JsError).

Global Instance JsError_eq_dec : EqDecision JsError.
Proof. solve_decision. Defined.
Global Instance RemoteCall_eq_dec : EqDecision RemoteCall.
Proof. solve_decision. Defined.
Global Instance Effect_eq_dec : EqDecision Effect.
Proof. solve_decision. Defined.

(** ** The state / exception / trace monad *)

Definition M (S A : Type) : Type := S → Outcome A * S * list Effect.

Global Instance M_ret {S} : MRet (M S) :=
  λ A a s, (Returned a, s, []).

Global Instance M_bind {S} : MBind (M S) :=
  λ A B f m s,
    match m s with
    | (Returned a, s', t) =>
        match f a s' with (r, s'', t') => (r, s'', t ++ t') end
    | (Thrown e, s', t) => (Thrown e, s', t)
    end.

Definition get {S} : M S S := λ s, (Returned s, s, []).
Definition gets {S A} (f : S → A) : M S A := λ s, (Returned (f s), s, []).
Definition put {S} (s : S) : M S unit := λ _, (Returned tt, s, []).
Definition modify {S} (f : S → S) : M S unit := λ s, (Returned tt, f s, []).
Definition emit {S} (e : Effect) : M S unit := λ s, (Returned tt, s, [e]).
Definition throw {S A} (e : JsError) : M S A := λ s, (Thrown e, s, []).

(** Run on a part of the state an action written for that part. *)
Definition zoom {S T A} (view : S → T) (update : T → S → S) (m : M T A) : M S A :=
  λ s, match m (view s) with (r, t', tr) => (r, update t' s, tr) end.

(** [await p]: resume with the value of a fulfilled promise, throw the
    reason of a rejected one. *)
Definition await {S A} (p : Outcome A) : M S A := λ s, (p, s, []).

(** [try { body } catch (e) { handler }]. *)
Definition tryCatch {S A} (body : M S A) (handler : JsError → M S A) : M S A :=
  λ s,
    match body s with
    | (Returned a, s', t) => (Returned a, s', t)
    | (Thrown e, s', t) =>
        match handler e s' with (r, s'', t') => (r, s'', t ++ t') end
    end.

(** [xs.forEach(f)] with a synchronous callback: an exception thrown by the
    callback aborts the iteration. *)
Fixpoint forEach {S A} (xs : list A) (f : A → M S unit) : M S unit :=
  match xs with
  | [] => mret tt
  | x :: xs' => f x ;; forEach xs' f
  end.

(** [xs.forEach(async x => ...)] where the body of the callback contains no
    [await]: each callback runs to completion, its promise is dropped by
    [forEach], and a rejection is left unhandled while the iteration goes
    on. *)
Definition detached {S} (m : M S unit) : M S unit :=
  tryCatch m (λ e, emit (UnhandledRejection e)).

Definition forEachAsync {S A} (xs : list A) (f : A → M S unit) : M S unit :=
  forEach xs (λ x, detached (f x)).

Definition outcome {S A} (r : Outcome A * S * list Effect) : Outcome A := r.1.1.
Definition final {S A} (r : Outcome A * S * list Effect) : S := r.1.2.
Definition trace {S A} (r : Outcome A * S * list Effect) : list Effect := r.2.

(** ** Data model *)

Definition LF : string := String "010"%char EmptyString.

Inductive DiffSide := LEFT | RIGHT.
Inductive GitChangeType := ADD | DELETE | MODIFY | RENAME.
Inductive DiffChangeType := Context | Add | Delete | Control.
Inductive CommentMode := Editing | Preview.

Global Instance DiffSide_eq_dec : EqDecision DiffSide.
Proof. solve_decision. Defined.
Global Instance GitChangeType_eq_dec : EqDecision GitChangeType.
Proof. solve_decision. Defined.
Global Instance DiffChangeType_eq_dec : EqDecision DiffChangeType.
Proof. solve_decision. Defined.
Global Instance CommentMode_eq_dec : EqDecision CommentMode.
Proof. solve_decision. Defined.

Record DiffLine := { type : DiffChangeType; text : string }.
Record DiffHunk := { diffLines : list DiffLine }.

Record Uri := { scheme : string; path : string; query : string }.

(** What [fromPRUri] decodes from the query of a [pr:] document URI. *)
Record PRUriParams := {
  fileName : string;
  isBase : bool;
  baseCommit : string;
  headCommit : string;
  prNumber : N;
}.

(** A reaction as the data layer reports it ([Reaction]) and as the view
    host displays it ([vscode.CommentReaction]). *)
Record Reaction := {
  r_label : string;
  r_count : N;
  r_viewerHasReacted : bool;
}.
Record CommentReaction := {
  label : string;
  count : N;
  authorHasReacted : bool;
}.
Record ReactionGroup := {
  content : string;
  viewerHasReacted : bool;
  totalCount : N;
}.

(** [IComment]: a review comment as fetched. *)
Record IComment := {
  c_id : N;
  graphNodeId : string;
  c_path : string;
  position : option Z;
  c_body : string;
  c_isDraft : bool;
  c_reactions : option (list Reaction);
}.

Global Instance DiffLine_eq_dec : EqDecision DiffLine.
Proof. solve_decision. Defined.
Global Instance Uri_eq_dec : EqDecision Uri.
Proof. solve_decision. Defined.
Global Instance Reaction_eq_dec : EqDecision Reaction.
Proof. solve_decision. Defined.
Global Instance CommentReaction_eq_dec : EqDecision CommentReaction.
Proof. solve_decision. Defined.
Global Instance ReactionGroup_eq_dec : EqDecision ReactionGroup.
Proof. solve_decision. Defined.
Global Instance IComment_eq_dec : EqDecision IComment.
Proof. solve_decision. Defined.

(** A confirmed comment as displayed ([GHPRComment]); [parentUri] is the
    [uri] of the thread the comment belongs to ([comment.parent.uri]). *)
Record GHPRComment := {
  commentId : string;
  _rawComment : IComment;
  body : string;
  mode : CommentMode;
  commentLabel : option string;
  reactions : option (list CommentReaction);
  parentUri : Uri;
}.

(** A locally authored comment that the remote has not confirmed yet. *)
Record TemporaryComment := {
  t_id : N;
  t_body : string;
  t_mode : CommentMode;
  t_label : option string;
  t_author : string;
  originalBody : option string;
}.

(** The elements of [thread.comments]; the constructor plays the part of
    the [instanceof] tests of the source. *)
Inductive Comment :=
| Confirmed (c : GHPRComment)
| Temporary (c : TemporaryComment).

Global Instance GHPRComment_eq_dec : EqDecision GHPRComment.
Proof. solve_decision. Defined.
Global Instance TemporaryComment_eq_dec : EqDecision TemporaryComment.
Proof. solve_decision. Defined.
Global Instance Comment_eq_dec : EqDecision Comment.
Proof. solve_decision. Defined.

(** [GHPRCommentThread]: a display thread of the view host. [range] is the
    (0-based) start line of its range; [disposed] records that [dispose()]
    was called on it. *)
Record GHPRCommentThread := {
  uri : Uri;
  range : Z;
  threadId : string;
  comments : list Comment;
  isResolved : bool;
  threadLabel : option string;
  disposed : bool;
}.

Global Instance GHPRCommentThread_eq_dec : EqDecision GHPRCommentThread.
Proof. solve_decision. Defined.

Definition set_comments (cs : list Comment) (t : GHPRCommentThread) : GHPRCommentThread :=
  {| uri := uri t; range := range t; threadId := threadId t; comments := cs;
     isResolved := isResolved t; threadLabel := threadLabel t; disposed := disposed t |}.
Definition set_isResolved (b : bool) (t : GHPRCommentThread) : GHPRCommentThread :=
  {| uri := uri t; range := range t; threadId := threadId t; comments := comments t;
     isResolved := b; threadLabel := threadLabel t; disposed := disposed t |}.
Definition set_threadLabel (l : option string) (t : GHPRCommentThread) : GHPRCommentThread :=
  {| uri := uri t; range := range t; threadId := threadId t; comments := comments t;
     isResolved := isResolved t; threadLabel := l; disposed := disposed t |}.
(** [thread.dispose()]. *)
Definition dispose (t : GHPRCommentThread) : GHPRCommentThread :=
  {| uri := uri t; range := range t; threadId := threadId t; comments := comments t;
     isResolved := isResolved t; threadLabel := threadLabel t; disposed := true |}.

Definition set_t_mode (m : CommentMode) (c : TemporaryComment) : TemporaryComment :=
  {| t_id := t_id c; t_body := t_body c; t_mode := m; t_label := t_label c;
     t_author := t_author c; originalBody := originalBody c |}.

(** [IReviewThread]: a review thread as the pull-request model holds it. *)
Record IReviewThread := {
  rt_id : string;
  rt_path : string;
  line : Z;
  diffSide : DiffSide;
  isOutdated : bool;
  rt_isResolved : bool;
  rt_comments : list IComment;
}.

Record ReviewThreadChangeEvent := {
  added : list IReviewThread;
  changed : list IReviewThread;
  removed : list IReviewThread;
}.

(** A visible text editor; [editorId] stands for the identity of the editor
    object, which is what [Array.prototype.includes] compares. *)
Record TextEditor := { editorId : nat; document_uri : Uri }.

(** The fields shared by [RemoteFileChangeNode] and [InMemFileChangeNode]. *)
Record FileChangeNode := {
  status : GitChangeType;
  fc_fileName : string;
  previousFileName : option string;
  blobUrl : string;
}.

Record InMemFileChangeNode := {
  node :> FileChangeNode;
  isPartial : bool;
  patch : string;
  diffHunks : list DiffHunk;
  fc_comments : list IComment;
}.

Inductive FileChange :=
| Remote (n : FileChangeNode)
| InMem (n : InMemFileChangeNode).

Definition base (fc : FileChange) : FileChangeNode :=
  match fc with Remote n => n | InMem n => node n end.

Definition set_fc_comments (cs : list IComment) (n : InMemFileChangeNode) : InMemFileChangeNode :=
  {| node := node n; isPartial := isPartial n; patch := patch n;
     diffHunks := diffHunks n; fc_comments := cs |}.

Definition set_c_reactions (rs : option (list Reaction)) (c : IComment) : IComment :=
  {| c_id := c_id c; graphNodeId := graphNodeId c; c_path := c_path c;
     position := position c; c_body := c_body c; c_isDraft := c_isDraft c;
     c_reactions := rs |}.

(** A change as [parseDiff] reports it; [slim] tells a [SlimFileChange]
    (binary or too large, no hunks) from an [InMemFileChange]. *)
Record RawChange := {
  slim : bool;
  rc_node : FileChangeNode;
  rc_isPartial : bool;
  rc_patch : string;
  rc_diffHunks : list DiffHunk;
}.

(** Modelled from the spec: the constructor of [GHPRComment]
    (github/prComment) is not part of the source file; a confirmed comment
    displays the fetched comment it wraps. *)
Definition newGHPRComment (c : IComment) (parent : Uri) : GHPRComment :=
  {| commentId := pretty (c_id c);
     _rawComment := c;
     body := c_body c;
     mode := Preview;
     commentLabel := if c_isDraft c then Some "Pending" else None;
     reactions :=
       (λ rs, map (λ r, {| label := r_label r; count := r_count r;
                           authorHasReacted := r_viewerHasReacted r |}) rs)
       <$> c_reactions c;
     parentUri := parent |}.

(** ** External collaborators *)

(** The responses of the data layer: the [PullRequestModel] the node was
    built for and the git repository behind it. Every method named here is
    an asynchronous call of the source; its field gives the way the returned
    promise settles. [getFile] is the one call the source makes without
    awaiting it inside a [try], so the model keeps apart a synchronous throw
    of the call from a rejection of its promise. *)
Record PullRequestModel := {
  number : N;
  pr_isResolved : bool;
  hasPendingReview : bool;
  mergeBase : option string;
  reviewThreadsCache : list IReviewThread;
  currentUser : string;
  getReviewComments : Outcome (list IComment);
  getFileChangesInfo : Outcome unit;
  parseDiff : Outcome (list RawChange);
  getFile : string → string → Call string;
  repository_show : string → string → Outcome string;
  createCommentReply : string → string → Outcome unit;
  createReviewThread : string → string → Z → Outcome unit;
  editReviewComment : IComment → string → Outcome unit;
  deleteReviewComment : string → Outcome unit;
  validateDraftMode : Outcome bool;
  submitReview : Outcome unit;
  pr_deleteReview : Outcome unit;
  addCommentReaction : string → string → Outcome (list ReactionGroup);
  deleteCommentReaction : string → string → Outcome (list ReactionGroup);
}.

(** Pure helpers imported from other modules of the repository
    (common/uri, github/utils, common/diffHunk, node's [path]); their code
    is not part of this file, so they are taken as an interface. *)
Class Helpers := {
  (** [fromPRUri(uri)]: [None] is [undefined]. *)
  fromPRUri : Uri → option PRUriParams;
  (** [path.relative(rootUri.path, p).replace(/\\/g, '/')]. *)
  relativeToRoot : string → string;
  (** the label [updateCommentThreadLabel] computes for a thread. *)
  labelFor : GHPRCommentThread → option string;
  parseGraphQLReaction : list ReactionGroup → list Reaction;
  updateCommentReactions : GHPRComment → list Reaction → GHPRComment;
  getModifiedContentFromDiffHunk : string → string → Outcome string;
}.

(** ** File-change resolution and the document content provider *)

Module ContentProvider.

(** The state is the [_fileChanges] field of the node ([None]:
    [undefined]). *)
Abbreviation State := (option (list FileChange)).

Section defs.
Context `{Helpers} (pr : PullRequestModel).

(** [resolveFileChanges]. The URIs built with [toPRUri] are left out:
    nothing below reads them. *)
Definition resolveFileChanges {S} : M S (list FileChange) :=
  if negb (pr_isResolved pr) then mret []
  else
    emit (Request GetReviewComments);;
    comments ← await (getReviewComments pr);
    emit (Request GetFileChangesInfo);;
    await (getFileChangesInfo pr);;
    match mergeBase pr with
    | None => mret []
    | Some _ =>
        rawChanges ← await (parseDiff pr);
        mret (map (λ change,
                if slim change then Remote (rc_node change)
                else InMem {| node := rc_node change;
                              isPartial := rc_isPartial change;
                              patch := rc_patch change;
                              diffHunks := rc_diffHunks change;
                              fc_comments :=
                                filter (λ comment,
                                  c_path comment = fc_fileName (rc_node change)
                                  ∧ position comment ≠ None) comments |})
                rawChanges)
    end.

(** [getFileChanges]. *)
Definition getFileChanges : M State (list FileChange) :=
  cached ← get;
  match cached with
  | Some changes => mret changes
  | None =>
      changes ← resolveFileChanges;
      put (Some changes);;
      mret changes
  end.

(** Line 94 of [getChildren]: [this._fileChanges = await
    this.resolveFileChanges()]; the content provider is registered after it
    (lines 96-101). *)
Definition assignFileChanges : M State unit :=
  changes ← resolveFileChanges;
  put (Some changes).

(** [a || b] on an optional string: [undefined] and the empty string are
    falsy. *)
Definition orElse (a : option string) (b : string) : string :=
  match a with
  | Some s => if decide (s = EmptyString) then b else s
  | None => b
  end.

(** [fileChange instanceof RemoteFileChangeNode] and [fileChange.isPartial]
    (a remote node has no such property: [undefined], falsy). *)
Definition isRemote (fileChange : FileChange) : bool :=
  match fileChange with Remote _ => true | InMem _ => false end.

Definition isPartialOf (fileChange : FileChange) : bool :=
  match fileChange with Remote _ => false | InMem n => isPartial n end.

(** The two loops of lines 631-647 ([left]) and 649-665 ([right]): every
    line of every hunk, in order, is pushed or skipped by its type. *)
Definition pushLeft (left : list string) (diffLine : DiffLine) : list string :=
  match type diffLine with
  | Add => left
  | Delete => left ++ [text diffLine]
  | Control => left
  | Context => left ++ [text diffLine]
  end.

Definition pushRight (right : list string) (diffLine : DiffLine) : list string :=
  match type diffLine with
  | Add => right ++ [text diffLine]
  | Delete => right
  | Control => right
  | Context => right ++ [text diffLine]
  end.

Definition readContentFromDiffHunk (isBase : bool) (hunks : list DiffHunk) : string :=
  let push := if isBase then pushLeft else pushRight in
  String.concat LF
    (foldl (λ acc hunk, foldl push acc (diffLines hunk)) [] hunks).

(** Lines 598-622. Inside the [try] the promise of [getFile] is returned,
    not awaited: the [catch] clause runs only when the call throws
    synchronously, and otherwise the promise of [provideDocumentContent]
    settles the way the promise of [getFile] does. *)
Definition fetchRemote (params : PRUriParams) (fileChange : FileChangeNode) : M State string :=
  let filePath :=
    if isBase params
    then orElse (previousFileName fileChange) (fc_fileName fileChange)
    else fc_fileName fileChange in
  let commit := if isBase params then baseCommit params else headCommit params in
  emit (Request (GetFile filePath commit));;
  match getFile pr filePath commit with
  | SyncThrow e =>
      emit (LogLine "PR> Fetching file content failed");;
      emit (ShowWarningMessage
              "Opening this file locally failed. Would you like to view it on GitHub?"
              "Open on GitHub");;
      mret EmptyString
  | Promise settled => await settled
  end.

(** [vscode.Uri.joinPath(rootUri, originalFileName!)] with an undefined
    file name: the path segments are joined as strings, and the call throws
    a [TypeError] for a segment that is none. *)
Definition joinPathOfUndefined : JsError :=
  TypeError "The path argument must be of type string. Received undefined".

(** Lines 624-685: the content of an in-memory change. The original file
    name of a rename is its previous file name; when a rename has none,
    [joinPath] throws before the repository is asked. *)
Definition inMemContent (params : PRUriParams) (fc : InMemFileChangeNode) : M State string :=
  let readFromDiffHunk :=
    bool_decide (status fc = ADD) || bool_decide (status fc = DELETE) in
  if readFromDiffHunk
  then mret (readContentFromDiffHunk (isBase params) (diffHunks fc))
  else
    let originalFileName :=
      if bool_decide (status fc = RENAME)
      then previousFileName fc
      else Some (fc_fileName fc) in
    match originalFileName with
    | None => throw joinPathOfUndefined
    | Some originalFileName =>
        emit (Request (RepositoryShow (baseCommit params) originalFileName));;
        originalContent ← await (repository_show pr (baseCommit params) originalFileName);
        if isBase params then mret originalContent
        else await (getModifiedContentFromDiffHunk originalContent (patch fc))
    end.

(** [provideDocumentContent]. *)
Definition provideDocumentContent (uri : Uri) : M State string :=
  match fromPRUri uri with
  | None => mret EmptyString
  | Some params =>
      changes ← getFileChanges;
      match List.find (λ contentChange,
               bool_decide (fc_fileName (base contentChange) = fileName params))
              changes with
      | None =>
          emit (LogLine "PR> can not find content for document");;
          mret EmptyString
      | Some fileChange =>
          if (isBase params && bool_decide (status (base fileChange) = ADD))
             || (negb (isBase params) && bool_decide (status (base fileChange) = DELETE))
          then mret EmptyString
          else if isRemote fileChange || isPartialOf fileChange
          then fetchRemote params (base fileChange)
          else
            match fileChange with
            | InMem fc => inMemContent params fc
            | Remote _ => mret EmptyString
            end
      end
  end.

(** The side of a change on which the file does not exist (lines 591-596). *)
Definition absentSide (st : GitChangeType) (isBase : bool) : bool :=
  (isBase && bool_decide (st = ADD)) || (negb isBase && bool_decide (st = DELETE)).

(** The reading of the specification for an ADD or DELETE change: the lines
    of all hunks, in hunk order, that belong to the side (Add lines to the
    head side, Delete lines to the base side, Context lines to both, Control
    lines to neither), joined with newlines. *)
Definition belongsTo (isBase : bool) (l : DiffLine) : bool :=
  match type l with
  | Add => negb isBase
  | Delete => isBase
  | Context => true
  | Control => false
  end.

Definition sideContent (isBase : bool) (hunks : list DiffHunk) : string :=
  String.concat LF
    (map text (List.filter (belongsTo isBase) (concat (map diffLines hunks)))).

End defs.
End ContentProvider.

(** ** The comment-thread cache *)

Module ThreadCache.

(** The objects the cache code works on: [threads], the thread objects the
    comment controller has created, addressed by handle (the position in the
    list; a thread stays in the list when it is disposed, with [disposed]
    set); [commentThreadCache], which maps a file path to the handles of
    its display threads; and [_openPREditors]. *)
Record State := {
  threads : list GHPRCommentThread;
  commentThreadCache : gmap string (list nat);
  _openPREditors : list TextEditor;
}.

Definition set_threads (ts : list GHPRCommentThread) (s : State) : State :=
  {| threads := ts; commentThreadCache := commentThreadCache s;
     _openPREditors := _openPREditors s |}.
Definition set_commentThreadCache (c : gmap string (list nat)) (s : State) : State :=
  {| threads := threads s; commentThreadCache := c;
     _openPREditors := _openPREditors s |}.
Definition set_openPREditors (es : list TextEditor) (s : State) : State :=
  {| threads := threads s; commentThreadCache := commentThreadCache s;
     _openPREditors := es |}.

(** The display threads the view host currently shows. *)
Definition liveThreads (s : State) : list GHPRCommentThread :=
  List.filter (λ t, negb (disposed t)) (threads s).

Section defs.
Context `{Helpers} (pr : PullRequestModel).

(** Modelled from the spec: [createVSCodeCommentThreadForReviewThread]
    (github/utils) is not part of the source file. It asks the comment
    controller for a new display thread at the range and fills it from the
    review thread: its id, its comments as confirmed comments and its
    resolution flag. The new thread is live until it is disposed. *)
Definition createVSCodeCommentThreadForReviewThread
    (documentUri : Uri) (startLine : Z) (thread : IReviewThread) : M State nat :=
  s ← get;
  let handle := length (threads s) in
  let vscodeThread :=
    {| uri := documentUri; range := startLine; threadId := rt_id thread;
       comments := map (λ c, Confirmed (newGHPRComment c documentUri)) (rt_comments thread);
       isResolved := rt_isResolved thread; threadLabel := None; disposed := false |} in
  put (set_threads (threads s ++ [set_threadLabel (labelFor vscodeThread) vscodeThread]) s);;
  mret handle.

(** Modelled from the spec: [groupBy] (common/utils) is not part of the
    source file; it collects the elements under the key the function gives
    them, in their order, and has no entry for a key without elements. *)
Definition groupBy {A} (data : list A) (groupFn : A → string) : gmap string (list A) :=
  foldl (λ result element,
           <[groupFn element := default [] (result !! groupFn element) ++ [element]]> result)
        ∅ data.

(** [getPREditors]. *)
Definition getPREditors (editors : list TextEditor) : list TextEditor :=
  List.filter (λ editor,
    if negb (bool_decide (scheme (document_uri editor) = "pr")) then false
    else match fromPRUri (document_uri editor) with
         | None => false
         | Some params => bool_decide (prNumber params = number pr)
         end) editors.

(** [xs.map(f)] with a callback that creates objects. *)
Fixpoint mapM {A B} (f : A → M State B) (xs : list A) : M State (list B) :=
  match xs with
  | [] => mret []
  | x :: xs' => y ← f x; ys ← mapM f xs'; mret (y :: ys)
  end.

(** The body shared by lines 312-333 and 355-376: the display threads of one
    editor are created from the review threads of its file and side, and
    the list replaces the cache entry of the file. *)
Definition showThreadsIn (threadsByPath : gmap string (list IReviewThread))
    (editor : TextEditor) : M State unit :=
  match fromPRUri (document_uri editor) with
  | None => throw (TypeError "Cannot destructure property of undefined")
  | Some params =>
      match threadsByPath !! fileName params with
      | None => mret tt
      | Some reviewThreads =>
          created ←
            mapM (λ thread,
                    createVSCodeCommentThreadForReviewThread
                      (document_uri editor) (line thread - 1) thread)
                 (List.filter (λ thread,
                    (bool_decide (diffSide thread = LEFT) && isBase params)
                    || (bool_decide (diffSide thread = RIGHT) && negb (isBase params)))
                    reviewThreads);
          modify (λ s, set_commentThreadCache
                         (<[fileName params := created]> (commentThreadCache s)) s)
      end
  end.

(** [initializeThreadsInOpenEditors]. The comment controller is resolved
    before the call (line 103), so [resolvePRCommentController] returns the
    registered controller at once. *)
Definition initializeThreadsInOpenEditors (editors : list TextEditor) : M State unit :=
  let reviewThreads := reviewThreadsCache pr in
  let threadsByPath := groupBy reviewThreads rt_path in
  let prEditors := getPREditors editors in
  modify (set_openPREditors prEditors);;
  forEach prEditors (showThreadsIn threadsByPath).

(** [list.includes(x)] on editors. *)
Definition includes (es : list TextEditor) (x : TextEditor) : bool :=
  existsb (λ e, bool_decide (editorId e = editorId x)) es.

(** [threads.forEach(t => t.dispose())]. *)
Definition disposeAll (handles : list nat) (ts : list GHPRCommentThread)
    : list GHPRCommentThread :=
  foldl (λ ts h, alter dispose h ts) ts handles.

(** [onDidChangeOpenEditors]. *)
Definition onDidChangeOpenEditors (editors : list TextEditor) : M State unit :=
  s ← get;
  let prEditors := getPREditors editors in
  let removed := List.filter (λ x, negb (includes prEditors x)) (_openPREditors s) in
  let added := List.filter (λ x, negb (includes (_openPREditors s) x)) prEditors in
  modify (set_openPREditors prEditors);;
  forEach removed (λ editor,
    match fromPRUri (document_uri editor) with
    | None => throw (TypeError "Cannot read properties of undefined")
    | Some params =>
        modify (λ s,
          let handles := default [] (commentThreadCache s !! fileName params) in
          set_commentThreadCache (delete (fileName params) (commentThreadCache s))
            (set_threads (disposeAll handles (threads s)) s))
    end);;
  if bool_decide (added = []) then mret tt
  else
    let reviewThreads := reviewThreadsCache pr in
    let threadsByPath := groupBy reviewThreads rt_path in
    forEach added (showThreadsIn threadsByPath).

(** [t.threadId === thread.id] for the thread behind a handle. *)
Definition hasThreadId (s : State) (id : string) (handle : nat) : Prop :=
  threadId <$> threads s !! handle = Some id.

Global Instance hasThreadId_dec s id handle : Decision (hasThreadId s id handle).
Proof. unfold hasThreadId. apply _. Defined.

(** [commentThreadCache[thread.path].findIndex(t => t.threadId === thread.id)]:
    the property read yields [undefined] when the cache has no entry for the
    path, and calling [findIndex] on it throws a [TypeError]. *)
Definition findIndexOfUndefined : JsError :=
  TypeError "Cannot read properties of undefined (reading 'findIndex')".

Definition findIndexInCache (thread : IReviewThread) : M State (option (nat * nat)) :=
  s ← get;
  match commentThreadCache s !! rt_path thread with
  | None => throw findIndexOfUndefined
  | Some handles => mret (list_find (hasThreadId s (rt_id thread)) handles)
  end.

(** Lines 389-393: the open editor of the pull request that shows the file
    of the thread. *)
Definition matchingEditor (visibleTextEditors : list TextEditor) (thread : IReviewThread)
    : option TextEditor :=
  let fileName' := relativeToRoot (rt_path thread) in
  let openPREditors := getPREditors visibleTextEditors in
  List.find (λ editor,
    match fromPRUri (document_uri editor) with
    | Some query => bool_decide (fileName query = fileName')
    | None => false
    end) openPREditors.

(** Lines 383-410, one added thread. The thread that is created is returned
    from the callback of [forEach], which drops it: it is not stored in the
    cache. *)
Definition onAdded (visibleTextEditors : list TextEditor) (thread : IReviewThread)
    : M State unit :=
  if negb (isOutdated thread) then
    match matchingEditor visibleTextEditors thread with
    | Some editor =>
        createVSCodeCommentThreadForReviewThread
          (document_uri editor) (line thread - 1) thread;;
        mret tt
    | None => mret tt
    end
  else mret tt.

(** Lines 417-418: what a changed review thread does to its display
    thread. *)
Definition refresh (thread : IReviewThread) (matchingThread : GHPRCommentThread)
    : GHPRCommentThread :=
  set_comments
    (map (λ c, Confirmed (newGHPRComment c (uri matchingThread))) (rt_comments thread))
    (set_isResolved (rt_isResolved thread) matchingThread).

(** Lines 412-420, one changed thread. *)
Definition onChanged (thread : IReviewThread) : M State unit :=
  found ← findIndexInCache thread;
  match found with
  | Some (index, handle) =>
      modify (λ s, set_threads (alter (refresh thread) handle (threads s)) s)
  | None => mret tt
  end.

(** Lines 422-429, one removed thread (the body of the [async] callback). *)
Definition onRemoved (thread : IReviewThread) : M State unit :=
  found ← findIndexInCache thread;
  match found with
  | Some (index, handle) =>
      modify (λ s,
        set_commentThreadCache
          (alter (delete index) (rt_path thread) (commentThreadCache s)) s);;
      modify (λ s, set_threads (alter dispose handle (threads s)) s)
  | None => mret tt
  end.

(** [onDidChangeReviewThreads]. *)
Definition onDidChangeReviewThreads (visibleTextEditors : list TextEditor)
    (e : ReviewThreadChangeEvent) : M State unit :=
  forEach (added e) (onAdded visibleTextEditors);;
  forEach (changed e) onChanged;;
  forEachAsync (removed e) onRemoved.

(** The display thread a changed or removed review thread refers to: the
    first thread with its id in the cache entry of its path. *)
Definition target (s : State) (thread : IReviewThread) : option nat :=
  handles ← commentThreadCache s !! rt_path thread;
  snd <$> list_find (hasThreadId s (rt_id thread)) handles.

(** The state changes of the two handlers, apart from exceptions: a
    changed thread refreshes its target, a removed thread takes its target
    out of the cache entry and disposes it. *)
Definition applyChanged (handle : option nat) (thread : IReviewThread) (s : State) : State :=
  match handle with
  | Some h => set_threads (alter (refresh thread) h (threads s)) s
  | None => s
  end.

Definition applyRemoved (thread : IReviewThread) (s : State) : State :=
  match commentThreadCache s !! rt_path thread with
  | None => s
  | Some handles =>
      match list_find (hasThreadId s (rt_id thread)) handles with
      | Some (index, h) =>
          set_threads (alter dispose h (threads s))
            (set_commentThreadCache
               (alter (delete index) (rt_path thread) (commentThreadCache s)) s)
      | None => s
      end
  end.

Definition changeAll (s : State) (ts : list IReviewThread) : State :=
  foldl (λ s t, applyChanged (target s t) t s) s ts.

Definition removeAll (s : State) (ts : list IReviewThread) : State :=
  foldl (λ s t, applyRemoved t s) s ts.

(** The rejections left unhandled by a list of removed threads. *)
Definition rejections (s : State) (ts : list IReviewThread) : list Effect :=
  concat ((λ t, match commentThreadCache s !! rt_path t with
                | None => [UnhandledRejection findIndexOfUndefined]
                | Some _ => []
                end) <$> ts).

(** What a list of changed threads makes of the display thread [h] when
    [tg] gives the target of each: the last thread aimed at [h] decides. *)
Definition lastWins (tg : IReviewThread → option nat) (h : nat)
    (ts : list IReviewThread) (d : GHPRCommentThread) : GHPRCommentThread :=
  foldl (λ d t, if decide (tg t = Some h) then refresh t d else d) d ts.

(** [s'] is [s] with the display threads [gone] taken out of the cache and
    disposed. *)
Definition removedFrom (gone : list nat) (s s' : State) : Prop :=
  (∀ p, commentThreadCache s' !! p = filter (.∉ gone) <$> commentThreadCache s !! p)
  ∧ (∀ h, threads s' !! h
          = (if decide (h ∈ gone) then dispose else id) <$> threads s !! h)
  ∧ _openPREditors s' = _openPREditors s.

(** An added thread for which [onAdded] creates no display thread: it is
    outdated, or no open editor shows its file. *)
Definition addsNothing (visibleTextEditors : list TextEditor) (thread : IReviewThread) : Prop :=
  isOutdated thread = true ∨ matchingEditor visibleTextEditors thread = None.

(** A cache that has converged: under each path every review thread is
    displayed by at most one thread, and no display thread is listed under
    two paths. *)
Definition wellFormed (s : State) : Prop :=
  (∀ p handles, commentThreadCache s !! p = Some handles →
                NoDup ((λ h, threadId <$> threads s !! h) <$> handles))
  ∧ (∀ p q hp hq h, commentThreadCache s !! p = Some hp →
                    commentThreadCache s !! q = Some hq →
                    h ∈ hp → h ∈ hq → p = q).

End defs.
End ThreadCache.

(** ** The optimistic comment life cycle *)

Module Comments.

(** The objects a comment action works on: the [thread] it was invoked
    with and the counter the ids of temporary comments are drawn from. *)
Record State := {
  thread : GHPRCommentThread;
  idPool : N;
}.

Definition set_thread (t : GHPRCommentThread) (s : State) : State :=
  {| thread := t; idPool := idPool s |}.

Section defs.
Context `{Helpers} (pr : PullRequestModel).

(** Modelled from the spec: the constructor of [TemporaryComment]
    (github/prComment) is not part of the source file. A temporary comment
    carries a locally unique id, the body as typed, the draft flag (shown
    as a label) and the author, and is displayed read-only until it is
    flagged editable. *)
Definition newTemporaryComment (input : string) (isDraft : bool) (user : string)
    (originalComment : option GHPRComment) : M State TemporaryComment :=
  s ← get;
  put {| thread := thread s; idPool := N.succ (idPool s) |};;
  mret {| t_id := idPool s;
          t_body := input;
          t_mode := Preview;
          t_label := if isDraft then Some "Pending" else None;
          t_author := user;
          originalBody := (λ c, c_body (_rawComment c)) <$> originalComment |}.

(** [updateCommentThreadLabel] (github/utils). *)
Definition updateCommentThreadLabel (t : GHPRCommentThread) : GHPRCommentThread :=
  set_threadLabel (labelFor t) t.

(** [updateCommentThreadComments]. *)
Definition updateCommentThreadComments (newComments : list Comment) : M State unit :=
  modify (λ s, set_thread (updateCommentThreadLabel (set_comments newComments (thread s))) s).

(** [thread.comments = thread.comments.map(f)]. *)
Definition mapComments (f : Comment → Comment) : M State unit :=
  modify (λ s, set_thread (set_comments (map f (comments (thread s))) (thread s)) s).

(** The callback of lines 708-714 and 814-820. *)
Definition makeEditable (temporaryCommentId : N) (c : Comment) : Comment :=
  match c with
  | Temporary tc =>
      if bool_decide (t_id tc = temporaryCommentId)
      then Temporary (set_t_mode Editing tc)
      else c
  | Confirmed _ => c
  end.

Definition setContextKey (inDraftMode : bool) : M State unit :=
  emit (SetContext "prInDraft" inDraftMode).

(** [gitRelativeRootPath]. *)
Definition gitRelativeRootPath (comparePath : string) : string :=
  relativeToRoot comparePath.

(** [optimisticallyAddComment]. *)
Definition optimisticallyAddComment (input : string) (inDraft : bool) : M State N :=
  comment ← newTemporaryComment input inDraft (currentUser pr) None;
  s ← get;
  updateCommentThreadComments (comments (thread s) ++ [Temporary comment]);;
  mret (t_id comment).

(** [optimisticallyEditComment]. *)
Definition optimisticallyEditComment (comment : GHPRComment) : M State N :=
  temporaryComment ←
    newTemporaryComment (body comment) (bool_decide (commentLabel comment ≠ None))
                        (currentUser pr) (Some comment);
  mapComments (λ c,
    match c with
    | Confirmed g =>
        if bool_decide (commentId g = commentId comment)
        then Temporary temporaryComment else c
    | Temporary _ => c
    end);;
  mret (t_id temporaryComment).

(** [reply]. *)
Definition reply (input : string) : M State unit :=
  s ← get;
  match comments (thread s) !! 0%nat with
  | Some (Confirmed replyingTo) =>
      emit (Request (CreateCommentReply input (graphNodeId (_rawComment replyingTo))));;
      await (createCommentReply pr input (graphNodeId (_rawComment replyingTo)))
  | _ => throw (Error "Cannot respond to temporary comment")
  end.

(** [createOrReplyComment]. *)
Definition createOrReplyComment (input : string) (inDraft : option bool) : M State unit :=
  s ← get;
  let hasExistingComments := length (comments (thread s)) in
  let isDraft := default (hasPendingReview pr) inDraft in
  temporaryCommentId ← optimisticallyAddComment input isDraft;
  tryCatch
    (if bool_decide (hasExistingComments ≠ 0%nat) then reply input
     else
       s ← get;
       let fileName' := gitRelativeRootPath (path (uri (thread s))) in
       emit (Request (CreateReviewThread input fileName' (range (thread s) + 1)));;
       await (createReviewThread pr input fileName' (range (thread s) + 1)))
    (λ e,
       emit (ShowErrorMessage "Creating comment failed: " e);;
       mapComments (makeEditable temporaryCommentId)).

(** [editComment]. In the branch of a temporary comment the promise of
    [createOrReplyComment] is not awaited. *)
Definition editComment (comment : Comment) : M State unit :=
  match comment with
  | Confirmed comment =>
      temporaryCommentId ← optimisticallyEditComment comment;
      tryCatch
        (emit (Request (EditReviewComment (graphNodeId (_rawComment comment)) (body comment)));;
         await (editReviewComment pr (_rawComment comment) (body comment)))
        (λ e,
           emit (ShowErrorMessage "Editing comment failed " e);;
           s ← get;
           mapComments (λ c,
             match c with
             | Temporary tc =>
                 if bool_decide (t_id tc = temporaryCommentId)
                 then Confirmed (newGHPRComment (_rawComment comment) (uri (thread s)))
                 else c
             | Confirmed _ => c
             end))
  | Temporary comment =>
      detached (createOrReplyComment (t_body comment) None)
  end.

(** [deleteComment]. *)
Definition deleteComment (comment : Comment) : M State unit :=
  match comment with
  | Confirmed comment =>
      emit (Request (DeleteReviewComment (commentId comment)));;
      await (deleteReviewComment pr (commentId comment))
  | Temporary comment =>
      modify (λ s,
        set_thread
          (set_comments
             (List.filter (λ c,
                match c with
                | Temporary tc => bool_decide (t_id tc = t_id comment)
                | Confirmed _ => false
                end) (comments (thread s)))
             (thread s)) s)
  end;;
  emit (Request ValidateDraftMode);;
  await (validateDraftMode pr);;
  mret tt.

(** [startReview]. *)
Definition startReview (input : string) : M State unit :=
  temporaryCommentId ← optimisticallyAddComment input true;
  tryCatch
    (s ← get;
     let fileName' := gitRelativeRootPath (path (uri (thread s))) in
     emit (Request (CreateReviewThread input fileName' (range (thread s) + 1)));;
     await (createReviewThread pr input fileName' (range (thread s) + 1));;
     setContextKey true)
    (λ e,
       emit (ShowErrorMessage "Starting a review failed: " e);;
       mapComments (makeEditable temporaryCommentId)).

(** [finishReview]. *)
Definition finishReview (input : string) : M State unit :=
  tryCatch
    (createOrReplyComment input (Some false);;
     emit (Request SubmitReview);;
     await (submitReview pr);;
     setContextKey false)
    (λ e, emit (ShowErrorMessage "Failed to submit the review: " e)).

(** [deleteReview]. *)
Definition deleteReview : M State unit :=
  emit (Request DeleteReview);;
  await (pr_deleteReview pr);;
  setContextKey false.

End defs.
End Comments.

(** ** Reactions *)

Module Reactions.

(** The objects [toggleReaction] works on: the [_fileChanges] field of the
    node and the displayed comment it was invoked with. *)
Record State := {
  _fileChanges : option (list FileChange);
  comment : GHPRComment;
}.

Definition set_fileChanges (fcs : option (list FileChange)) (s : State) : State :=
  {| _fileChanges := fcs; comment := comment s |}.
Definition set_comment (c : GHPRComment) (s : State) : State :=
  {| _fileChanges := _fileChanges s; comment := c |}.

Section defs.
Context `{Helpers} (pr : PullRequestModel).

Definition getFileChanges : M State (list FileChange) :=
  zoom _fileChanges set_fileChanges (ContentProvider.getFileChanges pr).

(** [findMatchingFileNode]; the node is returned with its position in
    [_fileChanges], which stands for the identity of the object. *)
Definition findMatchingFileNode (uri : Uri) : M State (nat * InMemFileChangeNode) :=
  match fromPRUri uri with
  | None => throw (Error "is not valid PR document")
  | Some params =>
      changes ← getFileChanges;
      match list_find (λ change, fc_fileName (base change) = fileName params) changes with
      | None => throw (Error "No matching file found")
      | Some (_, Remote _) => throw (Error "Comments not supported on remote file changes")
      | Some (i, InMem fileChange) => mret (i, fileChange)
      end
  end.

(** The test of lines 861-864: the comment has a reaction list and the list
    holds no reaction with the label that the author has given. *)
Definition shouldAdd (comment : GHPRComment) (reaction : CommentReaction) : bool :=
  match reactions comment with
  | Some rs =>
      negb (existsb (λ ret, bool_decide (label ret = label reaction) && authorHasReacted ret) rs)
  | None => false
  end.

(** The comment carries a reaction with the label that the author has
    given. *)
Definition carriesOwnReaction (comment : GHPRComment) (reaction : CommentReaction) : Prop :=
  ∃ rs ret, reactions comment = Some rs ∧ ret ∈ rs
            ∧ label ret = label reaction ∧ authorHasReacted ret = true.

(** [fileChange.comments[commentIndex].reactions = parsed], on the node at
    position [i] of [_fileChanges]. *)
Definition storeReactions (i commentIndex : nat) (parsed : list Reaction)
    (changes : list FileChange) : list FileChange :=
  alter (λ change,
           match change with
           | InMem n =>
               InMem (set_fc_comments
                        (alter (set_c_reactions (Some parsed)) commentIndex (fc_comments n)) n)
           | Remote _ => change
           end) i changes.

(** [toggleReaction]. The last lines (876-890) reassign [thread.comments]
    to itself for the view host to redraw and change no object. *)
Definition toggleReaction (reaction : CommentReaction) : M State unit :=
  s ← get;
  let comment := comment s in
  if negb (bool_decide (scheme (parentUri comment) = "pr")) then mret tt
  else
    match fromPRUri (parentUri comment) with
    | None => mret tt
    | Some params =>
        found ← findMatchingFileNode (parentUri comment);
        let '(i, fileChange) := found in
        match list_find (λ c, pretty (c_id c) = commentId comment) (fc_comments fileChange) with
        | None => mret tt
        | Some (commentIndex, _) =>
            reactionGroups ←
              (if shouldAdd comment reaction then
                 emit (Request (AddCommentReaction
                                  (graphNodeId (_rawComment comment)) (label reaction)));;
                 await (addCommentReaction pr
                          (graphNodeId (_rawComment comment)) (label reaction))
               else
                 emit (Request (DeleteCommentReaction
                                  (graphNodeId (_rawComment comment)) (label reaction)));;
                 await (deleteCommentReaction pr
                          (graphNodeId (_rawComment comment)) (label reaction)));
            let parsed := parseGraphQLReaction reactionGroups in
            modify (λ s, set_fileChanges (storeReactions i commentIndex parsed <$> _fileChanges s) s);;
            modify (λ s, set_comment (updateCommentReactions comment parsed) s)
        end
    end.

End defs.
End Reactions.

(** ** Views of the handlers used in the further properties *)

Module ThreadCacheViews.
Import ThreadCache.
Section defs.
Context `{Helpers}.

(** The display thread [createVSCodeCommentThreadForReviewThread] creates. *)
Definition displayThreadFor (documentUri : Uri) (startLine : Z) (thread : IReviewThread)
    : GHPRCommentThread :=
  let vscodeThread :=
    {| uri := documentUri; range := startLine; threadId := rt_id thread;
       comments := map (λ c, Confirmed (newGHPRComment c documentUri)) (rt_comments thread);
       isResolved := rt_isResolved thread; threadLabel := None; disposed := false |} in
  set_threadLabel (labelFor vscodeThread) vscodeThread.

(** The test of lines 316-318 and 359-361. *)
Definition onSide (isBase : bool) (thread : IReviewThread) : bool :=
  (bool_decide (diffSide thread = LEFT) && isBase)
  || (bool_decide (diffSide thread = RIGHT) && negb isBase).

(** Lines 345-348 for one file name, and for a list of them. *)
Definition closeFile (file : string) (s : State) : State :=
  let handles := default [] (commentThreadCache s !! file) in
  set_commentThreadCache (delete file (commentThreadCache s))
    (set_threads (disposeAll handles (threads s)) s).

Definition closeFiles (files : list string) (s : State) : State :=
  foldl (λ s file, closeFile file s) s files.

(** The file names of a list of editors. *)
Definition fileNames (editors : list TextEditor) : list string :=
  omap (λ editor, fileName <$> fromPRUri (document_uri editor)) editors.

(** The objects after lines 383-410 have run for the added threads of an
    event. *)
Definition showAdded (pr : PullRequestModel) (visibleTextEditors : list TextEditor)
    (ts : list IReviewThread) (s : State) : State :=
  final (forEach ts (onAdded pr visibleTextEditors) s).

End defs.
End ThreadCacheViews.

(** ** Listeners and commenting ranges *)

Module Listeners.

(** The objects the listeners work on: the [_fileChanges] field of the
    node and the objects of the thread cache. *)
Record State := {
  fileChanges : ContentProvider.State;
  display : ThreadCache.State;
}.

Definition set_fileChanges (fcs : ContentProvider.State) (s : State) : State :=
  {| fileChanges := fcs; display := display s |}.
Definition set_display (d : ThreadCache.State) (s : State) : State :=
  {| fileChanges := fileChanges s; display := d |}.

Definition set_c_isDraft (d : bool) (c : IComment) : IComment :=
  {| c_id := c_id c; graphNodeId := graphNodeId c; c_path := c_path c;
     position := position c; c_body := c_body c; c_isDraft := d;
     c_reactions := c_reactions c |}.

Section defs.
Context `{Helpers} (pr : PullRequestModel).

(** [getCommentingRanges] (common/commentingRanges) and
    [updateCommentReviewState] (github/utils) are not part of the source
    file; the definitions below take them as they come. *)
Context {Range : Type} (getCommentingRanges : list DiffHunk → bool → list Range).
Context (updateCommentReviewState : GHPRCommentThread → bool → GHPRCommentThread).

(** Lines 162-166, for one file change. *)
Definition markDrafts (newDraftMode : bool) (fileChange : FileChange) : FileChange :=
  match fileChange with
  | InMem n =>
      InMem (set_fc_comments (map (set_c_isDraft newDraftMode) (fc_comments n)) n)
  | Remote _ => fileChange
  end.

(** The handler of [onDidChangePendingReviewState] in [registerListeners].
    The listeners are registered by [resolvePRCommentController] after it
    has stored the controller, so that the call of line 169 returns the
    stored controller. The entries of the cache are visited in the order of
    [map_to_list]; every thread gets the same update, so that the order of
    the entries makes no difference. *)
Definition onDidChangePendingReviewState (newDraftMode : bool) : M State unit :=
  (if negb newDraftMode then
     changes ← zoom fileChanges set_fileChanges (ContentProvider.getFileChanges pr);
     modify (set_fileChanges (Some (map (markDrafts newDraftMode) changes)))
   else mret tt);;
  s ← get;
  forEach (map_to_list (ThreadCache.commentThreadCache (display s))) (λ entry,
    forEach entry.2 (λ handle,
      modify (λ s,
        set_display
          (ThreadCache.set_threads
             (alter (λ thread, updateCommentReviewState thread newDraftMode) handle
                    (ThreadCache.threads (display s)))
             (display s)) s))).

(** [refreshContextKey]. *)
Definition refreshContextKey {S} (editor : option TextEditor) : M S unit :=
  match editor with
  | None => mret tt
  | Some editor =>
      let editorUri := document_uri editor in
      if negb (bool_decide (scheme editorUri = "pr")) then mret tt
      else
        match fromPRUri editorUri with
        | None => mret tt
        | Some params =>
            if negb (bool_decide (prNumber params = number pr)) then mret tt
            else emit (SetContext "prInDraft" (hasPendingReview pr))
        end
  end.

(** [provideCommentingRanges]; [None] is [undefined]. *)
Definition provideCommentingRanges (documentUri : Uri)
    : M ContentProvider.State (option (list Range)) :=
  if bool_decide (scheme documentUri = "pr") then
    match fromPRUri documentUri with
    | None => mret None
    | Some params =>
        if negb (bool_decide (prNumber params = number pr)) then mret None
        else
          changes ← ContentProvider.getFileChanges pr;
          match list_find (λ change, fc_fileName (base change) = fileName params) changes with
          | Some (_, InMem fileChange) =>
              mret (Some (getCommentingRanges (diffHunks fileChange) (isBase params)))
          | _ => mret None
          end
    end
  else mret None.

End defs.
End Listeners.

(** ** Concrete scenarios *)

Module Scenario.

(** A stand-in for the helpers: a [pr:] URI names the file in its path and
    the side in its query. *)
#[export] Instance sampleHelpers : Helpers :=
  {| fromPRUri := λ u,
       if bool_decide (scheme u = "pr") then
         Some {| fileName := path u; isBase := bool_decide (query u = "base");
                 baseCommit := "b0"; headCommit := "h0"; prNumber := 7 |}
       else None;
     relativeToRoot := λ p, p;
     labelFor := λ _, None;
     parseGraphQLReaction := λ gs,
       map (λ g, {| r_label := content g; r_count := totalCount g;
                    r_viewerHasReacted := viewerHasReacted g |}) gs;
     updateCommentReactions := λ c rs,
       {| commentId := commentId c; _rawComment := _rawComment c; body := body c;
          mode := mode c; commentLabel := commentLabel c;
          reactions := Some (map (λ r, {| label := r_label r; count := r_count r;
                                         authorHasReacted := r_viewerHasReacted r |}) rs);
          parentUri := parentUri c |};
     getModifiedContentFromDiffHunk := λ original _, Returned original |}.

Definition networkError : JsError := Error "network error".

(** A data layer on which every request fails. *)
Definition offline : PullRequestModel :=
  {| number := 7; pr_isResolved := true; hasPendingReview := false;
     mergeBase := Some "b0"; reviewThreadsCache := []; currentUser := "me";
     getReviewComments := Thrown networkError;
     getFileChangesInfo := Thrown networkError;
     parseDiff := Thrown networkError;
     getFile := λ _ _, Promise (Thrown networkError);
     repository_show := λ _ _, Thrown networkError;
     createCommentReply := λ _ _, Thrown networkError;
     createReviewThread := λ _ _ _, Thrown networkError;
     editReviewComment := λ _ _, Thrown networkError;
     deleteReviewComment := λ _, Thrown networkError;
     validateDraftMode := Thrown networkError;
     submitReview := Thrown networkError;
     pr_deleteReview := Thrown networkError;
     addCommentReaction := λ _ _, Thrown networkError;
     deleteCommentReaction := λ _ _, Thrown networkError |}.

(** A data layer on which every request succeeds, holding the given review
    threads. *)
Definition online (reviewThreads : list IReviewThread) : PullRequestModel :=
  {| number := 7; pr_isResolved := true; hasPendingReview := false;
     mergeBase := Some "b0"; reviewThreadsCache := reviewThreads; currentUser := "me";
     getReviewComments := Returned [];
     getFileChangesInfo := Returned tt;
     parseDiff := Returned [];
     getFile := λ _ _, Promise (Returned "content");
     repository_show := λ _ _, Returned "content";
     createCommentReply := λ _ _, Returned tt;
     createReviewThread := λ _ _ _, Returned tt;
     editReviewComment := λ _ _, Returned tt;
     deleteReviewComment := λ _, Returned tt;
     validateDraftMode := Returned false;
     submitReview := Returned tt;
     pr_deleteReview := Returned tt;
     addCommentReaction := λ _ _, Returned [];
     deleteCommentReaction := λ _ _, Returned [] |}.

Definition headOf (file : string) : Uri := {| scheme := "pr"; path := file; query := "head" |}.
Definition baseOf (file : string) : Uri := {| scheme := "pr"; path := file; query := "base" |}.

Definition rawComment1 : IComment :=
  {| c_id := 1; graphNodeId := "node1"; c_path := "a.ts"; position := Some 1%Z;
     c_body := "first"; c_isDraft := false; c_reactions := Some [] |}.

Definition reviewThread1 : IReviewThread :=
  {| rt_id := "T1"; rt_path := "a.ts"; line := 3; diffSide := RIGHT;
     isOutdated := false; rt_isResolved := false; rt_comments := [rawComment1] |}.

Definition editor1 : TextEditor := {| editorId := 1; document_uri := headOf "a.ts" |}.

(** An added file whose patch also carries a context line. *)
Definition addedWithContext : InMemFileChangeNode :=
  {| node := {| status := ADD; fc_fileName := "a.ts"; previousFileName := None;
                blobUrl := "https://example.invalid/a.ts" |};
     isPartial := false; patch := EmptyString;
     diffHunks := [ {| diffLines := [ {| type := Control; text := "@ -0,0 +1,2 @@" |};
                                      {| type := Context; text := "kept" |};
                                      {| type := Add; text := "new" |} ] |} ];
     fc_comments := [] |}.

(** A binary file, known to the node as a remote change only. *)
Definition remoteChange : FileChangeNode :=
  {| status := MODIFY; fc_fileName := "logo.png"; previousFileName := None;
     blobUrl := "https://example.invalid/logo.png" |}.

Definition confirmed1 : GHPRComment := newGHPRComment rawComment1 (headOf "a.ts").

Definition temporary (n : N) (text : string) : TemporaryComment :=
  {| t_id := n; t_body := text; t_mode := Preview; t_label := None;
     t_author := "me"; originalBody := None |}.

Definition threadWith (cs : list Comment) : GHPRCommentThread :=
  {| uri := headOf "a.ts"; range := 2; threadId := "T1"; comments := cs;
     isResolved := false; threadLabel := None; disposed := false |}.

(** A thread with a confirmed comment and two unconfirmed replies. *)
Definition discussion : Comments.State :=
  {| Comments.thread :=
       threadWith [Confirmed confirmed1; Temporary (temporary 0 "draft A");
                   Temporary (temporary 1 "draft B")];
     Comments.idPool := 2 |}.

(** A thread the user has just opened on a line, without comments. *)
Definition freshThread : Comments.State :=
  {| Comments.thread := threadWith []; Comments.idPool := 0 |}.

(** A modified file of which only a part of the hunks was fetched. *)
Definition partialChange : InMemFileChangeNode :=
  {| node := {| status := MODIFY; fc_fileName := "big.ts"; previousFileName := None;
                blobUrl := "https://example.invalid/big.ts" |};
     isPartial := true; patch := EmptyString; diffHunks := []; fc_comments := [] |}.

(** The file of [confirmed1], first with the comment in its list, then as
    it is for a comment made after the file list was built. *)
Definition changeWithComment : InMemFileChangeNode :=
  {| node := {| status := MODIFY; fc_fileName := "a.ts"; previousFileName := None;
                blobUrl := "https://example.invalid/a.ts" |};
     isPartial := false; patch := EmptyString; diffHunks := []; fc_comments := [rawComment1] |}.

Definition changeWithoutComment : InMemFileChangeNode :=
  {| node := {| status := MODIFY; fc_fileName := "a.ts"; previousFileName := None;
                blobUrl := "https://example.invalid/a.ts" |};
     isPartial := false; patch := EmptyString; diffHunks := []; fc_comments := [] |}.

Definition thumbsUp : CommentReaction :=
  {| label := "THUMBS_UP"; count := 0; authorHasReacted := false |}.

Definition emptyCache : ThreadCache.State :=
  {| ThreadCache.threads := []; ThreadCache.commentThreadCache := ∅;
     ThreadCache._openPREditors := [] |}.

Definition reviewThread2 : IReviewThread :=
  {| rt_id := "T2"; rt_path := "a.ts"; line := 9; diffSide := RIGHT;
     isOutdated := false; rt_isResolved := false; rt_comments := [] |}.

(** [reviewThread1] after it was resolved. *)
Definition reviewThread1Resolved : IReviewThread :=
  {| rt_id := "T1"; rt_path := "a.ts"; line := 3; diffSide := RIGHT;
     isOutdated := false; rt_isResolved := true; rt_comments := [rawComment1] |}.

(** The head side of a.ts is open and shows T1 and T2. *)
Definition twoThreads : ThreadCache.State :=
  {| ThreadCache.threads :=
       [ {| uri := headOf "a.ts"; range := 2; threadId := "T1";
            comments := [Confirmed confirmed1]; isResolved := false;
            threadLabel := None; disposed := false |};
         {| uri := headOf "a.ts"; range := 8; threadId := "T2";
            comments := []; isResolved := false;
            threadLabel := None; disposed := false |} ];
     ThreadCache.commentThreadCache := {[ "a.ts" := [0; 1] ]};
     ThreadCache._openPREditors := [editor1] |}.

(** T1 was resolved and T2 was deleted on the remote. *)
Definition resolvedAndDeleted : ReviewThreadChangeEvent :=
  {| added := []; changed := [reviewThread1Resolved]; removed := [reviewThread2] |}.

(** [confirmed1] as [toggleReaction] receives it, with the file changes of
    the node. *)
Definition listedComment : Reactions.State :=
  {| Reactions._fileChanges := Some [InMem changeWithComment];
     Reactions.comment := confirmed1 |}.

Definition unlistedComment : Reactions.State :=
  {| Reactions._fileChanges := Some [InMem changeWithoutComment];
     Reactions.comment := confirmed1 |}.

End Scenario.

(** Further scenarios. *)

Module MoreScenarios.
Import Scenario.

(** A comment on another file, and a comment on a.ts that has lost its
    position in the diff. *)
Definition rawComment2 : IComment :=
  {| c_id := 2; graphNodeId := "node2"; c_path := "b.ts"; position := Some 4%Z;
     c_body := "second"; c_isDraft := false; c_reactions := None |}.

Definition outdatedComment : IComment :=
  {| c_id := 3; graphNodeId := "node3"; c_path := "a.ts"; position := None;
     c_body := "third"; c_isDraft := false; c_reactions := None |}.

(** A data layer that reports three review comments and one modified
    file. *)
Definition reviewed : PullRequestModel :=
  {| number := 7; pr_isResolved := true; hasPendingReview := true;
     mergeBase := Some "b0"; reviewThreadsCache := []; currentUser := "me";
     getReviewComments := Returned [rawComment1; rawComment2; outdatedComment];
     getFileChangesInfo := Returned tt;
     parseDiff := Returned [ {| slim := false; rc_node := node changeWithComment;
                               rc_isPartial := false; rc_patch := EmptyString;
                               rc_diffHunks := [] |} ];
     getFile := λ _ _, Promise (Returned "content");
     repository_show := λ _ _, Returned "content";
     createCommentReply := λ _ _, Returned tt;
     createReviewThread := λ _ _ _, Returned tt;
     editReviewComment := λ _ _, Returned tt;
     deleteReviewComment := λ _, Returned tt;
     validateDraftMode := Returned true;
     submitReview := Returned tt;
     pr_deleteReview := Returned tt;
     addCommentReaction := λ _ _, Returned [];
     deleteCommentReaction := λ _ _, Returned [] |}.

(** A pull request that is not resolved. *)
Definition unresolved : PullRequestModel :=
  {| number := 7; pr_isResolved := false; hasPendingReview := false;
     mergeBase := None; reviewThreadsCache := []; currentUser := "me";
     getReviewComments := Thrown networkError;
     getFileChangesInfo := Thrown networkError;
     parseDiff := Thrown networkError;
     getFile := λ _ _, Promise (Thrown networkError);
     repository_show := λ _ _, Thrown networkError;
     createCommentReply := λ _ _, Thrown networkError;
     createReviewThread := λ _ _ _, Thrown networkError;
     editReviewComment := λ _ _, Thrown networkError;
     deleteReviewComment := λ _, Thrown networkError;
     validateDraftMode := Thrown networkError;
     submitReview := Thrown networkError;
     pr_deleteReview := Thrown networkError;
     addCommentReaction := λ _ _, Thrown networkError;
     deleteCommentReaction := λ _ _, Thrown networkError |}.

(** An added binary file, and a.ts as a remote change. *)
Definition remoteAdded : FileChangeNode :=
  {| status := ADD; fc_fileName := "new.png"; previousFileName := None;
     blobUrl := "https://example.invalid/new.png" |}.

Definition remoteA : FileChangeNode :=
  {| status := MODIFY; fc_fileName := "a.ts"; previousFileName := None;
     blobUrl := "https://example.invalid/a.ts" |}.

(** An added file with two lines. *)
Definition addedFile : InMemFileChangeNode :=
  {| node := {| status := ADD; fc_fileName := "new.ts"; previousFileName := None;
                blobUrl := "https://example.invalid/new.ts" |};
     isPartial := false; patch := EmptyString;
     diffHunks := [ {| diffLines := [ {| type := Control; text := "@ -0,0 +1,2 @@" |};
                                      {| type := Add; text := "one" |};
                                      {| type := Add; text := "two" |} ] |} ];
     fc_comments := [] |}.

(** The parameters [sampleHelpers] reads off the URI of a side of a file. *)
Definition paramsOf (file : string) (onBase : bool) : PRUriParams :=
  {| fileName := file; isBase := onBase; baseCommit := "b0"; headCommit := "h0";
     prNumber := 7 |}.

(** A review thread on a file that is not open. *)
Definition threadOnOtherFile : IReviewThread :=
  {| rt_id := "T3"; rt_path := "b.ts"; line := 1; diffSide := RIGHT;
     isOutdated := false; rt_isResolved := false; rt_comments := [] |}.

(** A thread is added to a.ts, which is open; T1 was resolved; and a thread
    on b.ts, which is not open, has changed. *)
Definition reviewThread4 : IReviewThread :=
  {| rt_id := "T4"; rt_path := "a.ts"; line := 12; diffSide := RIGHT;
     isOutdated := false; rt_isResolved := false; rt_comments := [] |}.

Definition addedAndChanged : ReviewThreadChangeEvent :=
  {| added := [reviewThread4];
     changed := [reviewThread1Resolved; threadOnOtherFile];
     removed := [reviewThread2] |}.

Definition onlyAdded (ts : list IReviewThread) : ReviewThreadChangeEvent :=
  {| added := ts; changed := []; removed := [] |}.
Definition onlyChanged (ts : list IReviewThread) : ReviewThreadChangeEvent :=
  {| added := []; changed := ts; removed := [] |}.
Definition onlyRemoved (ts : list IReviewThread) : ReviewThreadChangeEvent :=
  {| added := []; changed := []; removed := ts |}.

(** A thread that holds nothing but a comment that was never sent. *)
Definition unsentOnly : Comments.State :=
  {| Comments.thread := threadWith [Temporary (temporary 0 "draft")];
     Comments.idPool := 1 |}.

(** [confirmed1] with a.ts held as a remote change. *)
Definition commentOnRemote : Reactions.State :=
  {| Reactions._fileChanges := Some [Remote remoteA];
     Reactions.comment := confirmed1 |}.

(** b.ts with [rawComment2], which has no reaction list, and the comment
    as [toggleReaction] receives it. *)
Definition changeB : InMemFileChangeNode :=
  {| node := {| status := MODIFY; fc_fileName := "b.ts"; previousFileName := None;
                blobUrl := "https://example.invalid/b.ts" |};
     isPartial := false; patch := EmptyString; diffHunks := [];
     fc_comments := [rawComment2] |}.

Definition commentWithoutReactions : Reactions.State :=
  {| Reactions._fileChanges := Some [InMem changeB];
     Reactions.comment := newGHPRComment rawComment2 (headOf "b.ts") |}.

(** a.ts with a comment of the pending review. *)
Definition draftComment : IComment :=
  {| c_id := 4; graphNodeId := "node4"; c_path := "a.ts"; position := Some 2%Z;
     c_body := "pending"; c_isDraft := true; c_reactions := None |}.

Definition changeWithDraft : InMemFileChangeNode :=
  {| node := {| status := MODIFY; fc_fileName := "a.ts"; previousFileName := None;
                blobUrl := "https://example.invalid/a.ts" |};
     isPartial := false; patch := EmptyString; diffHunks := [];
     fc_comments := [rawComment1; draftComment] |}.

Definition reviewing : Listeners.State :=
  {| Listeners.fileChanges := Some [InMem changeWithDraft; Remote remoteChange];
     Listeners.display := twoThreads |}.

Definition notFetched : Listeners.State :=
  {| Listeners.fileChanges := None; Listeners.display := twoThreads |}.

(** A stand-in for [updateCommentReviewState]: the label of the thread
    tells the draft mode. *)
Definition sampleUpdate (thread : GHPRCommentThread) (newDraftMode : bool)
    : GHPRCommentThread :=
  set_threadLabel (if newDraftMode then Some "Pending" else None) thread.

End MoreScenarios.


(** * Properties *)

(** ** The monad *)

Ltac run :=
  repeat (cbn -[String.concat pretty] in * ||
          unfold mbind, M_bind, mret, M_ret, get, gets, put, modify, emit, throw,
                 await, tryCatch, detached, forEachAsync, zoom,
                 outcome, final, trace in * ).

(** ** Document content *)

Module ContentProviderFacts.
Import ContentProvider.
Section facts.
Context `{Helpers} (pr : PullRequestModel).

Lemma foldl_pushLeft (lines : list DiffLine) (acc : list string) :
  foldl pushLeft acc lines = acc ++ map text (List.filter (belongsTo true) lines).
Proof.
  revert acc. induction lines as [|l lines IH]; intros acc; simpl.
  - by rewrite app_nil_r.
  - rewrite IH. unfold pushLeft, belongsTo.
    destruct (type l); simpl; by rewrite -?app_assoc.
Qed.

Lemma foldl_pushRight (lines : list DiffLine) (acc : list string) :
  foldl pushRight acc lines = acc ++ map text (List.filter (belongsTo false) lines).
Proof.
  revert acc. induction lines as [|l lines IH]; intros acc; simpl.
  - by rewrite app_nil_r.
  - rewrite IH. unfold pushRight, belongsTo.
    destruct (type l); simpl; by rewrite -?app_assoc.
Qed.

Lemma foldl_hunks (push : list string → DiffLine → list string) (keep : DiffLine → bool) :
  (∀ lines acc, foldl push acc lines = acc ++ map text (List.filter keep lines)) →
  ∀ (hunks : list DiffHunk) acc,
    foldl (λ acc hunk, foldl push acc (diffLines hunk)) acc hunks
    = acc ++ map text (List.filter keep (concat (map diffLines hunks))).
Proof.
  intros Hpush hunks. induction hunks as [|h hunks IH]; intros acc; simpl.
  - by rewrite app_nil_r.
  - rewrite IH Hpush List.filter_app map_app. by rewrite app_assoc.
Qed.

(** The loops over the hunks compute what the specification describes. *)
Lemma readContentFromDiffHunk_sideContent (isBase : bool) (hunks : list DiffHunk) :
  readContentFromDiffHunk isBase hunks = sideContent isBase hunks.
Proof.
  unfold readContentFromDiffHunk, sideContent. f_equal.
  destruct isBase.
  - by rewrite (foldl_hunks pushLeft (belongsTo true) foldl_pushLeft).
  - by rewrite (foldl_hunks pushRight (belongsTo false) foldl_pushRight).
Qed.

(** A side to which no line of the hunks belongs has no content. *)
Lemma sideContent_nothing (isBase : bool) (hunks : list DiffHunk) :
  Forall (λ hunk, Forall (λ l, belongsTo isBase l = false) (diffLines hunk)) hunks →
  sideContent isBase hunks = EmptyString.
Proof.
  intros Hhunks. unfold sideContent.
  assert (List.filter (belongsTo isBase) (concat (map diffLines hunks)) = []) as ->; [|done].
  induction Hhunks as [|hunk hunks Hhunk _ IH]; [done|].
  simpl. rewrite List.filter_app IH app_nil_r.
  induction Hhunk as [|l ls Hl _ IHl]; [done|]. simpl. by rewrite Hl IHl.
Qed.

(** C4: for an ADD or DELETE change held in memory with all of its hunks,
    [provideDocumentContent] returns for a side exactly the lines of the
    hunks that belong to that side (Add lines to the head side, Delete lines
    to the base side, Context lines to both, Control lines to neither), in
    hunk order, joined with newlines; it sends no request and leaves the
    file changes as they are. The hunks of such a change hold the entirety
    of one side: when the side asked for is the one on which the file does
    not exist (the base of an ADD, the head of a DELETE), no line of the
    hunks belongs to it. *)
Theorem provideDocumentContent_add_delete
    (uri : Uri) (params : PRUriParams) (changes : list FileChange) (fc : InMemFileChangeNode) :
  fromPRUri uri = Some params →
  List.find (λ c, bool_decide (fc_fileName (base c) = fileName params)) changes
    = Some (InMem fc) →
  isPartial fc = false →
  status fc = ADD ∨ status fc = DELETE →
  (absentSide (status fc) (isBase params) = true →
   Forall (λ hunk, Forall (λ l, belongsTo (isBase params) l = false) (diffLines hunk))
          (diffHunks fc)) →
  provideDocumentContent pr uri (Some changes)
  = (Returned (sideContent (isBase params) (diffHunks fc)), Some changes, []).
Proof.
  intros Hparams Hfind Hpartial Hstatus Hmodel.
  unfold provideDocumentContent, getFileChanges. rewrite Hparams. run.
  rewrite Hfind. run. unfold absentSide in Hmodel.
  destruct ((isBase params && bool_decide (status fc = ADD))
            || (negb (isBase params) && bool_decide (status fc = DELETE))) eqn:Habsent.
  - by rewrite sideContent_nothing; [|apply Hmodel].
  - rewrite Hpartial. run. unfold inMemContent.
    assert (bool_decide (status fc = ADD) || bool_decide (status fc = DELETE) = true) as ->.
    { destruct Hstatus as [-> | ->]; done. }
    run. by rewrite readContentFromDiffHunk_sideContent.
Qed.

(** A remote fetch whose promise rejects: the rejection is what
    [provideDocumentContent] settles with, and no warning is shown. *)
Lemma fetchRemote_rejected (params : PRUriParams) (fileChange : FileChangeNode)
    (st : State) (filePath commit : string) (e : JsError) :
  filePath = (if isBase params
              then orElse (previousFileName fileChange) (fc_fileName fileChange)
              else fc_fileName fileChange) →
  commit = (if isBase params then baseCommit params else headCommit params) →
  getFile pr filePath commit = Promise (Thrown e) →
  fetchRemote pr params fileChange st = (Thrown e, st, [Request (GetFile filePath commit)]).
Proof.
  intros -> -> Hget. unfold fetchRemote. run. rewrite Hget. by run.
Qed.

(** The [catch] clause of lines 608-621 is reached by a synchronous throw
    of the call. *)
Lemma fetchRemote_sync_throw (params : PRUriParams) (fileChange : FileChangeNode)
    (st : State) (filePath commit : string) (e : JsError) :
  filePath = (if isBase params
              then orElse (previousFileName fileChange) (fc_fileName fileChange)
              else fc_fileName fileChange) →
  commit = (if isBase params then baseCommit params else headCommit params) →
  getFile pr filePath commit = SyncThrow e →
  outcome (fetchRemote pr params fileChange st) = Returned EmptyString.
Proof.
  intros -> -> Hget. unfold fetchRemote. run. rewrite Hget. by run.
Qed.

(** When the content provider is registered, the file changes have been
    assigned, and no call of the provider takes them away. *)
Lemma assignFileChanges_assigns (st : State) :
  outcome (assignFileChanges pr st) = Returned tt →
  is_Some (final (assignFileChanges pr st)).
Proof.
  unfold assignFileChanges, resolveFileChanges. run.
  destruct (pr_isResolved pr); run; [|by eexists].
  destruct (getReviewComments pr); run; [|done].
  destruct (getFileChangesInfo pr); run; [|done].
  destruct (mergeBase pr); run; [|by eexists].
  destruct (parseDiff pr); run; [by eexists|done].
Qed.

Lemma provideDocumentContent_keeps_fileChanges (uri : Uri) (changes : list FileChange) :
  final (provideDocumentContent pr uri (Some changes)) = Some changes.
Proof.
  unfold provideDocumentContent, getFileChanges, fetchRemote, inMemContent. run.
  repeat (case_match; run; simplify_eq; try done).
Qed.

(** C10: a URI that does not decode as a PR document URI, or that names a
    file for which the node holds no file change, gets the empty string:
    [provideDocumentContent] returns normally, sends no request and leaves
    the file changes as they are. The content provider is registered (lines
    94-101) after [_fileChanges] has been assigned, so the file changes are
    known when a file is looked up. *)
Theorem provideDocumentContent_unknown (uri : Uri) (st : State) :
  fromPRUri uri = None
  ∨ (∃ params changes,
       fromPRUri uri = Some params ∧ st = Some changes ∧
       List.find (λ c, bool_decide (fc_fileName (base c) = fileName params)) changes = None) →
  ∃ tr, provideDocumentContent pr uri st = (Returned EmptyString, st, tr)
        ∧ ∀ r, Request r ∉ tr.
Proof.
  intros [Hnone | (params & changes & Hparams & -> & Hfind)];
    unfold provideDocumentContent, getFileChanges.
  - rewrite Hnone. eexists. split; [done|]. intros r Hr. by apply elem_of_nil in Hr.
  - rewrite Hparams. run. rewrite Hfind. run. eexists. split; [done|].
    intros r Hr. apply list_elem_of_singleton in Hr. discriminate.
Qed.

End facts.

Import Scenario.

(** C4, on both sides of an added file with two lines. *)
Lemma provideDocumentContent_add_delete_witness :
  provideDocumentContent (online []) (headOf "new.ts") (Some [InMem MoreScenarios.addedFile])
  = (Returned (String.concat LF ["one"; "two"]), Some [InMem MoreScenarios.addedFile], [])
  ∧ provideDocumentContent (online []) (baseOf "new.ts")
      (Some [InMem MoreScenarios.addedFile])
    = (Returned EmptyString, Some [InMem MoreScenarios.addedFile], []).
Proof.
  split.
  - apply (provideDocumentContent_add_delete (online []) (headOf "new.ts")
             (MoreScenarios.paramsOf "new.ts" false)
             [InMem MoreScenarios.addedFile] MoreScenarios.addedFile).
    + reflexivity.
    + reflexivity.
    + reflexivity.
    + left. reflexivity.
    + intros Habsent. discriminate Habsent.
  - apply (provideDocumentContent_add_delete (online []) (baseOf "new.ts")
             (MoreScenarios.paramsOf "new.ts" true)
             [InMem MoreScenarios.addedFile] MoreScenarios.addedFile).
    + reflexivity.
    + reflexivity.
    + reflexivity.
    + left. reflexivity.
    + intros _. constructor; [|constructor].
      constructor; [reflexivity|].
      constructor; [reflexivity|].
      constructor; [reflexivity|].
      constructor.
Defined.

(** C5: the fetch of a remote-only change and of a partially fetched
    change is rejected by the data layer: [provideDocumentContent] settles
    with the rejection, where the specification has it return the empty string
    after a warning. *)
Theorem provideDocumentContent_fetch_rejection_propagates :
  provideDocumentContent offline (headOf "logo.png") (Some [Remote remoteChange])
  = (Thrown networkError, Some [Remote remoteChange], [Request (GetFile "logo.png" "h0")])
  ∧ provideDocumentContent offline (baseOf "big.ts") (Some [InMem partialChange])
    = (Thrown networkError, Some [InMem partialChange], [Request (GetFile "big.ts" "b0")]).
Proof. by vm_compute. Qed.

(** C10, at a URI that is not a PR document URI and at the URI of a file
    the pull request does not touch. *)
Lemma provideDocumentContent_unknown_witness :
  (∃ tr, provideDocumentContent offline
           {| scheme := "file"; path := "a.ts"; query := EmptyString |} None
         = (Returned EmptyString, None, tr)
         ∧ ∀ r, Request r ∉ tr)
  ∧ (∃ tr, provideDocumentContent offline (headOf "other.ts")
             (Some [InMem addedWithContext; Remote remoteChange])
           = (Returned EmptyString, Some [InMem addedWithContext; Remote remoteChange], tr)
           ∧ ∀ r, Request r ∉ tr).
Proof.
  split.
  - apply (provideDocumentContent_unknown offline
             {| scheme := "file"; path := "a.ts"; query := EmptyString |} None).
    left. reflexivity.
  - apply (provideDocumentContent_unknown offline (headOf "other.ts")
             (Some [InMem addedWithContext; Remote remoteChange])).
    right. eexists _, _. split; [reflexivity|]. split; reflexivity.
Defined.

End ContentProviderFacts.

(** ** Comment actions *)

Module CommentsFacts.
Import Comments.
Section facts.
Context `{Helpers} (pr : PullRequestModel).

(** What [optimisticallyAddComment] does: the id comes from the pool, the
    new comment goes to the end of the list. *)
Lemma optimisticallyAddComment_run (input : string) (inDraft : bool) (st : State) :
  optimisticallyAddComment pr input inDraft st
  = (Returned (idPool st),
     {| thread :=
          updateCommentThreadLabel
            (set_comments
               (comments (thread st) ++
                  [Temporary {| t_id := idPool st; t_body := input; t_mode := Preview;
                                t_label := if inDraft then Some "Pending" else None;
                                t_author := currentUser pr; originalBody := None |}])
               (thread st));
        idPool := N.succ (idPool st) |},
     []).
Proof. done. Qed.

Lemma makeEditable_temporary (tc : TemporaryComment) :
  makeEditable (t_id tc) (Temporary tc) = Temporary (set_t_mode Editing tc).
Proof. unfold makeEditable. by rewrite bool_decide_eq_true_2. Qed.

(** With an id that no temporary comment of the list carries, flagging
    changes no comment. *)
Lemma makeEditable_fresh (n : N) (cs : list Comment) :
  (∀ tc, Temporary tc ∈ cs → t_id tc ≠ n) →
  map (makeEditable n) cs = cs.
Proof.
  induction cs as [|c cs IH]; intros Hfresh; [done|]. simpl. rewrite IH.
  - f_equal. destruct c as [g|tc]; [done|]. simpl.
    rewrite bool_decide_eq_false_2 //. apply Hfresh. by left.
  - intros tc Htc. apply Hfresh. by right.
Qed.

(** C3: when the request sent by [createOrReplyComment] fails (the new
    review thread for a thread without comments, the reply for a thread
    that starts with a confirmed comment), the call still returns normally
    and the temporary comment it inserted is the last comment of the
    thread, flagged [Editing], with the input as its body; no comment has
    left the list. *)
Theorem createOrReplyComment_failure_keeps_temporary
    (st : State) (input : string) (inDraft : option bool) (e : JsError) :
  (comments (thread st) = [] ∧
   createReviewThread pr input (gitRelativeRootPath (path (uri (thread st))))
                      (range (thread st) + 1) = Thrown e)
  ∨ (∃ c rest, comments (thread st) = Confirmed c :: rest ∧
               createCommentReply pr input (graphNodeId (_rawComment c)) = Thrown e) →
  let r := createOrReplyComment pr input inDraft st in
  outcome r = Returned tt
  ∧ ∃ tc, comments (thread (final r))
          = map (makeEditable (t_id tc)) (comments (thread st)) ++ [Temporary tc]
          ∧ t_id tc = idPool st ∧ t_body tc = input ∧ t_mode tc = Editing
          ∧ ShowErrorMessage "Creating comment failed: " e ∈ trace r.
Proof.
  intros Hfail r. subst r. unfold createOrReplyComment.
  set (tc := {| t_id := idPool st; t_body := input; t_mode := Editing;
                t_label := if default (hasPendingReview pr) inDraft
                           then Some "Pending" else None;
                t_author := currentUser pr; originalBody := None |}).
  destruct Hfail as [[Hnil Hcall] | (c & rest & Hcons & Hcall)].
  - run. rewrite optimisticallyAddComment_run. run. rewrite Hnil. run.
    rewrite (bool_decide_eq_false_2 (0 ≠ 0)); [|lia]. run. rewrite Hcall. run.
    rewrite bool_decide_eq_true_2 //.
    split; [done|]. exists tc. repeat split. set_solver.
  - run. rewrite optimisticallyAddComment_run. run. rewrite Hcons. run.
    rewrite bool_decide_eq_true_2; [|lia].
    unfold reply. run. rewrite Hcall. run.
    rewrite map_app /= bool_decide_eq_true_2 //.
    split; [done|]. exists tc. repeat split. set_solver.
Qed.

(** The actions that guard their request with [try]/[catch] return
    normally whatever the data layer answers. *)
Lemma tryCatch_returns {S} (body : M S unit) (handler : JsError → M S unit) (s : S) :
  (∀ e s', outcome (handler e s') = Returned tt) →
  outcome (tryCatch body handler s) = Returned tt.
Proof.
  intros Hh. unfold tryCatch, outcome.
  destruct (body s) as [[[[]|e] s'] t]; [done|].
  specialize (Hh e s'). unfold outcome in Hh.
  by destruct (handler e s') as [[r s''] t'].
Qed.

Lemma bind_returns {S A} (m : M S A) (k : A → M S unit) (s : S) :
  (∃ a, outcome (m s) = Returned a) →
  (∀ a s', outcome (k a s') = Returned tt) →
  outcome ((m ≫= k) s) = Returned tt.
Proof.
  intros [a Ha] Hk. unfold mbind, M_bind, outcome in *.
  destruct (m s) as [[r s'] t]. simpl in Ha. subst r.
  specialize (Hk a s'). by destruct (k a s') as [[r s''] t'].
Qed.

Lemma createOrReplyComment_returns (input : string) (inDraft : option bool) (st : State) :
  outcome (createOrReplyComment pr input inDraft st) = Returned tt.
Proof.
  unfold createOrReplyComment.
  apply bind_returns; [by eexists|]. intros s0 s1.
  apply bind_returns; [by eexists|]. intros tid s2.
  apply tryCatch_returns. intros e s3. by run.
Qed.

Lemma startReview_returns (input : string) (st : State) :
  outcome (startReview pr input st) = Returned tt.
Proof.
  unfold startReview.
  apply bind_returns; [by eexists|]. intros tid s2.
  apply tryCatch_returns. intros e s3. by run.
Qed.

Lemma finishReview_returns (input : string) (st : State) :
  outcome (finishReview pr input st) = Returned tt.
Proof.
  unfold finishReview. apply tryCatch_returns. intros e s3. by run.
Qed.


(** What [deleteComment] does with a temporary comment: the filter keeps
    the temporary comments that carry the id of the one to delete and drops
    every other comment; the only request is the draft-mode check. *)
Lemma deleteComment_temporary (tc : TemporaryComment) (st : State) :
  comments (thread (final (deleteComment pr (Temporary tc) st)))
  = List.filter (λ c, match c with
                      | Temporary tc' => bool_decide (t_id tc' = t_id tc)
                      | Confirmed _ => false
                      end) (comments (thread st))
  ∧ trace (deleteComment pr (Temporary tc) st) = [Request ValidateDraftMode].
Proof.
  unfold deleteComment. run. by destruct (validateDraftMode pr).
Qed.

(** With a confirmed comment and a failing delete request, the rejection
    is what the promise of [deleteComment] settles with; nothing is shown to
    the user. *)
Lemma deleteComment_confirmed_rejected (c : GHPRComment) (st : State) (e : JsError) :
  deleteReviewComment pr (commentId c) = Thrown e →
  deleteComment pr (Confirmed c) st
  = (Thrown e, st, [Request (DeleteReviewComment (commentId c))]).
Proof. intros Hcall. unfold deleteComment. run. rewrite Hcall. by run. Qed.

Lemma deleteReview_rejected (st : State) (e : JsError) :
  pr_deleteReview pr = Thrown e →
  deleteReview pr st = (Thrown e, st, [Request DeleteReview]).
Proof. intros Hcall. unfold deleteReview. run. rewrite Hcall. by run. Qed.

End facts.

Import Scenario.

(** C1: a thread holds a confirmed comment and two temporary ones;
    deleting the first temporary comment leaves that comment as the only
    one in the list, where the specification keeps the confirmed comment and the
    other temporary comment and removes the one deleted. No delete request
    is sent. *)
Theorem deleteComment_temporary_keeps_only_deleted :
  let r := deleteComment (online [])
             (Temporary (temporary 0 "draft A")) discussion in
  comments (thread (final r)) = [Temporary (temporary 0 "draft A")]
  ∧ comments (thread (final r))
    ≠ [Confirmed confirmed1; Temporary (temporary 1 "draft B")]
  ∧ trace r = [Request ValidateDraftMode].
Proof. by vm_compute. Qed.

(** C8: with a data layer that rejects every request, [deleteComment] on a
    confirmed comment and [deleteReview] settle with the rejection and show
    no message, where [createOrReplyComment] on the same data layer returns
    normally after one message. *)
Theorem deleteComment_deleteReview_propagate :
  deleteComment offline (Confirmed confirmed1) discussion
  = (Thrown networkError, discussion, [Request (DeleteReviewComment "1")])
  ∧ deleteReview offline discussion
    = (Thrown networkError, discussion, [Request DeleteReview])
  ∧ outcome (createOrReplyComment offline "reply" None discussion)
    = Returned tt
  ∧ trace (createOrReplyComment offline "reply" None discussion)
    = [Request (CreateCommentReply "reply" "node1");
       ShowErrorMessage "Creating comment failed: " networkError].
Proof. by vm_compute. Qed.

(** When both the reply and the submission fail, [finishReview] shows two
    messages: the one of [createOrReplyComment] and its own. *)
Lemma finishReview_two_failures_two_messages :
  trace (finishReview offline "done" discussion)
  = [Request (CreateCommentReply "done" "node1");
     ShowErrorMessage "Creating comment failed: " networkError;
     Request SubmitReview;
     ShowErrorMessage "Failed to submit the review: " networkError].
Proof. by vm_compute. Qed.

(** C3 on a data layer that rejects every request: at a thread without
    comments (a new review thread is requested) and at a thread that starts
    with a confirmed comment (a reply is requested). *)
Lemma createOrReplyComment_failure_keeps_temporary_witness :
  (let r := createOrReplyComment offline "typed text" None freshThread in
   outcome r = Returned tt
   ∧ ∃ tc, comments (thread (final r))
           = map (makeEditable (t_id tc)) (comments (thread freshThread)) ++ [Temporary tc]
           ∧ t_id tc = idPool freshThread ∧ t_body tc = "typed text" ∧ t_mode tc = Editing
           ∧ ShowErrorMessage "Creating comment failed: " networkError ∈ trace r)
  ∧ (let r := createOrReplyComment offline "typed text" (Some true) discussion in
     outcome r = Returned tt
     ∧ ∃ tc, comments (thread (final r))
             = map (makeEditable (t_id tc)) (comments (thread discussion)) ++ [Temporary tc]
             ∧ t_id tc = idPool discussion ∧ t_body tc = "typed text" ∧ t_mode tc = Editing
             ∧ ShowErrorMessage "Creating comment failed: " networkError ∈ trace r).
Proof.
  split.
  - apply (createOrReplyComment_failure_keeps_temporary
             offline freshThread "typed text" None networkError).
    left. split; reflexivity.
  - apply (createOrReplyComment_failure_keeps_temporary
             offline discussion "typed text" (Some true) networkError).
    right. eexists _, _. split; reflexivity.
Defined.

End CommentsFacts.

(** ** Reactions *)

Module ReactionsFacts.
Import Reactions.
Section facts.
Context `{Helpers} (pr : PullRequestModel).

Lemma shouldAdd_true (comment : GHPRComment) (reaction : CommentReaction) :
  shouldAdd comment reaction = true
  ↔ is_Some (reactions comment) ∧ ¬ carriesOwnReaction comment reaction.
Proof.
  unfold shouldAdd, carriesOwnReaction. destruct (reactions comment) as [rs|].
  - rewrite negb_true_iff -not_true_iff_false existsb_exists. split.
    + intros Hno. split; [by eexists|]. intros (rs' & ret & [= <-] & Hin & Hl & Ha).
      apply Hno. exists ret. split; [by apply list_elem_of_In|].
      rewrite Ha andb_true_r. by apply bool_decide_eq_true_2.
    + intros [_ Hno] (ret & Hin & Hret). apply Hno.
      apply andb_true_iff in Hret as [Hl Ha]. apply bool_decide_eq_true_1 in Hl.
      exists rs, ret. split; [done|]. split; [by apply list_elem_of_In|]. done.
  - split; [done|]. intros [[? [=]] _].
Qed.

(** C6 (as amended): [toggleReaction] is invoked on a comment that it can
    locate: the URI of its thread is a PR document URI, the file changes hold
    an in-memory change for the file, and the comment is in the comment
    list of that change. For a comment that has a reaction list, exactly one
    request is sent: an add-reaction request when the list holds no reaction
    with the label that the author has given, a remove-reaction request
    when it holds one. When the request succeeds, the reaction list of the
    comment in the file change is what [parseGraphQLReaction] makes of the
    reaction groups of the response, whatever the list was before. *)
Theorem toggleReaction_located
    (st : State) (reaction : CommentReaction) (params : PRUriParams)
    (changes : list FileChange) (i : nat) (fc : InMemFileChangeNode)
    (commentIndex : nat) (c : IComment) :
  scheme (parentUri (comment st)) = "pr" →
  fromPRUri (parentUri (comment st)) = Some params →
  _fileChanges st = Some changes →
  list_find (λ change, fc_fileName (base change) = fileName params) changes
    = Some (i, InMem fc) →
  list_find (λ c, pretty (c_id c) = commentId (comment st)) (fc_comments fc)
    = Some (commentIndex, c) →
  is_Some (reactions (comment st)) →
  let r := toggleReaction pr reaction st in
  let nodeId := graphNodeId (_rawComment (comment st)) in
  (¬ carriesOwnReaction (comment st) reaction →
   trace r = [Request (AddCommentReaction nodeId (label reaction))])
  ∧ (carriesOwnReaction (comment st) reaction →
     trace r = [Request (DeleteCommentReaction nodeId (label reaction))])
  ∧ ∀ reactionGroups,
      (if shouldAdd (comment st) reaction
       then addCommentReaction pr nodeId (label reaction)
       else deleteCommentReaction pr nodeId (label reaction)) = Returned reactionGroups →
      outcome r = Returned tt
      ∧ ∃ changes' fc',
          _fileChanges (final r) = Some changes'
          ∧ changes' !! i = Some (InMem fc')
          ∧ c_reactions <$> fc_comments fc' !! commentIndex
            = Some (Some (parseGraphQLReaction reactionGroups)).
Proof.
  intros Hscheme Hparams Hchanges Hfile Hcomment Hlist r nodeId.
  pose proof (shouldAdd_true (comment st) reaction) as Hadd.
  subst r nodeId.
  apply list_find_Some in Hfile as Hfile'. destruct Hfile' as (Hi & _ & _).
  apply list_find_Some in Hcomment as Hcomment'. destruct Hcomment' as (Hci & _ & _).
  unfold toggleReaction. run. rewrite bool_decide_eq_true_2 //. run.
  rewrite Hparams. unfold findMatchingFileNode, getFileChanges,
    ContentProvider.getFileChanges. run. rewrite Hparams. run.
  rewrite Hchanges. run. rewrite Hfile. run. rewrite Hcomment. run.
  destruct (shouldAdd (comment st) reaction) eqn:Hs; run.
  - split; [|split].
    + intros _. by destruct (addCommentReaction pr _ _).
    + intros Hcarries. exfalso. by apply Hadd.
    + intros groups ->. run. split; [done|].
      unfold storeReactions.
      eexists _, _. split; [done|]. split.
      * rewrite list_lookup_alter_eq Hi. done.
      * simpl. rewrite list_lookup_alter_eq Hci. done.
  - split; [|split].
    + intros Hnot. assert (false = true) as Habs by by apply Hadd. discriminate Habs.
    + intros _. by destruct (deleteCommentReaction pr _ _).
    + intros groups ->. run. split; [done|].
      unfold storeReactions.
      eexists _, _. split; [done|]. split.
      * rewrite list_lookup_alter_eq Hi. done.
      * simpl. rewrite list_lookup_alter_eq Hci. done.
Qed.

End facts.

Import Scenario.

(** C6 as stated fails for a comment that is not in the comment list of
    its file change (a comment made after the list was built): the comment
    carries no reaction of the author, and no request is sent at all. *)
Lemma toggleReaction_unlisted_comment_sends_nothing :
  reactions (comment unlistedComment) = Some []
  ∧ toggleReaction (online []) thumbsUp unlistedComment
    = (Returned tt, unlistedComment, [])
  ∧ Request (AddCommentReaction "node1" "THUMBS_UP")
    ∉ trace (toggleReaction (online []) thumbsUp unlistedComment).
Proof.
  split; [done|]. split; [by vm_compute|].
  assert (trace (toggleReaction (online []) thumbsUp unlistedComment) = []) as ->
    by by vm_compute.
  apply not_elem_of_nil.
Qed.

(** C6, at a comment that is in the comment list of its file change and
    carries no reaction. *)
Lemma toggleReaction_located_witness :
  let r := toggleReaction (online []) thumbsUp listedComment in
  trace r = [Request (AddCommentReaction "node1" "THUMBS_UP")]
  ∧ outcome r = Returned tt
  ∧ ∃ changes' fc',
      _fileChanges (final r) = Some changes'
      ∧ changes' !! 0 = Some (InMem fc')
      ∧ c_reactions <$> fc_comments fc' !! 0 = Some (Some []).
Proof.
  destruct (toggleReaction_located (online []) listedComment thumbsUp
              {| fileName := "a.ts"; isBase := false; baseCommit := "b0";
                 headCommit := "h0"; prNumber := 7 |}
              [InMem changeWithComment] 0 changeWithComment 0 rawComment1)
    as (Hadd & _ & Hresp); try reflexivity.
  - by eexists.
  - split; [|by apply (Hresp [])].
    apply Hadd.
    intros (rs & ret & [= <-] & Hin & _). by apply elem_of_nil in Hin.
Defined.

(** The test of lines 861-864 starts with [comment.reactions &&]: for a
    located comment without a reaction list, which carries no reaction of
    the author, it sends a remove-reaction request. The amended C6 leaves
    such comments out. *)
Lemma toggleReaction_without_reaction_list_removes :
  reactions (comment MoreScenarios.commentWithoutReactions) = None
  ∧ ¬ carriesOwnReaction (comment MoreScenarios.commentWithoutReactions) thumbsUp
  ∧ trace (toggleReaction (online []) thumbsUp MoreScenarios.commentWithoutReactions)
    = [Request (DeleteCommentReaction "node2" "THUMBS_UP")].
Proof.
  split; [done|]. split; [|by vm_compute].
  by intros (rs & ret & [=] & _).
Qed.

End ReactionsFacts.

(** ** The comment-thread cache *)

Module ThreadCacheFacts.
Import ThreadCache.
Section facts.
Context `{Helpers} (pr : PullRequestModel).

Lemma State_eq (s s' : State) :
  threads s = threads s' →
  commentThreadCache s = commentThreadCache s' →
  _openPREditors s = _openPREditors s' →
  s = s'.
Proof. destruct s, s'; simpl; by intros -> -> ->. Qed.

(** *** The three handlers, run *)

Lemma onAdded_addsNothing (visible : list TextEditor) (t : IReviewThread) (s : State) :
  addsNothing pr visible t → onAdded pr visible t s = (Returned tt, s, []).
Proof.
  intros [Hout | Hnone]; unfold onAdded.
  - by rewrite Hout.
  - rewrite Hnone. by destruct (isOutdated t).
Qed.

Lemma forEach_onAdded (visible : list TextEditor) (ts : list IReviewThread) (s : State) :
  Forall (addsNothing pr visible) ts →
  forEach ts (onAdded pr visible) s = (Returned tt, s, []).
Proof.
  induction 1 as [|t ts Ht _ IH]; [done|].
  simpl. run. rewrite onAdded_addsNothing //. run. by rewrite IH.
Qed.

Lemma onChanged_Some (t : IReviewThread) (s : State) :
  is_Some (commentThreadCache s !! rt_path t) →
  onChanged t s = (Returned tt, applyChanged (target s t) t s, []).
Proof.
  intros [handles Hhs]. unfold onChanged, findIndexInCache, target. run.
  rewrite Hhs. run. by destruct (list_find _ handles) as [[i h]|].
Qed.

Lemma onChanged_None (t : IReviewThread) (s : State) :
  commentThreadCache s !! rt_path t = None →
  onChanged t s = (Thrown findIndexOfUndefined, s, []).
Proof.
  intros Hhs. unfold onChanged, findIndexInCache. run. by rewrite Hhs.
Qed.

Lemma detached_onRemoved (t : IReviewThread) (s : State) :
  detached (onRemoved t) s = (Returned tt, applyRemoved t s, rejections s [t]).
Proof.
  unfold onRemoved, findIndexInCache, applyRemoved, rejections. run.
  destruct (commentThreadCache s !! rt_path t) as [handles|]; run; [|done].
  by destruct (list_find _ handles) as [[i h]|].
Qed.

Lemma applyChanged_cache (h : option nat) (t : IReviewThread) (s : State) :
  commentThreadCache (applyChanged h t s) = commentThreadCache s.
Proof. by destruct h. Qed.

Lemma applyRemoved_cache_is_Some (t : IReviewThread) (s : State) (p : string) :
  is_Some (commentThreadCache (applyRemoved t s) !! p)
  ↔ is_Some (commentThreadCache s !! p).
Proof.
  unfold applyRemoved.
  destruct (commentThreadCache s !! rt_path t) as [handles|]; [|done].
  destruct (list_find _ handles) as [[i h]|]; [|done]. simpl.
  rewrite lookup_alter. case_decide; [|done]. subst p.
  by rewrite -!not_eq_None_Some fmap_None.
Qed.

Lemma rejections_ext (s s' : State) (ts : list IReviewThread) :
  (∀ p, is_Some (commentThreadCache s' !! p) ↔ is_Some (commentThreadCache s !! p)) →
  rejections s' ts = rejections s ts.
Proof.
  intros Hdom. unfold rejections. f_equal. apply list_fmap_ext. intros _ t _.
  specialize (Hdom (rt_path t)).
  destruct (commentThreadCache s' !! rt_path t), (commentThreadCache s !! rt_path t);
    try done.
  - destruct Hdom as [Hd _]. by destruct Hd.
  - destruct Hdom as [_ Hd]. by destruct Hd.
Qed.

Lemma forEach_onChanged (ts : list IReviewThread) (s : State) :
  Forall (λ t, is_Some (commentThreadCache s !! rt_path t)) ts →
  forEach ts onChanged s = (Returned tt, changeAll s ts, []).
Proof.
  revert s. induction ts as [|t ts IH]; intros s Hts; [done|].
  apply Forall_cons in Hts as [Ht Hts]. simpl. run.
  rewrite onChanged_Some //. rewrite IH //.
  eapply Forall_impl; [done|]. intros u. by rewrite applyChanged_cache.
Qed.

Lemma forEach_onChanged_Returned (ts : list IReviewThread) (s : State) :
  outcome (forEach ts onChanged s) = Returned tt →
  Forall (λ t, is_Some (commentThreadCache s !! rt_path t)) ts.
Proof.
  revert s. induction ts as [|t ts IH]; intros s; [done|].
  simpl. run. destruct (commentThreadCache s !! rt_path t) as [handles|] eqn:Hhs.
  - rewrite onChanged_Some; [|by rewrite Hhs]. run.
    intros Hrest. constructor; [by rewrite Hhs|].
    specialize (IH (applyChanged (target s t) t s)).
    destruct (forEach ts onChanged (applyChanged (target s t) t s)) as [[r s'] tr].
    simpl in *. specialize (IH Hrest).
    eapply Forall_impl; [done|]. intros u. by rewrite applyChanged_cache.
  - rewrite onChanged_None //.
Qed.

Lemma forEachAsync_onRemoved (ts : list IReviewThread) (s : State) :
  forEachAsync ts onRemoved s = (Returned tt, removeAll s ts, rejections s ts).
Proof.
  revert s. induction ts as [|t ts IH]; intros s; [done|].
  unfold forEachAsync in *. simpl. fold (detached (onRemoved t)).
  unfold mbind at 1, M_bind at 1. rewrite detached_onRemoved IH.
  f_equal. rewrite (rejections_ext s (applyRemoved t s)).
  2: { intros p. exact (applyRemoved_cache_is_Some t s p). }
  unfold rejections. simpl. by rewrite app_nil_r.
Qed.

(** *** Display threads under a change *)

Lemma refresh_threadId (t : IReviewThread) (d : GHPRCommentThread) :
  threadId (refresh t d) = threadId d.
Proof. done. Qed.

Lemma refresh_refresh (t u : IReviewThread) (d : GHPRCommentThread) :
  refresh t (refresh u d) = refresh t d.
Proof. done. Qed.

Lemma refresh_dispose (t : IReviewThread) (d : GHPRCommentThread) :
  refresh t (dispose d) = dispose (refresh t d).
Proof. done. Qed.

Lemma lastWins_threadId tg h ts d : threadId (lastWins tg h ts d) = threadId d.
Proof.
  revert d. induction ts as [|t ts IH]; intros d; [done|].
  simpl. rewrite IH. by case_decide.
Qed.

Lemma lastWins_refresh tg h ts t d : refresh t (lastWins tg h ts d) = refresh t d.
Proof.
  revert d. induction ts as [|u ts IH]; intros d; [done|].
  simpl. rewrite IH. case_decide; [apply refresh_refresh|done].
Qed.

Lemma lastWins_dispose tg h ts d : lastWins tg h ts (dispose d) = dispose (lastWins tg h ts d).
Proof.
  revert d. induction ts as [|u ts IH]; intros d; [done|].
  simpl. case_decide; [|done]. by rewrite refresh_dispose IH.
Qed.

Lemma lastWins_snoc tg h ts t d :
  lastWins tg h (ts ++ [t]) d
  = if decide (tg t = Some h) then refresh t (lastWins tg h ts d) else lastWins tg h ts d.
Proof. unfold lastWins. by rewrite foldl_app. Qed.

(** Applying a list of changes twice is applying it once. *)
Lemma lastWins_idem tg h ts d :
  lastWins tg h ts (lastWins tg h ts d) = lastWins tg h ts d.
Proof.
  revert d. induction ts as [|t ts IH] using rev_ind; intros d; [done|].
  rewrite !lastWins_snoc. case_decide; [|apply IH].
  by rewrite !lastWins_refresh.
Qed.

Lemma lastWins_ext tg tg' h ts d :
  (∀ t, t ∈ ts → tg t = Some h ↔ tg' t = Some h) →
  lastWins tg h ts d = lastWins tg' h ts d.
Proof.
  revert d. induction ts as [|t ts IH]; intros d Htg; [done|]. simpl.
  rewrite (decide_ext (tg t = Some h) (tg' t = Some h)); [|apply Htg; left].
  apply IH. intros u Hu. apply Htg. by right.
Qed.

Lemma lastWins_untouched tg h ts d :
  (∀ t, t ∈ ts → tg t ≠ Some h) → lastWins tg h ts d = d.
Proof.
  revert d. induction ts as [|t ts IH]; intros d Htg; [done|]. simpl.
  rewrite decide_False; [|apply Htg; left].
  apply IH. intros u Hu. apply Htg. by right.
Qed.

Lemma applyChanged_lookup (tg : option nat) (t : IReviewThread) (s : State) (h : nat) :
  threads (applyChanged tg t s) !! h
  = (if decide (tg = Some h) then refresh t else id) <$> threads s !! h.
Proof.
  destruct tg as [h'|]; simpl.
  - rewrite list_lookup_alter. repeat case_decide; simplify_eq; try done.
    by rewrite option_fmap_id.
  - by rewrite option_fmap_id.
Qed.

Lemma applyChanged_ids (tg : option nat) (t : IReviewThread) (s : State) (h : nat) :
  threadId <$> threads (applyChanged tg t s) !! h = threadId <$> threads s !! h.
Proof.
  rewrite applyChanged_lookup -option_fmap_compose.
  destruct (threads s !! h) as [d|]; [|done]. simpl. by case_decide.
Qed.

Lemma target_ext (s s' : State) (u : IReviewThread) :
  commentThreadCache s' = commentThreadCache s →
  (∀ h, threadId <$> threads s' !! h = threadId <$> threads s !! h) →
  target s' u = target s u.
Proof.
  intros Hcache Hids. unfold target. rewrite Hcache.
  destruct (commentThreadCache s !! rt_path u) as [handles|]; [|done]. simpl.
  f_equal. apply list_find_ext. intros h. unfold hasThreadId. by rewrite Hids.
Qed.

(** The targets stay what they are while the changed threads are
    processed. *)
Lemma changeAll_fixed_targets (tg : IReviewThread → option nat)
    (ts : list IReviewThread) (s : State) :
  (∀ u, target s u = tg u) →
  changeAll s ts = foldl (λ s t, applyChanged (tg t) t s) s ts.
Proof.
  revert s. induction ts as [|t ts IH]; intros s Htg; [done|]. simpl.
  rewrite Htg. apply IH. intros u. etrans; [|apply Htg]. apply target_ext.
  - apply applyChanged_cache.
  - apply applyChanged_ids.
Qed.

Lemma changeWith_lookup (tg : IReviewThread → option nat)
    (ts : list IReviewThread) (s : State) (h : nat) :
  threads (foldl (λ s t, applyChanged (tg t) t s) s ts) !! h
  = lastWins tg h ts <$> threads s !! h.
Proof.
  revert s. induction ts as [|t ts IH]; intros s; simpl.
  - by destruct (threads s !! h).
  - rewrite IH applyChanged_lookup -option_fmap_compose.
    destruct (threads s !! h) as [d|]; [|done]. simpl. by case_decide.
Qed.

Lemma changeWith_cache (tg : IReviewThread → option nat)
    (ts : list IReviewThread) (s : State) :
  commentThreadCache (foldl (λ s t, applyChanged (tg t) t s) s ts) = commentThreadCache s
  ∧ _openPREditors (foldl (λ s t, applyChanged (tg t) t s) s ts) = _openPREditors s.
Proof.
  revert s. induction ts as [|t ts IH]; intros s; [done|]. simpl.
  destruct (IH (applyChanged (tg t) t s)) as [-> ->]. by destruct (tg t).
Qed.

(** *** Display threads under a removal *)

Lemma NoDup_fmap_inj_on {A B} (f : A → B) (l : list A) (x y : A) :
  NoDup (f <$> l) → x ∈ l → y ∈ l → f x = f y → x = y.
Proof.
  induction l as [|a l IH]; intros Hnd Hx Hy Hf; [by apply elem_of_nil in Hx|].
  rewrite fmap_cons in Hnd. apply NoDup_cons in Hnd as [Hnotin Hnd].
  apply elem_of_cons in Hx as [->|Hx]; apply elem_of_cons in Hy as [->|Hy].
  - done.
  - exfalso. apply Hnotin. rewrite Hf. by apply list_elem_of_fmap_2.
  - exfalso. apply Hnotin. rewrite -Hf. by apply list_elem_of_fmap_2.
  - by apply IH.
Qed.

(** Looking for the one element with a property after a filter. *)
Lemma list_find_filter (P Q : nat → Prop)
    `{!∀ x, Decision (P x), !∀ x, Decision (Q x)} (l : list nat) :
  (∀ x y, x ∈ l → y ∈ l → P x → P y → x = y) →
  snd <$> list_find P (filter Q l)
  = (snd <$> list_find P l) ≫= (λ h, if decide (Q h) then Some h else None).
Proof.
  induction l as [|x l IH]; intros Huniq; [done|].
  assert (∀ x y, x ∈ l → y ∈ l → P x → P y → x = y) as Huniq'.
  { intros a b Ha Hb. apply Huniq; by right. }
  rewrite filter_cons. cbn [list_find]. destruct (decide (P x)) as [HP|HP].
  - simpl. destruct (decide (Q x)) as [HQ|HQ].
    + simpl. by rewrite decide_True.
    + assert (list_find P (filter Q l) = None) as ->; [|done].
      apply list_find_None, Forall_forall. intros y Hy HPy.
      apply list_elem_of_filter in Hy as [HQy Hy].
      assert (x = y) as -> by (apply Huniq; [by left|by right|done..]). done.
  - rewrite -option_fmap_compose. destruct (decide (Q x)) as [HQ|HQ].
    + cbn [list_find]. rewrite decide_False // -option_fmap_compose.
      rewrite -(IH Huniq'). by destruct (list_find P (filter Q l)) as [[??]|].
    + rewrite (IH Huniq'). by destruct (list_find P l) as [[??]|].
Qed.

Lemma filter_untouched (l gone : list nat) :
  (∀ h, h ∈ l → h ∉ gone) → filter (.∉ gone) l = l.
Proof.
  induction l as [|a l IH]; intros Hl; [done|].
  rewrite filter_cons_True; [|apply Hl; by left]. f_equal. apply IH.
  intros h Hh. apply Hl. by right.
Qed.

Lemma delete_filter_NoDup (l : list nat) (i x : nat) :
  NoDup l → l !! i = Some x → delete i l = filter (.∉ [x]) l.
Proof.
  revert i. induction l as [|a l IH]; intros i Hnd Hi; [done|].
  apply NoDup_cons in Hnd as [Ha Hnd]. destruct i as [|i]; simpl in *.
  - simplify_eq. rewrite filter_cons_False; [|set_solver].
    symmetry. apply filter_untouched. set_solver.
  - rewrite filter_cons_True.
    + f_equal. by apply IH.
    + apply list_elem_of_lookup_2 in Hi. set_solver.
Qed.

Lemma removedFrom_nil (s : State) : removedFrom [] s s.
Proof.
  split; [|split; [|done]].
  - intros p. destruct (commentThreadCache s !! p) as [l|]; [|done].
    simpl. f_equal. symmetry. apply filter_untouched. intros h _. set_solver.
  - intros h. case_decide; [set_solver|]. by rewrite option_fmap_id.
Qed.

Lemma removedFrom_trans (g1 g2 : list nat) (s s' s'' : State) :
  removedFrom g1 s s' → removedFrom g2 s' s'' → removedFrom (g1 ++ g2) s s''.
Proof.
  intros (Hc1 & Ht1 & He1) (Hc2 & Ht2 & He2). split; [|split].
  - intros p. rewrite Hc2 Hc1 -option_fmap_compose.
    destruct (commentThreadCache s !! p) as [l|]; [|done]. simpl. f_equal.
    rewrite list_filter_filter. apply list_filter_iff. set_solver.
  - intros h. rewrite Ht2 Ht1 -option_fmap_compose.
    destruct (threads s !! h) as [d|]; [|done]. simpl. f_equal.
    repeat case_decide; set_solver.
  - by rewrite He2.
Qed.

Lemma removedFrom_ids (gone : list nat) (s s' : State) (h : nat) :
  removedFrom gone s s' →
  threadId <$> threads s' !! h = threadId <$> threads s !! h.
Proof.
  intros (_ & Ht & _). rewrite Ht -option_fmap_compose.
  destruct (threads s !! h) as [d|]; [|done]. simpl. by case_decide.
Qed.

Lemma removedFrom_is_Some (gone : list nat) (s s' : State) (p : string) :
  removedFrom gone s s' →
  is_Some (commentThreadCache s' !! p) ↔ is_Some (commentThreadCache s !! p).
Proof. intros (Hc & _ & _). by rewrite Hc fmap_is_Some. Qed.

Lemma removedFrom_wellFormed (gone : list nat) (s s' : State) :
  wellFormed s → removedFrom gone s s' → wellFormed s'.
Proof.
  intros [Hids Hshare] Hrem. pose proof Hrem as (Hc & Ht & _). split.
  - intros p handles'. rewrite Hc. intros Hp.
    apply fmap_Some in Hp as (handles & Hp & ->).
    rewrite (list_fmap_ext _ (λ h, threadId <$> threads s !! h));
      [|intros _ h _; by eapply removedFrom_ids].
    refine (sublist_NoDup _ _ (Hids _ _ Hp) _).
    apply fmap_sublist, sublist_filter.
  - intros p q hp' hq' h. rewrite !Hc. intros Hp Hq.
    apply fmap_Some in Hp as (hp & Hp & ->). apply fmap_Some in Hq as (hq & Hq & ->).
    rewrite !list_elem_of_filter. intros [_ Hh] [_ Hh']. by eapply Hshare.
Qed.

(** The target of a thread after a removal: the target it had, unless that
    one is gone. *)
Lemma removedFrom_target (gone : list nat) (s s' : State) (u : IReviewThread) :
  wellFormed s → removedFrom gone s s' →
  target s' u = target s u ≫= (λ h, if decide (h ∉ gone) then Some h else None).
Proof.
  intros [Hids _] Hrem. pose proof Hrem as (Hc & _ & _). unfold target. rewrite Hc.
  destruct (commentThreadCache s !! rt_path u) as [handles|] eqn:Hp; [|done]. simpl.
  rewrite (list_find_ext (hasThreadId s' (rt_id u)) (hasThreadId s (rt_id u)));
    [|intros h; unfold hasThreadId; by rewrite (removedFrom_ids gone s s')].
  apply list_find_filter. intros x y Hx Hy Px Py.
  apply (NoDup_fmap_inj_on (λ h, threadId <$> threads s !! h) handles); [by eapply Hids|done..|].
  unfold hasThreadId in *. by rewrite Px Py.
Qed.

Lemma applyRemoved_removedFrom (t : IReviewThread) (s : State) :
  wellFormed s → removedFrom (option_list (target s t)) s (applyRemoved t s).
Proof.
  intros [Hids Hshare]. unfold applyRemoved, target.
  destruct (commentThreadCache s !! rt_path t) as [handles|] eqn:Hp;
    [|apply removedFrom_nil]. simpl.
  destruct (list_find _ handles) as [[i h0]|] eqn:Hfind; [|apply removedFrom_nil]. simpl.
  apply list_find_Some in Hfind as (Hi & Hid & _).
  split; [|split; [|done]].
  - intros p. simpl. rewrite lookup_alter. case_decide as Hpp.
    + subst p. rewrite Hp. simpl. f_equal. apply delete_filter_NoDup; [|done].
      eapply NoDup_fmap_1. by eapply Hids.
    + destruct (commentThreadCache s !! p) as [hp|] eqn:Hq; [|done]. simpl. f_equal.
      symmetry. apply filter_untouched. intros h Hh ->%list_elem_of_singleton.
      apply Hpp. eapply Hshare; [exact Hp|exact Hq| |done].
      by eapply list_elem_of_lookup_2.
  - intros h. simpl. rewrite list_lookup_alter.
    repeat case_decide; try done; try set_solver.
    by rewrite option_fmap_id.
Qed.

Lemma removed_phase (ts : list IReviewThread) (s : State) :
  wellFormed s →
  ∃ gone, removedFrom gone s (removeAll s ts)
          ∧ ∀ h, h ∈ gone ↔ ∃ u, u ∈ ts ∧ target s u = Some h.
Proof.
  revert s. induction ts as [|t ts IH]; intros s Hwf.
  - exists []. split; [apply removedFrom_nil|]. intros h. split.
    + by intros ?%elem_of_nil.
    + by intros (u & ?%elem_of_nil & _).
  - simpl. pose proof (applyRemoved_removedFrom t s Hwf) as Hone.
    pose proof (removedFrom_wellFormed _ _ _ Hwf Hone) as Hwf'.
    destruct (IH _ Hwf') as (gone' & Hrest & Hgone').
    exists (option_list (target s t) ++ gone').
    split; [by eapply removedFrom_trans|].
    intros h. rewrite elem_of_app Hgone'. split.
    + intros [Hh | (u & Hu & Htu)].
      * exists t. split; [by left|].
        destruct (target s t) as [h'|]; simpl in Hh; [|by apply elem_of_nil in Hh].
        by apply list_elem_of_singleton in Hh as ->.
      * exists u. split; [by right|].
        rewrite (removedFrom_target _ _ _ u Hwf Hone) in Htu.
        apply bind_Some in Htu as (h' & Hh' & Hif). case_decide; by simplify_eq.
    + intros (u & Hu & Htu). apply elem_of_cons in Hu as [->|Hu].
      * left. rewrite Htu. by apply list_elem_of_singleton.
      * destruct (decide (h ∈ option_list (target s t))) as [|Hnot]; [by left|].
        right. exists u. split; [done|].
        rewrite (removedFrom_target _ _ _ u Hwf Hone) Htu. simpl. by rewrite decide_True.
Qed.

Lemma applyRemoved_no_target (t : IReviewThread) (s : State) :
  target s t = None → applyRemoved t s = s.
Proof.
  unfold target, applyRemoved.
  destruct (commentThreadCache s !! rt_path t) as [handles|]; [|done]. simpl.
  by destruct (list_find _ handles) as [[i h]|].
Qed.

Lemma removeAll_no_target (ts : list IReviewThread) (s : State) :
  (∀ u, u ∈ ts → target s u = None) → removeAll s ts = s.
Proof.
  induction ts as [|t ts IH]; intros Hts; [done|].
  unfold removeAll in *. simpl. rewrite applyRemoved_no_target.
  - apply IH. intros u Hu. apply Hts. by right.
  - apply Hts. by left.
Qed.

Lemma wellFormed_ext (s s' : State) :
  commentThreadCache s' = commentThreadCache s →
  (∀ h, threadId <$> threads s' !! h = threadId <$> threads s !! h) →
  wellFormed s → wellFormed s'.
Proof.
  intros Hcache Hids [Hnd Hshare]. split.
  - intros p handles. rewrite Hcache. intros Hp.
    rewrite (list_fmap_ext _ (λ h, threadId <$> threads s !! h)); [|by intros _ h _].
    by eapply Hnd.
  - intros p q hp hq h. rewrite Hcache. apply Hshare.
Qed.

(** *** The handler as a whole *)

Lemma onDidChangeReviewThreads_run (visible : list TextEditor)
    (e : ReviewThreadChangeEvent) (s : State) :
  Forall (addsNothing pr visible) (added e) →
  Forall (λ t, is_Some (commentThreadCache s !! rt_path t)) (changed e) →
  onDidChangeReviewThreads pr visible e s
  = (Returned tt, removeAll (changeAll s (changed e)) (removed e),
     rejections s (removed e)).
Proof.
  intros Hadd Hpaths. unfold onDidChangeReviewThreads.
  unfold mbind at 1, M_bind at 1. rewrite forEach_onAdded //.
  unfold mbind at 1, M_bind at 1. rewrite forEach_onChanged //.
  rewrite forEachAsync_onRemoved. simpl. f_equal.
  apply rejections_ext. intros p.
  rewrite (changeAll_fixed_targets (target s)) //.
  by destruct (changeWith_cache (target s) (changed e) s) as [-> _].
Qed.

Lemma onDidChangeReviewThreads_Returned (visible : list TextEditor)
    (e : ReviewThreadChangeEvent) (s : State) :
  Forall (addsNothing pr visible) (added e) →
  outcome (onDidChangeReviewThreads pr visible e s) = Returned tt →
  Forall (λ t, is_Some (commentThreadCache s !! rt_path t)) (changed e).
Proof.
  intros Hadd. unfold onDidChangeReviewThreads.
  unfold mbind at 1, M_bind at 1. rewrite forEach_onAdded //.
  unfold mbind at 1, M_bind at 1. intros Hout.
  apply forEach_onChanged_Returned.
  destruct (forEach (changed e) onChanged s) as [[[[]|err] s'] tr]; [done|].
  by destruct (forEachAsync (removed e) onRemoved s') as [[r s''] tr'].
Qed.

(** A removed thread whose id no display thread of its cache entry
    carries leaves everything as it is. *)
Lemma onRemoved_unknown_id (t : IReviewThread) (s : State) (handles : list nat) :
  commentThreadCache s !! rt_path t = Some handles →
  Forall (λ h, ¬ hasThreadId s (rt_id t) h) handles →
  detached (onRemoved t) s = (Returned tt, s, []).
Proof.
  intros Hp Hnone. rewrite detached_onRemoved.
  rewrite applyRemoved_no_target.
  - unfold rejections. simpl. by rewrite Hp.
  - unfold target. rewrite Hp. simpl.
    by rewrite (proj2 (list_find_None _ _) Hnone).
Qed.

(** A removed thread for whose path the cache has no entry changes nothing
    either, and its callback is rejected with a [TypeError]. *)
Lemma onRemoved_no_entry (t : IReviewThread) (s : State) :
  commentThreadCache s !! rt_path t = None →
  onRemoved t s = (Thrown findIndexOfUndefined, s, [])
  ∧ detached (onRemoved t) s
    = (Returned tt, s, [UnhandledRejection findIndexOfUndefined]).
Proof.
  intros Hp. unfold onRemoved, findIndexInCache. run. by rewrite Hp.
Qed.

(** C9 (as amended): the cache has converged (under each path a review
    thread has at most one display thread, and no display thread is listed
    under two paths), and the event creates no display thread for its added
    threads (each is outdated or has no open editor). If the handler
    returns normally on the event, then applying the event again leaves the
    cache, the display threads and the open editors exactly as the first
    application left them, with the same unhandled rejections. *)
Theorem onDidChangeReviewThreads_replay (visible : list TextEditor)
    (e : ReviewThreadChangeEvent) (s s1 : State) (tr : list Effect) :
  wellFormed s →
  Forall (addsNothing pr visible) (added e) →
  onDidChangeReviewThreads pr visible e s = (Returned tt, s1, tr) →
  onDidChangeReviewThreads pr visible e s1 = (Returned tt, s1, tr).
Proof.
  intros Hwf Hadd Hrun.
  assert (Forall (λ t, is_Some (commentThreadCache s !! rt_path t)) (changed e))
    as Hpaths.
  { apply (onDidChangeReviewThreads_Returned visible); [done|]. by rewrite Hrun. }
  rewrite onDidChangeReviewThreads_run // in Hrun.
  injection Hrun as Hs1 Htr.
  set (tg0 := target s).
  set (sc := changeAll s (changed e)) in *.
  assert (sc = foldl (λ s t, applyChanged (tg0 t) t s) s (changed e)) as Hsc
    by by apply changeAll_fixed_targets.
  destruct (changeWith_cache tg0 (changed e) s) as [Hsc_cache Hsc_ed].
  rewrite -Hsc in Hsc_cache Hsc_ed.
  assert (∀ h, threads sc !! h = lastWins tg0 h (changed e) <$> threads s !! h)
    as Hsc_thr.
  { intros h. rewrite Hsc. apply changeWith_lookup. }
  assert (∀ h, threadId <$> threads sc !! h = threadId <$> threads s !! h) as Hsc_ids.
  { intros h. rewrite Hsc_thr -option_fmap_compose.
    destruct (threads s !! h) as [d|]; [|done]. simpl. by rewrite lastWins_threadId. }
  assert (∀ u, target sc u = tg0 u) as Hsc_tg.
  { intros u. by apply target_ext. }
  assert (wellFormed sc) as Hsc_wf by by eapply wellFormed_ext.
  destruct (removed_phase (removed e) sc Hsc_wf) as (gone & Hrem & Hgone).
  rewrite Hs1 in Hrem.
  assert (∀ u, target s1 u
               = tg0 u ≫= (λ h, if decide (h ∉ gone) then Some h else None)) as Hs1_tg.
  { intros u. rewrite -Hsc_tg. by apply removedFrom_target. }
  assert (∀ p, is_Some (commentThreadCache s1 !! p)
               ↔ is_Some (commentThreadCache s !! p)) as Hdom.
  { intros p. rewrite -Hsc_cache. by eapply removedFrom_is_Some. }
  rewrite onDidChangeReviewThreads_run //.
  2: { eapply Forall_impl; [exact Hpaths|]. intros t Ht. by apply Hdom. }
  assert (changeAll s1 (changed e) = s1) as ->.
  { rewrite (changeAll_fixed_targets (target s1)) //.
    destruct (changeWith_cache (target s1) (changed e) s1) as [Hc He].
    apply State_eq; [|done..].
    apply list_eq. intros h. rewrite changeWith_lookup.
    destruct Hrem as (_ & Ht & _). rewrite Ht Hsc_thr -!option_fmap_compose.
    destruct (threads s !! h) as [d|]; [|done]. simpl. f_equal.
    destruct (decide (h ∈ gone)) as [Hg|Hg].
    - apply lastWins_untouched. intros t _. rewrite Hs1_tg.
      intros (h' & _ & Hif)%bind_Some. case_decide; by simplify_eq.
    - simpl. rewrite (lastWins_ext (target s1) tg0); [apply lastWins_idem|].
      intros t _. rewrite Hs1_tg. split.
      + intros (h' & ? & Hif)%bind_Some. case_decide; by simplify_eq.
      + intros ->. simpl. by rewrite decide_True. }
  f_equal; [f_equal|].
  - apply removeAll_no_target. intros u Hu. rewrite Hs1_tg.
    destruct (tg0 u) as [h|] eqn:Htu; [|done]. simpl. rewrite decide_False //.
    intros Hnot. apply Hnot, Hgone. exists u. split; [done|]. by rewrite Hsc_tg.
  - rewrite -Htr. by apply rejections_ext.
Qed.

End facts.

Import Scenario.

(** C2: the cache holds no entry for the path of the removed thread; the
    handler leaves the cache and the threads as they are and disposes
    nothing, and the callback raises a [TypeError], which surfaces as an
    unhandled rejection. *)
Theorem removed_event_without_cache_entry_raises :
  onDidChangeReviewThreads (online []) []
    {| added := []; changed := []; removed := [reviewThread1] |} emptyCache
  = (Returned tt, emptyCache, [UnhandledRejection findIndexOfUndefined]).
Proof. by vm_compute. Qed.

(** C7: the tree is refreshed twice while the head side of a.ts stays
    open. After the first initialization one display thread shows review
    thread T1; after the second, two live display threads show it, and the
    cache lists the second one only. *)
Theorem initializeThreadsInOpenEditors_twice_duplicates :
  let initialize := initializeThreadsInOpenEditors (online [reviewThread1]) [editor1] in
  let once := final (initialize emptyCache) in
  let twice := final (initialize once) in
  threadId <$> liveThreads once = ["T1"]
  ∧ threadId <$> liveThreads twice = ["T1"; "T1"]
  ∧ commentThreadCache twice !! "a.ts" = Some [1].
Proof. by vm_compute. Qed.

(** The sibling path: [onDidChangeOpenEditors] notified twice of the same
    visible editors creates the display thread of T1 once. *)
Lemma onDidChangeOpenEditors_twice_no_duplicate :
  let notify := onDidChangeOpenEditors (online [reviewThread1]) [editor1] in
  let twice := final (notify (final (notify emptyCache))) in
  threadId <$> liveThreads twice = ["T1"]
  ∧ commentThreadCache twice !! "a.ts" = Some [0].
Proof. by vm_compute. Qed.

(** Closing the editor disposes the display thread and drops the cache
    entry. *)
Lemma onDidChangeOpenEditors_close_disposes :
  let pr := online [reviewThread1] in
  let opened := final (onDidChangeOpenEditors pr [editor1] emptyCache) in
  let closed := final (onDidChangeOpenEditors pr [] opened) in
  liveThreads closed = [] ∧ commentThreadCache closed !! "a.ts" = None.
Proof. by vm_compute. Qed.

(** C9 as stated fails for an added event: the cache has converged on the
    review threads and the open editor, the added event for T1 is applied
    again, and a second live display thread for T1 appears (outside the
    cache). *)
Lemma added_event_replay_creates_thread :
  let pr := online [reviewThread1] in
  let converged := final (initializeThreadsInOpenEditors pr [editor1] emptyCache) in
  let e := {| added := [reviewThread1]; changed := []; removed := [] |} in
  let replayed := final (onDidChangeReviewThreads pr [editor1] e converged) in
  commentThreadCache replayed = commentThreadCache converged
  ∧ threadId <$> liveThreads converged = ["T1"]
  ∧ threadId <$> liveThreads replayed = ["T1"; "T1"]
  ∧ liveThreads replayed ≠ liveThreads converged.
Proof. by vm_compute. Qed.

Lemma twoThreads_wellFormed : wellFormed twoThreads.
Proof.
  split; simpl.
  - intros p handles [_ <-]%lookup_singleton_Some.
    repeat constructor; set_solver.
  - by intros p q hp hq h [<- _]%lookup_singleton_Some [<- _]%lookup_singleton_Some.
Qed.

(** C9, at an event that resolves T1 and removes T2 while both are
    displayed. *)
Lemma onDidChangeReviewThreads_replay_witness :
  let handle := onDidChangeReviewThreads (online []) [editor1] resolvedAndDeleted in
  handle (final (handle twoThreads)) = (Returned tt, final (handle twoThreads), []).
Proof.
  apply (onDidChangeReviewThreads_replay (online []) [editor1] resolvedAndDeleted
           twoThreads).
  - exact twoThreads_wellFormed.
  - constructor.
  - by vm_compute.
Defined.

End ThreadCacheFacts.

(** ** File changes and document content, continued *)

Module ContentProviderMore.
Import ContentProvider.
Section facts.
Context `{Helpers} (pr : PullRequestModel).

(** X1: the comments [resolveFileChanges] attaches to an in-memory file
    change are exactly the fetched review comments whose path is the file
    name of the change and whose diff position is not null. *)
Theorem resolveFileChanges_attaches {S} (s s' : S) (fetched : list IComment)
    (l : list FileChange) (tr : list Effect) (n : InMemFileChangeNode) (c : IComment) :
  getReviewComments pr = Returned fetched →
  resolveFileChanges pr s = (Returned l, s', tr) →
  InMem n ∈ l →
  c ∈ fc_comments n ↔ c ∈ fetched ∧ c_path c = fc_fileName n ∧ position c ≠ None.
Proof.
  intros Hfetched. unfold resolveFileChanges.
  destruct (pr_isResolved pr); run; [|by intros [= <- _ _] ?%elem_of_nil].
  rewrite Hfetched. run.
  destruct (getFileChangesInfo pr); run; [|done].
  destruct (mergeBase pr); run; [|by intros [= <- _ _] ?%elem_of_nil].
  destruct (parseDiff pr) as [raw|]; run; [|done].
  intros [= <- _ _] Hn. apply list_elem_of_fmap in Hn as (change & Hn & _).
  destruct (slim change); [done|]. injection Hn as ->. simpl.
  rewrite list_elem_of_filter. naive_solver.
Qed.

(** X2: a pull request that is not resolved, or that has no merge base
    once comments and file information are fetched, has no file changes:
    [resolveFileChanges] returns the empty list, and that is no error. *)
Theorem resolveFileChanges_nothing_to_show {S} (s : S) :
  pr_isResolved pr = false
  ∨ (mergeBase pr = None ∧ (∃ cs, getReviewComments pr = Returned cs)
     ∧ getFileChangesInfo pr = Returned tt) →
  outcome (resolveFileChanges pr s) = Returned []
  ∧ (pr_isResolved pr = false → trace (resolveFileChanges pr s) = []).
Proof.
  intros [Hno | (Hbase & [cs Hcs] & Hinfo)]; unfold resolveFileChanges.
  - rewrite Hno. by run.
  - destruct (pr_isResolved pr); run; [|done].
    rewrite Hcs Hinfo Hbase. run. done.
Qed.

(** X3: [getFileChanges] fetches once. After a call that returned a list,
    the node holds that list, and the next call returns the same list, sends
    no request and leaves the node as it is. *)
Theorem getFileChanges_caches (st st' : State) (l : list FileChange) (tr : list Effect) :
  getFileChanges pr st = (Returned l, st', tr) →
  st' = Some l ∧ getFileChanges pr st' = (Returned l, st', []).
Proof.
  unfold getFileChanges. run. destruct st as [changes|]; run.
  - by intros [= <- <- _].
  - destruct (resolveFileChanges pr None) as [[[l'|e] st1] tr1]; run; [|done].
    by intros [= <- <- _].
Qed.

(** A call that failed leaves the node without file changes, so that the
    next call fetches again. *)
Lemma getFileChanges_failure_not_cached (e : JsError) (st' : State) (tr : list Effect) :
  getFileChanges pr None = (Thrown e, st', tr) → st' = None.
Proof.
  unfold getFileChanges. run.
  assert (final (resolveFileChanges pr (None : State)) = None) as Hres.
  { unfold resolveFileChanges. run.
    repeat (case_match; run; simplify_eq; try done). }
  unfold final in Hres.
  destruct (resolveFileChanges pr None) as [[[l'|e'] st1] tr1]; run; [done|].
  simpl in Hres. by intros [= _ <- _].
Qed.

(** X4: on the side on which the file does not exist (base of an added
    file, head of a deleted file) the content is empty for every kind of
    file change, remote-only and partially fetched ones included, and no
    request is sent. *)
Theorem provideDocumentContent_absent_side
    (uri : Uri) (params : PRUriParams) (changes : list FileChange) (fileChange : FileChange) :
  fromPRUri uri = Some params →
  List.find (λ c, bool_decide (fc_fileName (base c) = fileName params)) changes
    = Some fileChange →
  absentSide (status (base fileChange)) (isBase params) = true →
  provideDocumentContent pr uri (Some changes) = (Returned EmptyString, Some changes, []).
Proof.
  intros Hparams Hfind Habsent. unfold provideDocumentContent, getFileChanges.
  rewrite Hparams. run. rewrite Hfind. run.
  unfold absentSide in Habsent. by rewrite Habsent.
Qed.

(** X5: for a remote-only or partially fetched change, on a side on which
    the file exists, the content is what the fetch from the remote delivers:
    the base side is fetched under the previous file name when there is one,
    else under the file name, at the base commit; the head side under the
    file name at the head commit. One request is sent. *)
Theorem provideDocumentContent_fetched
    (uri : Uri) (params : PRUriParams) (changes : list FileChange)
    (fileChange : FileChange) (content : string) :
  fromPRUri uri = Some params →
  List.find (λ c, bool_decide (fc_fileName (base c) = fileName params)) changes
    = Some fileChange →
  absentSide (status (base fileChange)) (isBase params) = false →
  isRemote fileChange || isPartialOf fileChange = true →
  let filePath := if isBase params
                  then orElse (previousFileName (base fileChange))
                              (fc_fileName (base fileChange))
                  else fc_fileName (base fileChange) in
  let commit := if isBase params then baseCommit params else headCommit params in
  getFile pr filePath commit = Promise (Returned content) →
  provideDocumentContent pr uri (Some changes)
  = (Returned content, Some changes, [Request (GetFile filePath commit)]).
Proof.
  intros Hparams Hfind Habsent Hremote filePath commit Hget.
  unfold provideDocumentContent, getFileChanges.
  rewrite Hparams. run. rewrite Hfind. run.
  unfold absentSide in Habsent. rewrite Habsent Hremote.
  unfold fetchRemote. run. fold filePath commit. rewrite Hget. by run.
Qed.

(** X6: for a modified or renamed file held in memory with all of its
    hunks, the base side is the content of the original file at the base
    commit (the previous file name for a rename), exactly as the repository
    shows it, and the head side is that content with the patch applied. *)
Theorem provideDocumentContent_modified
    (uri : Uri) (params : PRUriParams) (changes : list FileChange)
    (fc : InMemFileChangeNode) (originalName originalContent : string) :
  fromPRUri uri = Some params →
  List.find (λ c, bool_decide (fc_fileName (base c) = fileName params)) changes
    = Some (InMem fc) →
  isPartial fc = false →
  (status fc = MODIFY ∧ originalName = fc_fileName fc)
  ∨ (status fc = RENAME ∧ previousFileName fc = Some originalName) →
  repository_show pr (baseCommit params) originalName = Returned originalContent →
  provideDocumentContent pr uri (Some changes)
  = (if isBase params then Returned originalContent
     else getModifiedContentFromDiffHunk originalContent (patch fc),
     Some changes, [Request (RepositoryShow (baseCommit params) originalName)]).
Proof.
  intros Hparams Hfind Hpartial Hstatus Hshow.
  unfold provideDocumentContent, getFileChanges.
  rewrite Hparams. run. rewrite Hfind. run. rewrite Hpartial.
  unfold inMemContent.
  assert ((if bool_decide (status fc = RENAME) then previousFileName fc
           else Some (fc_fileName fc)) = Some originalName) as ->.
  { destruct Hstatus as [[Hst ->] | [Hst Hprev]]; by rewrite Hst. }
  assert (bool_decide (status fc = ADD) = false
          ∧ bool_decide (status fc = DELETE) = false) as [-> ->].
  { destruct Hstatus as [[Hst _] | [Hst _]]; by rewrite Hst. }
  run; rewrite ?andb_false_r; run; rewrite Hshow; run;
    (destruct (isBase params); run; [done|]);
    by destruct (getModifiedContentFromDiffHunk originalContent (patch fc)).
Qed.

(** A failure of the repository to show the original file is not
    caught: the promise of [provideDocumentContent] rejects with it. *)
Theorem provideDocumentContent_show_failure
    (uri : Uri) (params : PRUriParams) (changes : list FileChange)
    (fc : InMemFileChangeNode) (e : JsError) :
  fromPRUri uri = Some params →
  List.find (λ c, bool_decide (fc_fileName (base c) = fileName params)) changes
    = Some (InMem fc) →
  isPartial fc = false →
  status fc = MODIFY →
  repository_show pr (baseCommit params) (fc_fileName fc) = Thrown e →
  outcome (provideDocumentContent pr uri (Some changes)) = Thrown e.
Proof.
  intros Hparams Hfind Hpartial Hst Hshow.
  unfold provideDocumentContent, getFileChanges.
  rewrite Hparams. run. rewrite Hfind. run. rewrite Hpartial.
  unfold inMemContent. rewrite Hst.
  rewrite (bool_decide_eq_false_2 (MODIFY = RENAME)) //.
  run. rewrite ?andb_false_r. run.
  rewrite Hshow. by run.
Qed.

(** A rename that carries no previous file name: [joinPath] throws before
    the repository is asked, and the promise of [provideDocumentContent]
    rejects with the [TypeError]. *)
Lemma provideDocumentContent_rename_without_previous_name
    (uri : Uri) (params : PRUriParams) (changes : list FileChange)
    (fc : InMemFileChangeNode) :
  fromPRUri uri = Some params →
  List.find (λ c, bool_decide (fc_fileName (base c) = fileName params)) changes
    = Some (InMem fc) →
  isPartial fc = false →
  status fc = RENAME →
  previousFileName fc = None →
  provideDocumentContent pr uri (Some changes)
  = (Thrown joinPathOfUndefined, Some changes, []).
Proof.
  intros Hparams Hfind Hpartial Hst Hprev.
  unfold provideDocumentContent, getFileChanges.
  rewrite Hparams. run. rewrite Hfind. run. rewrite Hpartial.
  unfold inMemContent. rewrite Hst Hprev.
  rewrite (bool_decide_eq_true_2 (RENAME = RENAME)) //.
  run. rewrite ?andb_false_r. by run.
Qed.

(** The hunks of a file that exists on one side only: besides control lines
    they hold Add lines only (an added file), or Delete lines only (a
    deleted file). *)
Lemma one_sided_hunks_other_side_empty (st : GitChangeType) (isBase : bool)
    (hunks : list DiffHunk) :
  absentSide st isBase = true →
  Forall (λ hunk, Forall (λ l, type l = Control
                               ∨ (st = ADD ∧ type l = Add)
                               ∨ (st = DELETE ∧ type l = Delete))
                         (diffLines hunk)) hunks →
  sideContent isBase hunks = EmptyString.
Proof.
  intros Habsent Hhunks. unfold sideContent.
  assert (List.filter (belongsTo isBase) (concat (map diffLines hunks)) = []) as ->; [|done].
  induction Hhunks as [|hunk hunks Hhunk _ IH]; [done|].
  simpl. rewrite List.filter_app IH app_nil_r.
  induction Hhunk as [|l ls Hl _ IHl]; [done|]. simpl. rewrite IHl.
  unfold belongsTo. unfold absentSide in Habsent.
  destruct Hl as [-> | [[-> ->] | [-> ->]]]; [done|..];
    destruct isBase; simpl in *; done.
Qed.

(** X7: for an added file whose hunks hold Add and Control lines only,
    and for a deleted file whose hunks hold Delete and Control lines only,
    [provideDocumentContent] returns on both sides the hunk lines that
    belong to the side, joined with newlines. *)
Theorem provideDocumentContent_one_sided
    (uri : Uri) (params : PRUriParams) (changes : list FileChange) (fc : InMemFileChangeNode) :
  fromPRUri uri = Some params →
  List.find (λ c, bool_decide (fc_fileName (base c) = fileName params)) changes
    = Some (InMem fc) →
  isPartial fc = false →
  status fc = ADD ∨ status fc = DELETE →
  Forall (λ hunk, Forall (λ l, type l = Control
                               ∨ (status fc = ADD ∧ type l = Add)
                               ∨ (status fc = DELETE ∧ type l = Delete))
                         (diffLines hunk)) (diffHunks fc) →
  provideDocumentContent pr uri (Some changes)
  = (Returned (sideContent (isBase params) (diffHunks fc)), Some changes, []).
Proof.
  intros Hparams Hfind Hpartial Hstatus Hhunks.
  unfold provideDocumentContent, getFileChanges. rewrite Hparams. run.
  rewrite Hfind. run.
  destruct ((isBase params && bool_decide (status fc = ADD))
            || (negb (isBase params) && bool_decide (status fc = DELETE))) eqn:Habsent.
  - by rewrite (one_sided_hunks_other_side_empty (status fc)).
  - rewrite Hpartial. run. unfold inMemContent.
    assert (bool_decide (status fc = ADD) || bool_decide (status fc = DELETE) = true) as ->.
    { destruct Hstatus as [-> | ->]; done. }
    run. by rewrite ContentProviderFacts.readContentFromDiffHunk_sideContent.
Qed.

End facts.
Import Scenario MoreScenarios.

Lemma resolveFileChanges_attaches_witness :
  rawComment1 ∈ fc_comments changeWithComment
  ↔ rawComment1 ∈ [rawComment1; rawComment2; outdatedComment]
    ∧ c_path rawComment1 = fc_fileName changeWithComment
    ∧ position rawComment1 ≠ None.
Proof.
  apply (resolveFileChanges_attaches reviewed tt tt
           [rawComment1; rawComment2; outdatedComment] [InMem changeWithComment]
           [Request GetReviewComments; Request GetFileChangesInfo]).
  - reflexivity.
  - reflexivity.
  - apply list_elem_of_singleton. reflexivity.
Defined.

Lemma resolveFileChanges_nothing_to_show_witness :
  outcome (resolveFileChanges unresolved tt) = Returned []
  ∧ trace (resolveFileChanges unresolved tt) = [].
Proof.
  destruct (resolveFileChanges_nothing_to_show unresolved tt) as [Hout Htrace].
  - left. reflexivity.
  - split; [exact Hout|]. apply Htrace. reflexivity.
Defined.

Lemma getFileChanges_caches_witness :
  Some [InMem changeWithComment] = Some [InMem changeWithComment]
  ∧ getFileChanges reviewed (Some [InMem changeWithComment])
    = (Returned [InMem changeWithComment], Some [InMem changeWithComment], []).
Proof.
  apply (getFileChanges_caches reviewed None (Some [InMem changeWithComment])
           [InMem changeWithComment]
           [Request GetReviewComments; Request GetFileChangesInfo]).
  reflexivity.
Defined.

Lemma provideDocumentContent_absent_side_witness :
  provideDocumentContent offline (baseOf "new.png") (Some [Remote remoteAdded])
  = (Returned EmptyString, Some [Remote remoteAdded], []).
Proof.
  apply (provideDocumentContent_absent_side offline (baseOf "new.png")
           (paramsOf "new.png" true) [Remote remoteAdded] (Remote remoteAdded));
    reflexivity.
Defined.

Lemma provideDocumentContent_fetched_witness :
  provideDocumentContent (online []) (headOf "logo.png") (Some [Remote remoteChange])
  = (Returned "content", Some [Remote remoteChange], [Request (GetFile "logo.png" "h0")]).
Proof.
  apply (provideDocumentContent_fetched (online []) (headOf "logo.png")
           (paramsOf "logo.png" false) [Remote remoteChange] (Remote remoteChange)
           "content"); reflexivity.
Defined.

Lemma provideDocumentContent_modified_witness :
  provideDocumentContent (online []) (baseOf "a.ts") (Some [InMem changeWithComment])
  = (Returned "content", Some [InMem changeWithComment],
     [Request (RepositoryShow "b0" "a.ts")]).
Proof.
  apply (provideDocumentContent_modified (online []) (baseOf "a.ts")
           (paramsOf "a.ts" true) [InMem changeWithComment] changeWithComment
           "a.ts" "content").
  - reflexivity.
  - reflexivity.
  - reflexivity.
  - left. split; reflexivity.
  - reflexivity.
Defined.

Lemma provideDocumentContent_show_failure_witness :
  outcome (provideDocumentContent offline (headOf "a.ts") (Some [InMem changeWithComment]))
  = Thrown networkError.
Proof.
  apply (provideDocumentContent_show_failure offline (headOf "a.ts")
           (paramsOf "a.ts" false) [InMem changeWithComment] changeWithComment
           networkError); reflexivity.
Defined.

Lemma provideDocumentContent_one_sided_witness :
  provideDocumentContent offline (headOf "new.ts") (Some [InMem addedFile])
  = (Returned (sideContent false (diffHunks addedFile)), Some [InMem addedFile], []).
Proof.
  apply (provideDocumentContent_one_sided offline (headOf "new.ts")
           (paramsOf "new.ts" false) [InMem addedFile] addedFile).
  - reflexivity.
  - reflexivity.
  - reflexivity.
  - left. reflexivity.
  - constructor; [|constructor].
    constructor; [left; reflexivity|].
    constructor; [right; left; split; reflexivity|].
    constructor; [right; left; split; reflexivity|].
    constructor.
Defined.

End ContentProviderMore.

(** ** The comment-thread cache, continued *)

Module ThreadCacheMore.
Import ThreadCache ThreadCacheViews.
Section facts.
Context `{Helpers} (pr : PullRequestModel).

(** *** Opening views *)

Lemma getPREditors_decodes (editors : list TextEditor) :
  Forall (λ editor, is_Some (fromPRUri (document_uri editor))) (getPREditors pr editors).
Proof.
  apply Forall_forall. intros editor Hin.
  apply list_elem_of_In, filter_In in Hin as [_ Hkeep].
  destruct (negb _); [done|]. by destruct (fromPRUri (document_uri editor)).
Qed.

Lemma createThreads_run (documentUri : Uri) (reviewThreads : list IReviewThread) (s : State) :
  mapM (λ thread, createVSCodeCommentThreadForReviewThread
                    documentUri (line thread - 1) thread) reviewThreads s
  = (Returned (seq (length (threads s)) (length reviewThreads)),
     set_threads (threads s ++
                  map (λ thread, displayThreadFor documentUri (line thread - 1) thread)
                      reviewThreads) s,
     []).
Proof.
  revert s. induction reviewThreads as [|t ts IH]; intros s.
  - simpl. run. rewrite app_nil_r. by destruct s.
  - simpl. unfold mbind at 1, M_bind at 1.
    unfold createVSCodeCommentThreadForReviewThread at 1. run.
    rewrite IH. run. rewrite length_app /= Nat.add_1_r -app_assoc. done.
Qed.

(** What [showThreadsIn] does for an editor that decodes. *)
Lemma showThreadsIn_run (threadsByPath : gmap string (list IReviewThread))
    (editor : TextEditor) (params : PRUriParams) (s : State) :
  fromPRUri (document_uri editor) = Some params →
  showThreadsIn threadsByPath editor s
  = (Returned tt,
     match threadsByPath !! fileName params with
     | None => s
     | Some reviewThreads =>
         let shown := List.filter (onSide (isBase params)) reviewThreads in
         set_commentThreadCache
           (<[fileName params := seq (length (threads s)) (length shown)]>
              (commentThreadCache s))
           (set_threads
              (threads s ++
               map (λ thread,
                      displayThreadFor (document_uri editor) (line thread - 1) thread)
                   shown) s)
     end,
     []).
Proof.
  intros Hparams. unfold showThreadsIn. rewrite Hparams.
  destruct (threadsByPath !! fileName params) as [reviewThreads|]; [|done].
  unfold mbind, M_bind. fold (onSide (isBase params)).
  change (λ thread : IReviewThread,
            bool_decide (diffSide thread = LEFT) && isBase params
            || bool_decide (diffSide thread = RIGHT) && negb (isBase params))
    with (onSide (isBase params)).
  rewrite createThreads_run. by run.
Qed.

Lemma displayThreadFor_live (documentUri : Uri) (startLine : Z) (thread : IReviewThread) :
  let d := displayThreadFor documentUri startLine thread in
  uri d = documentUri ∧ range d = startLine ∧ threadId d = rt_id thread
  ∧ isResolved d = rt_isResolved thread ∧ disposed d = false.
Proof. done. Qed.

Lemma forEach_showThreadsIn (threadsByPath : gmap string (list IReviewThread))
    (editors : list TextEditor) (s : State) :
  Forall (λ editor, is_Some (fromPRUri (document_uri editor))) editors →
  ∃ s' created,
    forEach editors (showThreadsIn threadsByPath) s = (Returned tt, s', [])
    ∧ threads s' = threads s ++ created
    ∧ Forall (λ d, disposed d = false) created
    ∧ _openPREditors s' = _openPREditors s.
Proof.
  intros Hdec. revert s. induction Hdec as [|editor editors [params Hp] _ IH]; intros s.
  - exists s, []. by rewrite app_nil_r.
  - simpl. unfold mbind, M_bind. rewrite (showThreadsIn_run _ _ params) //.
    set (s1 := match threadsByPath !! fileName params with
               | Some _ => _ | None => s end).
    destruct (IH s1) as (s' & created & -> & Hthreads & Hlive & Heds).
    assert (∃ first, threads s1 = threads s ++ first
                     ∧ Forall (λ d, disposed d = false) first
                     ∧ _openPREditors s1 = _openPREditors s) as (first & H1 & Hl1 & He1).
    { subst s1. destruct (threadsByPath !! fileName params) as [rts|].
      - eexists. split; [done|]. split; [|done].
        apply Forall_forall. by intros d (t & -> & _)%list_elem_of_fmap.
      - exists []. by rewrite app_nil_r. }
    exists s', (first ++ created). split; [done|]. split; [|split].
    + by rewrite Hthreads H1 app_assoc.
    + by apply Forall_app.
    + by rewrite Heds.
Qed.

(** X8: [initializeThreadsInOpenEditors] never throws, records the open
    editors of the pull request, and only adds display threads: every thread
    the comment controller held stays as it was, none is disposed, and the
    threads it creates are live. *)
Theorem initializeThreadsInOpenEditors_only_adds (editors : list TextEditor) (s : State) :
  let r := initializeThreadsInOpenEditors pr editors s in
  outcome r = Returned tt
  ∧ trace r = []
  ∧ _openPREditors (final r) = getPREditors pr editors
  ∧ ∃ created, threads (final r) = threads s ++ created
               ∧ Forall (λ d, disposed d = false) created.
Proof.
  unfold initializeThreadsInOpenEditors. unfold mbind, M_bind, modify.
  destruct (forEach_showThreadsIn (groupBy (reviewThreadsCache pr) rt_path)
              (getPREditors pr editors)
              (set_openPREditors (getPREditors pr editors) s)
              (getPREditors_decodes editors))
    as (s' & created & -> & Hthreads & Hlive & Heds).
  simpl. repeat split; [done|]. by exists created.
Qed.

(** [groupBy] keeps, under each key, the elements of the key in their order,
    and has no entry for a key without elements. *)
Lemma groupBy_lookup {A} (data : list A) (groupFn : A → string) (key : string) :
  groupBy data groupFn !! key
  = match List.filter (λ x, bool_decide (groupFn x = key)) data with
    | [] => None
    | group => Some group
    end.
Proof.
  unfold groupBy.
  assert (∀ (m : gmap string (list A)),
            (∀ k l, m !! k = Some l → l ≠ []) →
            foldl (λ result element,
                     <[groupFn element :=
                         default [] (result !! groupFn element) ++ [element]]> result)
                  m data !! key
            = match default [] (m !! key)
                    ++ List.filter (λ x, bool_decide (groupFn x = key)) data with
              | [] => None
              | group => Some group
              end) as Hgen.
  { induction data as [|x data IH]; intros m Hm.
    - simpl. rewrite app_nil_r. destruct (m !! key) as [l|] eqn:Hk; [|done].
      simpl. destruct l; [by apply Hm in Hk|done].
    - simpl. rewrite IH.
      + rewrite lookup_insert. case_bool_decide as Hx; case_decide; try done.
        subst key. simpl. by rewrite -app_assoc.
      + intros k l. rewrite lookup_insert. case_decide; [|apply Hm].
        intros [= <-]. by destruct (default [] _). }
  rewrite Hgen; [|by intros k l; rewrite lookup_empty]. by rewrite lookup_empty.
Qed.

Lemma filter_filter_andb {A} (p q : A → bool) (l : list A) :
  List.filter q (List.filter p l) = List.filter (λ x, p x && q x) l.
Proof.
  induction l as [|x l IH]; [done|]. simpl.
  destruct (p x); simpl; [|done]. destruct (q x); by rewrite IH.
Qed.

(** X9: a view is opened. When no editor of the pull request was open and
    one becomes visible, [onDidChangeOpenEditors] creates one display thread
    for each review thread of the file of the editor that is on its side
    (LEFT for the base side, RIGHT for the head side), in the order of the
    review threads, anchored one line above the (1-based) line of the review
    thread; the handles of these threads become the cache entry of the file.
    A file without review threads gets no cache entry. *)
Theorem onDidChangeOpenEditors_opens
    (editors : list TextEditor) (editor : TextEditor) (params : PRUriParams) (s : State) :
  _openPREditors s = [] →
  getPREditors pr editors = [editor] →
  fromPRUri (document_uri editor) = Some params →
  let ofFile := List.filter (λ t, bool_decide (rt_path t = fileName params))
                            (reviewThreadsCache pr) in
  let shown := List.filter (onSide (isBase params)) ofFile in
  let r := onDidChangeOpenEditors pr editors s in
  outcome r = Returned tt
  ∧ _openPREditors (final r) = [editor]
  ∧ threads (final r)
    = threads s ++ map (λ t, displayThreadFor (document_uri editor) (line t - 1) t) shown
  ∧ commentThreadCache (final r)
    = match ofFile with
      | [] => commentThreadCache s
      | _ => <[fileName params := seq (length (threads s)) (length shown)]>
               (commentThreadCache s)
      end.
Proof.
  intros Hopen Hpr Hparams ofFile shown r. subst r.
  unfold onDidChangeOpenEditors. run. rewrite Hopen Hpr. run.
  rewrite (showThreadsIn_run _ _ params) //. run.
  rewrite groupBy_lookup. fold ofFile.
  destruct ofFile as [|t ts] eqn:HofFile.
  - subst shown. simpl. by rewrite app_nil_r.
  - fold shown. done.
Qed.

(** X10: the added threads of a review-thread event never change the
    cache: an event that only adds threads returns normally, leaves
    [commentThreadCache] and the open editors as they are, disposes nothing,
    and creates at most one live display thread for each added thread, none
    for an outdated one. *)
Theorem added_threads_left_out_of_cache (visible : list TextEditor)
    (e : ReviewThreadChangeEvent) (s : State) :
  changed e = [] → removed e = [] →
  let r := onDidChangeReviewThreads pr visible e s in
  outcome r = Returned tt
  ∧ commentThreadCache (final r) = commentThreadCache s
  ∧ _openPREditors (final r) = _openPREditors s
  ∧ ∃ created, threads (final r) = threads s ++ created
               ∧ Forall (λ d, disposed d = false) created
               ∧ length created
                 = length (List.filter (λ t, negb (isOutdated t)
                                            && bool_decide (is_Some (matchingEditor pr visible t)))
                                       (added e)).
Proof.
  intros Hc Hr. unfold onDidChangeReviewThreads. rewrite Hc Hr. simpl.
  assert (∀ s, ∃ s' created,
            forEach (added e) (onAdded pr visible) s = (Returned tt, s', [])
            ∧ commentThreadCache s' = commentThreadCache s
            ∧ _openPREditors s' = _openPREditors s
            ∧ threads s' = threads s ++ created
            ∧ Forall (λ d, disposed d = false) created
            ∧ length created
              = length (List.filter (λ t, negb (isOutdated t)
                                         && bool_decide (is_Some (matchingEditor pr visible t)))
                                    (added e))) as Hadded.
  { induction (added e) as [|t ts IH]; intros s0.
    - exists s0, []. by rewrite app_nil_r.
    - simpl. unfold mbind, M_bind. unfold onAdded at 1.
      destruct (isOutdated t); simpl.
      + destruct (IH s0) as (s' & created & -> & ?). by exists s', created.
      + destruct (matchingEditor pr visible t) as [editor|]; simpl.
        * unfold createVSCodeCommentThreadForReviewThread. run.
          match goal with
          | |- context [forEach ts _ ?s1] =>
              destruct (IH s1) as (s' & created & -> & Hcache & Heds & Hth & Hlive & Hlen)
          end.
          eexists s', (_ :: created). simpl in *. split; [done|].
          split; [done|]. split; [done|]. split; [by rewrite Hth -app_assoc|].
          split; [by constructor|]. by rewrite Hlen.
        * destruct (IH s0) as (s' & created & -> & ?). by exists s', created. }
  unfold mbind, M_bind.
  destruct (Hadded s) as (s' & created & -> & Hcache & Heds & Hth & Hlive & Hlen).
  run. repeat split; try done. by exists created.
Qed.

(** *** Closing views *)

Lemma forEach_final_preserves {S A} (P : S → Prop) (f : A → M S unit) (xs : list A) (s : S) :
  (∀ x s, P s → P (final (f x s))) → P s → P (final (forEach xs f s)).
Proof.
  intros Hf. revert s. induction xs as [|x xs IH]; intros s Hs; [done|].
  simpl. unfold mbind, M_bind, final in *.
  specialize (Hf x s Hs). destruct (f x s) as [[[[]|e] s1] t1]; simpl in *; [|done].
  specialize (IH s1 Hf). by destruct (forEach xs f s1) as [[r s2] t2].
Qed.

Lemma showThreadsIn_openPREditors (threadsByPath : gmap string (list IReviewThread))
    (editor : TextEditor) (s : State) :
  _openPREditors (final (showThreadsIn threadsByPath editor s)) = _openPREditors s.
Proof.
  destruct (fromPRUri (document_uri editor)) as [params|] eqn:Hp.
  - rewrite (showThreadsIn_run _ _ params) //. unfold final. simpl.
    by destruct (threadsByPath !! fileName params).
  - unfold showThreadsIn. by rewrite Hp.
Qed.

Lemma onDidChangeOpenEditors_openPREditors (editors : list TextEditor) (s : State) :
  _openPREditors (final (onDidChangeOpenEditors pr editors s)) = getPREditors pr editors.
Proof.
  unfold onDidChangeOpenEditors. run.
  set (P := λ s' : State, _openPREditors s' = getPREditors pr editors).
  match goal with
  | |- context [forEach (List.filter _ (_openPREditors s)) ?f ?s0] =>
      set (close := f); set (start := s0)
  end.
  assert (P (final (forEach
                      (List.filter (λ x, negb (includes (getPREditors pr editors) x))
                                   (_openPREditors s)) close start))) as Hclosed.
  { apply forEach_final_preserves; [|done]. intros editor s' Hs'. subst close. simpl.
    by destruct (fromPRUri (document_uri editor)). }
  unfold final in *.
  destruct (forEach _ close start) as [[[[]|e] s1] t1]; simpl in *; [|done].
  case_bool_decide; [done|].
  set (added := List.filter _ (getPREditors pr editors)).
  pose proof (forEach_final_preserves P
                (showThreadsIn (groupBy (reviewThreadsCache pr) rt_path)) added s1) as Hopened.
  unfold final in Hopened.
  destruct (forEach added _ s1) as [[r s2] t2]. simpl. apply Hopened; [|done].
  intros editor s' Hs'. unfold P. by rewrite showThreadsIn_openPREditors.
Qed.

Lemma includes_elem (editors : list TextEditor) (editor : TextEditor) :
  editor ∈ editors → includes editors editor = true.
Proof.
  intros Hin. apply existsb_exists. exists editor.
  split; [by apply list_elem_of_In|]. by apply bool_decide_eq_true_2.
Qed.

Lemma filter_not_included (editors : list TextEditor) :
  List.filter (λ x, negb (includes editors x)) editors = [].
Proof.
  assert (∀ l, Forall (λ x, includes editors x = true) l →
               List.filter (λ x, negb (includes editors x)) l = []) as Hgen.
  { induction 1 as [|x l Hx _ IH]; [done|]. simpl. by rewrite Hx. }
  apply Hgen, Forall_forall. intros x. apply includes_elem.
Qed.

(** X11: when the visible editors have not changed since the last
    notification, [onDidChangeOpenEditors] does nothing: no display thread
    is created or disposed and the cache stays as it is. *)
Theorem onDidChangeOpenEditors_again (editors : list TextEditor) (s : State) :
  let s1 := final (onDidChangeOpenEditors pr editors s) in
  onDidChangeOpenEditors pr editors s1 = (Returned tt, s1, []).
Proof.
  intros s1. pose proof (onDidChangeOpenEditors_openPREditors editors s) as Hopen.
  fold s1 in Hopen. clearbody s1. unfold onDidChangeOpenEditors. run.
  rewrite Hopen filter_not_included. run. by destruct s1; simpl in *; subst.
Qed.

Lemma disposeAll_lookup (handles : list nat) (ts : list GHPRCommentThread) (h : nat) :
  disposeAll handles ts !! h
  = (if decide (h ∈ handles) then dispose else id) <$> ts !! h.
Proof.
  unfold disposeAll. revert ts. induction handles as [|a handles IH]; intros ts; simpl.
  - by rewrite option_fmap_id.
  - rewrite IH list_lookup_alter.
    destruct (decide (a = h)) as [->|Hne].
    + destruct (ts !! h) as [d|]; [|done]. simpl. f_equal.
      repeat case_decide; set_solver.
    + destruct (ts !! h) as [d|]; [|done]. simpl. f_equal.
      repeat case_decide; set_solver.
Qed.

Lemma closeFiles_cache (files : list string) (s : State) (p : string) :
  commentThreadCache (closeFiles files s) !! p
  = if decide (p ∈ files) then None else commentThreadCache s !! p.
Proof.
  unfold closeFiles. revert s. induction files as [|f files IH]; intros s; [done|].
  simpl. rewrite IH. simpl. rewrite lookup_delete.
  repeat case_decide; set_solver.
Qed.

Lemma closeFiles_threads (files : list string) (s : State) (h : nat) :
  threads (closeFiles files s) !! h
  = (if decide (Exists (λ f, h ∈ default [] (commentThreadCache s !! f)) files)
     then dispose else id) <$> threads s !! h.
Proof.
  unfold closeFiles. revert s. induction files as [|f files IH]; intros s; simpl.
  - by rewrite option_fmap_id.
  - rewrite IH. simpl. rewrite disposeAll_lookup -option_fmap_compose.
    destruct (threads s !! h) as [d|]; [|done]. simpl. f_equal.
    assert (Exists (λ g, h ∈ default [] (delete f (commentThreadCache s) !! g)) files
            → Exists (λ g, h ∈ default [] (commentThreadCache s !! g)) files) as Hweak.
    { intros Hex. eapply Exists_impl; [exact Hex|]. intros g. simpl.
      rewrite lookup_delete. case_decide; [by intros ?%elem_of_nil|done]. }
    assert (h ∉ default [] (commentThreadCache s !! f) →
            Exists (λ g, h ∈ default [] (commentThreadCache s !! g)) files →
            Exists (λ g, h ∈ default [] (delete f (commentThreadCache s) !! g)) files)
      as Hstrong.
    { intros Hf Hex. eapply Exists_impl; [exact Hex|]. intros g Hg. simpl in *.
      rewrite lookup_delete. case_decide; [by subst|done]. }
    destruct (decide (h ∈ default [] (commentThreadCache s !! f))) as [Hf|Hf];
      destruct (decide (Exists _ files)) as [He|He];
      destruct (decide (Exists _ (f :: files))) as [Hc|Hc]; try done; exfalso.
    + apply Hc, Exists_cons. by left.
    + apply Hc, Exists_cons. by left.
    + apply Hc, Exists_cons. right. by apply Hweak.
    + apply Exists_cons in Hc as [Hc|Hc]; [done|]. by apply He, Hstrong.
Qed.

Lemma forEach_close (editors : list TextEditor) (s : State) :
  Forall (λ editor, is_Some (fromPRUri (document_uri editor))) editors →
  forEach editors (λ editor,
    match fromPRUri (document_uri editor) with
    | None => throw (TypeError "Cannot read properties of undefined")
    | Some params =>
        modify (λ s,
          let handles := default [] (commentThreadCache s !! fileName params) in
          set_commentThreadCache (delete (fileName params) (commentThreadCache s))
            (set_threads (disposeAll handles (threads s)) s))
    end) s
  = (Returned tt, closeFiles (fileNames editors) s, []).
Proof.
  intros Hdec. revert s. induction Hdec as [|editor editors [params Hp] _ IH]; intros s.
  - done.
  - simpl. unfold mbind, M_bind. rewrite Hp. unfold modify at 1.
    by rewrite IH.
Qed.

(** X12: views are closed. When no editor of the pull request is visible
    any more, [onDidChangeOpenEditors] deletes the cache entry of the file of
    every editor that was open and disposes every display thread such an
    entry listed; the cache entries of other files and all other display
    threads stay as they are, and nothing is created. *)
Theorem onDidChangeOpenEditors_closes (editors : list TextEditor) (s : State) :
  getPREditors pr editors = [] →
  Forall (λ editor, is_Some (fromPRUri (document_uri editor))) (_openPREditors s) →
  let closed := fileNames (_openPREditors s) in
  let r := onDidChangeOpenEditors pr editors s in
  outcome r = Returned tt
  ∧ _openPREditors (final r) = []
  ∧ (∀ p, commentThreadCache (final r) !! p
          = if decide (p ∈ closed) then None else commentThreadCache s !! p)
  ∧ (∀ h, threads (final r) !! h
          = (if decide (Exists (λ f, h ∈ default [] (commentThreadCache s !! f)) closed)
             then dispose else id) <$> threads s !! h).
Proof.
  intros Hnone Hdec closed r. subst r. unfold onDidChangeOpenEditors. run.
  rewrite Hnone. simpl.
  assert (∀ l : list TextEditor, List.filter (λ _, true) l = l) as ->.
  { induction l as [|x l IH]; [done|]. simpl. by rewrite IH. }
  rewrite forEach_close //. run.
  split; [done|]. split; [|split].
  - assert (∀ files s0, _openPREditors (closeFiles files s0) = _openPREditors s0) as Heds.
    { unfold closeFiles. induction files as [|f files IH]; intros s0; [done|].
      simpl. by rewrite IH. }
    by rewrite Heds.
  - intros p. by rewrite closeFiles_cache.
  - intros h. by rewrite closeFiles_threads.
Qed.

(** *** Review-thread events *)

Lemma forEach_app {S A} (xs ys : list A) (f : A → M S unit) (s : S) :
  forEach (xs ++ ys) f s = (forEach xs f ;; forEach ys f) s.
Proof.
  revert s. induction xs as [|x xs IH]; intros s; simpl.
  - unfold mbind, M_bind, mret, M_ret. by destruct (forEach ys f s) as [[r s'] t].
  - unfold mbind, M_bind in *. destruct (f x s) as [[[[]|e] s1] t1]; [|done].
    rewrite IH. destruct (forEach xs f s1) as [[[[]|e] s2] t2]; [|done].
    destruct (forEach ys f s2) as [[r s3] t3]. by rewrite app_assoc.
Qed.

Lemma changeAll_cache (ts : list IReviewThread) (s : State) :
  commentThreadCache (changeAll s ts) = commentThreadCache s
  ∧ _openPREditors (changeAll s ts) = _openPREditors s.
Proof.
  rewrite (ThreadCacheFacts.changeAll_fixed_targets (target s)) //.
  apply ThreadCacheFacts.changeWith_cache.
Qed.

Lemma length_from_lookup {A B} (l1 : list A) (l2 : list B) :
  (∀ i, is_Some (l1 !! i) ↔ is_Some (l2 !! i)) → length l1 = length l2.
Proof.
  intros Hl. destruct (Nat.lt_total (length l1) (length l2)) as [Hlt|[?|Hlt]]; [|done|].
  - apply lookup_lt_is_Some_2, Hl, lookup_lt_is_Some_1 in Hlt. lia.
  - apply lookup_lt_is_Some_2, Hl, lookup_lt_is_Some_1 in Hlt. lia.
Qed.

(** The added threads of an event are shown without an exception or an
    effect; the cache and the open editors stay as they are and display
    threads are only created. *)
Lemma forEach_onAdded_shows (visible : list TextEditor) (ts : list IReviewThread) (s : State) :
  forEach ts (onAdded pr visible) s = (Returned tt, showAdded pr visible ts s, [])
  ∧ commentThreadCache (showAdded pr visible ts s) = commentThreadCache s
  ∧ _openPREditors (showAdded pr visible ts s) = _openPREditors s
  ∧ ∃ created, threads (showAdded pr visible ts s) = threads s ++ created.
Proof.
  assert (∀ s, ∃ s' created,
            forEach ts (onAdded pr visible) s = (Returned tt, s', [])
            ∧ commentThreadCache s' = commentThreadCache s
            ∧ _openPREditors s' = _openPREditors s
            ∧ threads s' = threads s ++ created) as Hadded.
  { clear s. induction ts as [|t ts IH]; intros s0.
    - exists s0, []. by rewrite app_nil_r.
    - simpl. unfold mbind, M_bind. unfold onAdded at 1.
      destruct (isOutdated t); simpl.
      + destruct (IH s0) as (s' & created & -> & ?). by exists s', created.
      + destruct (matchingEditor pr visible t) as [editor|]; simpl.
        * unfold createVSCodeCommentThreadForReviewThread. run.
          match goal with
          | |- context [forEach ts _ ?s1] =>
              destruct (IH s1) as (s' & created & -> & Hcache & Heds & Hth)
          end.
          eexists s', (_ :: created). simpl in *. split; [done|].
          split; [done|]. split; [done|]. by rewrite Hth -app_assoc.
        * destruct (IH s0) as (s' & created & -> & ?). by exists s', created. }
  destruct (Hadded s) as (s' & created & Hrun & Hcache & Heds & Hth).
  unfold showAdded. rewrite Hrun. simpl.
  split; [done|]. split; [done|]. split; [done|]. by exists created.
Qed.

(** X13: a changed thread for whose path the cache has no entry makes
    [onDidChangeReviewThreads] throw a [TypeError] to its caller, whatever
    the added threads of the event are. The added threads have been shown
    and the changed threads before it have been applied; those after it and
    all removed threads of the event are not processed. *)
Theorem changed_without_entry_aborts (visible : list TextEditor)
    (e : ReviewThreadChangeEvent) (s : State)
    (before after : list IReviewThread) (t : IReviewThread) :
  changed e = before ++ t :: after →
  Forall (λ u, is_Some (commentThreadCache s !! rt_path u)) before →
  commentThreadCache s !! rt_path t = None →
  let shown := showAdded pr visible (added e) s in
  onDidChangeReviewThreads pr visible e s
  = (Thrown findIndexOfUndefined, changeAll shown before, [])
  ∧ commentThreadCache (changeAll shown before) = commentThreadCache s
  ∧ _openPREditors (changeAll shown before) = _openPREditors s
  ∧ length (threads (changeAll shown before)) = length (threads shown).
Proof.
  intros Hchanged Hbefore Hnone shown.
  destruct (forEach_onAdded_shows visible (added e) s) as (Hrun & Hcache & Heds & _).
  fold shown in Hrun, Hcache, Heds.
  destruct (changeAll_cache before shown) as [Hcache' Heds'].
  split; [|split; [congruence|split; [congruence|]]].
  - unfold onDidChangeReviewThreads.
    unfold mbind at 1, M_bind at 1. rewrite Hrun.
    unfold mbind at 1, M_bind at 1. rewrite Hchanged forEach_app.
    unfold mbind at 1, M_bind at 1. rewrite ThreadCacheFacts.forEach_onChanged.
    + simpl. unfold mbind at 1, M_bind at 1.
      rewrite ThreadCacheFacts.onChanged_None //. congruence.
    + eapply Forall_impl; [done|]. intros u. by rewrite Hcache.
  - rewrite (ThreadCacheFacts.changeAll_fixed_targets (target shown)) //.
    apply length_from_lookup. intros h.
    by rewrite ThreadCacheFacts.changeWith_lookup fmap_is_Some.
Qed.

Lemma lastWins_keeps tg h ts d :
  uri (lastWins tg h ts d) = uri d ∧ range (lastWins tg h ts d) = range d
  ∧ threadId (lastWins tg h ts d) = threadId d
  ∧ disposed (lastWins tg h ts d) = disposed d.
Proof.
  revert d. induction ts as [|t ts IH]; intros d; [done|].
  simpl. destruct (IH (if decide (tg t = Some h) then refresh t d else d))
    as (-> & -> & -> & ->). by case_decide.
Qed.

(** X14: the changed threads of a review-thread event only refresh display
    threads: when the handler returns normally on an event that adds and
    removes nothing, the cache and the open editors are as before, and every
    display thread has the document, the range, the thread id and the
    disposal state it had; none is created. *)
Theorem changed_threads_only_refresh (visible : list TextEditor)
    (e : ReviewThreadChangeEvent) (s : State) :
  added e = [] → removed e = [] →
  let r := onDidChangeReviewThreads pr visible e s in
  outcome r = Returned tt →
  commentThreadCache (final r) = commentThreadCache s
  ∧ _openPREditors (final r) = _openPREditors s
  ∧ length (threads (final r)) = length (threads s)
  ∧ ∀ h, (λ d, (uri d, range d, threadId d, disposed d)) <$> threads (final r) !! h
         = (λ d, (uri d, range d, threadId d, disposed d)) <$> threads s !! h.
Proof.
  intros Hadded Hremoved r Hout. subst r.
  assert (Forall (addsNothing pr visible) (added e)) as Hadd by by rewrite Hadded.
  pose proof (ThreadCacheFacts.onDidChangeReviewThreads_Returned pr visible e s Hadd Hout)
    as Hpaths.
  rewrite ThreadCacheFacts.onDidChangeReviewThreads_run //. rewrite Hremoved.
  unfold final. simpl.
  destruct (changeAll_cache (changed e) s) as [Hcache Heds].
  assert (∀ h, threads (changeAll s (changed e)) !! h
               = lastWins (target s) h (changed e) <$> threads s !! h) as Hth.
  { intros h. rewrite (ThreadCacheFacts.changeAll_fixed_targets (target s)) //.
    apply ThreadCacheFacts.changeWith_lookup. }
  split; [done|]. split; [done|]. split.
  - apply length_from_lookup. intros h. by rewrite Hth fmap_is_Some.
  - intros h. rewrite Hth -option_fmap_compose.
    destruct (threads s !! h) as [d|]; [|done]. simpl.
    by destruct (lastWins_keeps (target s) h (changed e) d) as (-> & -> & -> & ->).
Qed.

(** X15: a review thread that is displayed is removed. On a converged cache
    the removed thread's display thread is disposed and taken out of the
    cache entry of its path; every other display thread and cache entry is
    as before, and the thread id is no longer displayed under the path. *)
Theorem removed_thread_disposed (visible : list TextEditor)
    (e : ReviewThreadChangeEvent) (s : State) (t : IReviewThread) (h : nat) :
  wellFormed s →
  added e = [] → changed e = [] → removed e = [t] →
  target s t = Some h →
  let r := onDidChangeReviewThreads pr visible e s in
  outcome r = Returned tt
  ∧ trace r = []
  ∧ threads (final r) !! h = dispose <$> threads s !! h
  ∧ (∀ h', h' ≠ h → threads (final r) !! h' = threads s !! h')
  ∧ (∀ p, commentThreadCache (final r) !! p
          = filter (.≠ h) <$> commentThreadCache s !! p)
  ∧ target (final r) t = None.
Proof.
  intros Hwf Hadded Hchanged Hremoved Htarget r. subst r.
  rewrite ThreadCacheFacts.onDidChangeReviewThreads_run; rewrite ?Hadded ?Hchanged //.
  rewrite Hremoved. unfold final, outcome, trace. simpl.
  pose proof (ThreadCacheFacts.applyRemoved_removedFrom t s Hwf) as Hrem.
  rewrite Htarget in Hrem. simpl in Hrem.
  pose proof (ThreadCacheFacts.removedFrom_target _ _ _ t Hwf Hrem) as Hgone.
  destruct Hrem as (Hc & Ht & _).
  split; [done|]. split; [|split; [|split; [|split]]].
  - unfold rejections. simpl. unfold target in Htarget.
    by destruct (commentThreadCache s !! rt_path t).
  - rewrite Ht decide_True //. by apply list_elem_of_singleton.
  - intros h' Hne. rewrite Ht. case_decide as Hin.
    + by apply list_elem_of_singleton in Hin.
    + by rewrite option_fmap_id.
  - intros p. rewrite Hc. destruct (commentThreadCache s !! p) as [l|]; [|done].
    simpl. f_equal. apply list_filter_iff. intros x.
    by rewrite list_elem_of_singleton.
  - rewrite Hgone Htarget. simpl. rewrite decide_False //.
    intros Hn. apply Hn. by apply list_elem_of_singleton.
Qed.

End facts.
Import Scenario MoreScenarios.

Lemma onDidChangeOpenEditors_opens_witness :
  let r := onDidChangeOpenEditors (online [reviewThread1; reviewThread2]) [editor1]
                                  emptyCache in
  outcome r = Returned tt
  ∧ _openPREditors (final r) = [editor1]
  ∧ threads (final r)
    = [displayThreadFor (headOf "a.ts") 2 reviewThread1;
       displayThreadFor (headOf "a.ts") 8 reviewThread2]
  ∧ commentThreadCache (final r) = <["a.ts" := [0; 1]]> ∅.
Proof.
  apply (onDidChangeOpenEditors_opens (online [reviewThread1; reviewThread2]) [editor1]
           editor1 (paramsOf "a.ts" false) emptyCache); reflexivity.
Defined.

Lemma added_threads_left_out_of_cache_witness :
  let r := onDidChangeReviewThreads (online []) [editor1] (onlyAdded [reviewThread2])
                                    twoThreads in
  outcome r = Returned tt
  ∧ commentThreadCache (final r) = commentThreadCache twoThreads
  ∧ _openPREditors (final r) = _openPREditors twoThreads
  ∧ ∃ created, threads (final r) = threads twoThreads ++ created
               ∧ Forall (λ d, disposed d = false) created
               ∧ length created
                 = length (List.filter
                             (λ t, negb (isOutdated t)
                                   && bool_decide
                                        (is_Some (matchingEditor (online []) [editor1] t)))
                             [reviewThread2]).
Proof.
  apply (added_threads_left_out_of_cache (online []) [editor1] (onlyAdded [reviewThread2])
           twoThreads); reflexivity.
Defined.

Lemma onDidChangeOpenEditors_closes_witness :
  let closed := fileNames (_openPREditors twoThreads) in
  let r := onDidChangeOpenEditors (online []) [] twoThreads in
  outcome r = Returned tt
  ∧ _openPREditors (final r) = []
  ∧ (∀ p, commentThreadCache (final r) !! p
          = if decide (p ∈ closed) then None else commentThreadCache twoThreads !! p)
  ∧ (∀ h, threads (final r) !! h
          = (if decide (Exists (λ f, h ∈ default [] (commentThreadCache twoThreads !! f))
                               closed)
             then dispose else id) <$> threads twoThreads !! h).
Proof.
  apply (onDidChangeOpenEditors_closes (online []) [] twoThreads).
  - reflexivity.
  - constructor; [|constructor]. eexists. reflexivity.
Defined.

Lemma changed_without_entry_aborts_witness :
  let shown := showAdded (online []) [editor1] (added addedAndChanged) twoThreads in
  onDidChangeReviewThreads (online []) [editor1] addedAndChanged twoThreads
  = (Thrown findIndexOfUndefined, changeAll shown [reviewThread1Resolved], [])
  ∧ commentThreadCache (changeAll shown [reviewThread1Resolved])
    = commentThreadCache twoThreads
  ∧ _openPREditors (changeAll shown [reviewThread1Resolved]) = _openPREditors twoThreads
  ∧ length (threads (changeAll shown [reviewThread1Resolved])) = length (threads shown).
Proof.
  apply (changed_without_entry_aborts (online []) [editor1] addedAndChanged twoThreads
           [reviewThread1Resolved] [] threadOnOtherFile).
  - reflexivity.
  - constructor; [|constructor]. exists [0; 1]. vm_compute. reflexivity.
  - vm_compute. reflexivity.
Defined.

Lemma changed_threads_only_refresh_witness :
  let r := onDidChangeReviewThreads (online []) [editor1]
             (onlyChanged [reviewThread1Resolved]) twoThreads in
  commentThreadCache (final r) = commentThreadCache twoThreads
  ∧ _openPREditors (final r) = _openPREditors twoThreads
  ∧ length (threads (final r)) = length (threads twoThreads)
  ∧ ∀ h, (λ d, (uri d, range d, threadId d, disposed d)) <$> threads (final r) !! h
         = (λ d, (uri d, range d, threadId d, disposed d)) <$> threads twoThreads !! h.
Proof.
  apply (changed_threads_only_refresh (online []) [editor1]
           (onlyChanged [reviewThread1Resolved]) twoThreads).
  - reflexivity.
  - reflexivity.
  - vm_compute. reflexivity.
Defined.

Lemma removed_thread_disposed_witness :
  let r := onDidChangeReviewThreads (online []) [editor1] (onlyRemoved [reviewThread2])
                                    twoThreads in
  outcome r = Returned tt
  ∧ trace r = []
  ∧ threads (final r) !! 1 = dispose <$> threads twoThreads !! 1
  ∧ (∀ h', h' ≠ 1 → threads (final r) !! h' = threads twoThreads !! h')
  ∧ (∀ p, commentThreadCache (final r) !! p
          = filter (.≠ 1) <$> commentThreadCache twoThreads !! p)
  ∧ target (final r) reviewThread2 = None.
Proof.
  apply (removed_thread_disposed (online []) [editor1] (onlyRemoved [reviewThread2])
           twoThreads reviewThread2 1).
  - exact ThreadCacheFacts.twoThreads_wellFormed.
  - reflexivity.
  - reflexivity.
  - reflexivity.
  - vm_compute. reflexivity.
Defined.

End ThreadCacheMore.

(** ** Comment actions, continued *)

Module CommentsMore.
Import Comments.
Section facts.
Context `{Helpers} (pr : PullRequestModel).

(** The temporary comment [optimisticallyAddComment] inserts. *)
Lemma createOrReplyComment_cases (input : string) (inDraft : option bool) (st : State) :
  let r := createOrReplyComment pr input inDraft st in
  let tc := {| t_id := idPool st; t_body := input; t_mode := Preview;
               t_label := if default (hasPendingReview pr) inDraft
                          then Some "Pending" else None;
               t_author := currentUser pr; originalBody := None |} in
  comments (thread (final r)) = comments (thread st) ++ [Temporary tc]
  ∨ comments (thread (final r))
    = map (makeEditable (idPool st)) (comments (thread st))
      ++ [Temporary (set_t_mode Editing tc)].
Proof.
  unfold createOrReplyComment. run. rewrite CommentsFacts.optimisticallyAddComment_run. run.
  destruct (comments (thread st)) as [|[c|t0] rest] eqn:Hcs; run.
  - rewrite (bool_decide_eq_false_2 (0 ≠ 0)); [|lia]. run.
    destruct (createReviewThread pr _ _ _); run; [by left|right].
    by rewrite bool_decide_eq_true_2.
  - rewrite bool_decide_eq_true_2; [|lia]. unfold reply. run.
    destruct (createCommentReply pr _ _); run; [by left|right].
    by rewrite map_app /= bool_decide_eq_true_2.
  - rewrite bool_decide_eq_true_2; [|lia]. unfold reply. run. right.
    by rewrite map_app /= (bool_decide_eq_true_2 (idPool st = idPool st)).
Qed.

(** X16: whatever the data layer answers, [createOrReplyComment] leaves
    the text the user typed in the thread: the last comment is the new
    temporary comment with the input as its body, and the comments before
    it are those the thread had (a temporary comment among them that shares
    the new id is at most flagged for editing). *)
Theorem createOrReplyComment_keeps_input (input : string) (inDraft : option bool) (st : State) :
  let r := createOrReplyComment pr input inDraft st in
  ∃ before tc,
    comments (thread (final r)) = before ++ [Temporary tc]
    ∧ t_body tc = input ∧ t_id tc = idPool st
    ∧ (before = comments (thread st)
       ∨ before = map (makeEditable (idPool st)) (comments (thread st))).
Proof.
  intros r. subst r.
  destruct (createOrReplyComment_cases input inDraft st) as [-> | ->];
    eexists _, _; (split; [done|]); auto.
Qed.

(** X17: when the request succeeds, one request has been sent and no
    message shown: for a thread without comments a new review thread on the
    git-relative path of the document at the line after the (0-based) start
    of the range, for a thread that starts with a confirmed comment a reply
    to that comment. The temporary comment stays at the end of the list, not
    editable, until an event of the remote refreshes the thread. *)
Theorem createOrReplyComment_success
    (st : State) (input : string) (inDraft : option bool) (request : RemoteCall) :
  (comments (thread st) = []
   ∧ request = CreateReviewThread input (gitRelativeRootPath (path (uri (thread st))))
                                  (range (thread st) + 1)
   ∧ createReviewThread pr input (gitRelativeRootPath (path (uri (thread st))))
                        (range (thread st) + 1) = Returned tt)
  ∨ (∃ c rest, comments (thread st) = Confirmed c :: rest
               ∧ request = CreateCommentReply input (graphNodeId (_rawComment c))
               ∧ createCommentReply pr input (graphNodeId (_rawComment c)) = Returned tt) →
  let r := createOrReplyComment pr input inDraft st in
  outcome r = Returned tt
  ∧ trace r = [Request request]
  ∧ ∃ tc, comments (thread (final r)) = comments (thread st) ++ [Temporary tc]
          ∧ t_id tc = idPool st ∧ t_body tc = input ∧ t_mode tc = Preview.
Proof.
  intros Hok r. subst r. unfold createOrReplyComment.
  run. rewrite CommentsFacts.optimisticallyAddComment_run. run.
  destruct Hok as [(Hnil & -> & Hcall) | (c & rest & Hcons & -> & Hcall)].
  - rewrite Hnil. run. rewrite (bool_decide_eq_false_2 (0 ≠ 0)); [|lia]. run.
    rewrite Hcall. run. repeat split. by eexists.
  - rewrite Hcons. run. rewrite bool_decide_eq_true_2; [|lia]. unfold reply. run.
    rewrite Hcall. run. repeat split. by eexists.
Qed.

(** X18: a reply in a thread whose first comment is itself a temporary
    comment is not sent: no request leaves, the user is told that a
    temporary comment cannot be responded to, and the new temporary comment
    is flagged for editing. *)
Theorem createOrReplyComment_first_temporary
    (st : State) (input : string) (inDraft : option bool)
    (first : TemporaryComment) (rest : list Comment) :
  comments (thread st) = Temporary first :: rest →
  let r := createOrReplyComment pr input inDraft st in
  outcome r = Returned tt
  ∧ trace r = [ShowErrorMessage "Creating comment failed: "
                 (Error "Cannot respond to temporary comment")]
  ∧ ∃ tc, comments (thread (final r))
          = map (makeEditable (idPool st)) (comments (thread st)) ++ [Temporary tc]
          ∧ t_id tc = idPool st ∧ t_body tc = input ∧ t_mode tc = Editing.
Proof.
  intros Hcs r. subst r. unfold createOrReplyComment.
  run. rewrite CommentsFacts.optimisticallyAddComment_run. run.
  rewrite Hcs. run. rewrite bool_decide_eq_true_2; [|lia]. unfold reply. run.
  repeat split. rewrite map_app /= (bool_decide_eq_true_2 (idPool st = idPool st)) //.
  by eexists.
Qed.

(** The two callbacks of [editComment]. *)
Lemma edit_then_restore (c : GHPRComment) (tmp : TemporaryComment)
    (restored : GHPRComment) (cs : list Comment) :
  (∀ tc, Temporary tc ∈ cs → t_id tc ≠ t_id tmp) →
  map (λ x, match x with
            | Temporary tc =>
                if bool_decide (t_id tc = t_id tmp) then Confirmed restored else x
            | Confirmed _ => x
            end)
      (map (λ x, match x with
                 | Confirmed g =>
                     if bool_decide (commentId g = commentId c) then Temporary tmp else x
                 | Temporary _ => x
                 end) cs)
  = map (λ x, match x with
              | Confirmed g =>
                  if bool_decide (commentId g = commentId c) then Confirmed restored else x
              | Temporary _ => x
              end) cs.
Proof.
  intros Hfresh. rewrite map_map. apply map_ext_in. intros x Hx%list_elem_of_In.
  destruct x as [g|tc].
  - case_bool_decide; [|done]. by rewrite bool_decide_eq_true_2.
  - rewrite bool_decide_eq_false_2 //. by apply Hfresh.
Qed.

(** X19: a failed edit is rolled back to the comment as the remote has it.
    When the edit request fails and the id drawn for the temporary comment
    is not in use in the thread, every comment with the id of the edited
    comment is again a confirmed comment, built from the raw comment the
    remote delivered, and every other comment is untouched; the failure is
    shown in one message and not thrown. *)
Theorem editComment_failure_restores (st : State) (c : GHPRComment) (e : JsError) :
  editReviewComment pr (_rawComment c) (body c) = Thrown e →
  (∀ tc, Temporary tc ∈ comments (thread st) → t_id tc ≠ idPool st) →
  let r := editComment pr (Confirmed c) st in
  outcome r = Returned tt
  ∧ trace r = [Request (EditReviewComment (graphNodeId (_rawComment c)) (body c));
               ShowErrorMessage "Editing comment failed " e]
  ∧ comments (thread (final r))
    = map (λ x, match x with
                | Confirmed g =>
                    if bool_decide (commentId g = commentId c)
                    then Confirmed (newGHPRComment (_rawComment c) (uri (thread st)))
                    else x
                | Temporary _ => x
                end) (comments (thread st)).
Proof.
  intros Hcall Hfresh r. subst r. unfold editComment, optimisticallyEditComment.
  run. rewrite Hcall. run. repeat split.
  by apply (edit_then_restore c
              {| t_id := idPool st; t_body := body c; t_mode := Preview;
                 t_label := if bool_decide (commentLabel c ≠ None)
                            then Some "Pending" else None;
                 t_author := currentUser pr;
                 originalBody := Some (c_body (_rawComment c)) |}).
Qed.

(** X20: after an edit request that succeeded, the thread shows a
    temporary comment with the edited body in the place of every comment
    with the id of the edited one, until an event of the remote refreshes
    the thread; no other comment moves or changes, and nothing is shown to
    the user. *)
Theorem editComment_success_swaps (st : State) (c : GHPRComment) :
  editReviewComment pr (_rawComment c) (body c) = Returned tt →
  let r := editComment pr (Confirmed c) st in
  outcome r = Returned tt
  ∧ trace r = [Request (EditReviewComment (graphNodeId (_rawComment c)) (body c))]
  ∧ ∃ tmp, t_id tmp = idPool st ∧ t_body tmp = body c
           ∧ comments (thread (final r))
             = map (λ x, match x with
                         | Confirmed g =>
                             if bool_decide (commentId g = commentId c)
                             then Temporary tmp else x
                         | Temporary _ => x
                         end) (comments (thread st)).
Proof.
  intros Hcall r. subst r. unfold editComment, optimisticallyEditComment.
  run. rewrite Hcall. run. repeat split.
  by exists {| t_id := idPool st; t_body := body c; t_mode := Preview;
               t_label := if bool_decide (commentLabel c ≠ None)
                          then Some "Pending" else None;
               t_author := currentUser pr;
               originalBody := Some (c_body (_rawComment c)) |}.
Qed.


(** X22: [startReview] always asks for a new review thread, also in a
    thread that has comments already; the draft context key is set when the
    request succeeds, and only then. On failure one message is shown. *)
Theorem startReview_trace (input : string) (st : State) :
  let r := startReview pr input st in
  let fileName' := gitRelativeRootPath (path (uri (thread st))) in
  outcome r = Returned tt
  ∧ trace r
    = Request (CreateReviewThread input fileName' (range (thread st) + 1))
      :: match createReviewThread pr input fileName' (range (thread st) + 1) with
         | Returned _ => [SetContext "prInDraft" true]
         | Thrown e => [ShowErrorMessage "Starting a review failed: " e]
         end.
Proof.
  unfold startReview. run. rewrite CommentsFacts.optimisticallyAddComment_run. run.
  by destruct (createReviewThread pr _ _ _) as [[]|e].
Qed.

(** X23: [finishReview] submits the review whether or not its reply was
    accepted: after everything [createOrReplyComment] does with the input
    as a non-draft comment, the submission is requested; the draft context
    key is cleared when the submission succeeds, and a failed submission is
    shown in a message. The thread stays as the reply step left it. *)
Theorem finishReview_always_submits (input : string) (st : State) :
  let reply := createOrReplyComment pr input (Some false) st in
  let r := finishReview pr input st in
  outcome r = Returned tt
  ∧ final r = final reply
  ∧ trace r
    = trace reply
      ++ Request SubmitReview
         :: match submitReview pr with
            | Returned _ => [SetContext "prInDraft" false]
            | Thrown e => [ShowErrorMessage "Failed to submit the review: " e]
            end.
Proof.
  intros reply r. subst reply r.
  pose proof (CommentsFacts.createOrReplyComment_returns pr input (Some false) st) as Hret.
  unfold finishReview. run.
  destruct (createOrReplyComment pr input (Some false) st) as [[[[]|e] s1] t1];
    simpl in *; [|done].
  destruct (submitReview pr) as [[]|e]; run; rewrite -?app_assoc; done.
Qed.

(** X24: deleting a confirmed comment changes nothing in the thread: the
    list is updated only by a later event of the remote. After a successful
    delete request the draft mode is validated, and a failure of that
    validation is thrown to the caller. *)
Theorem deleteComment_confirmed_local (c : GHPRComment) (st : State) :
  let r := deleteComment pr (Confirmed c) st in
  final r = st
  ∧ (deleteReviewComment pr (commentId c) = Returned tt →
     trace r = [Request (DeleteReviewComment (commentId c)); Request ValidateDraftMode]
     ∧ outcome r = match validateDraftMode pr with
                   | Returned _ => Returned tt
                   | Thrown e => Thrown e
                   end).
Proof.
  unfold deleteComment. run. destruct (deleteReviewComment pr (commentId c)) as [[]|e]; run.
  - destruct (validateDraftMode pr); run; by split.
  - by split.
Qed.

End facts.
Import Scenario MoreScenarios.

Lemma createOrReplyComment_success_witness :
  let r := createOrReplyComment (online []) "hello" None freshThread in
  outcome r = Returned tt
  ∧ trace r = [Request (CreateReviewThread "hello" "a.ts" 3)]
  ∧ ∃ tc, comments (thread (final r)) = comments (thread freshThread) ++ [Temporary tc]
          ∧ t_id tc = idPool freshThread ∧ t_body tc = "hello" ∧ t_mode tc = Preview.
Proof.
  apply (createOrReplyComment_success (online []) freshThread "hello" None
           (CreateReviewThread "hello" "a.ts" 3)).
  left. split; [reflexivity|]. split; reflexivity.
Defined.

Lemma createOrReplyComment_first_temporary_witness :
  let r := createOrReplyComment (online []) "hello" None unsentOnly in
  outcome r = Returned tt
  ∧ trace r = [ShowErrorMessage "Creating comment failed: "
                 (Error "Cannot respond to temporary comment")]
  ∧ ∃ tc, comments (thread (final r))
          = map (makeEditable (idPool unsentOnly)) (comments (thread unsentOnly))
            ++ [Temporary tc]
          ∧ t_id tc = idPool unsentOnly ∧ t_body tc = "hello" ∧ t_mode tc = Editing.
Proof.
  apply (createOrReplyComment_first_temporary (online []) unsentOnly "hello" None
           (temporary 0 "draft") []).
  reflexivity.
Defined.

Lemma editComment_failure_restores_witness :
  let r := editComment offline (Confirmed confirmed1) discussion in
  outcome r = Returned tt
  ∧ trace r = [Request (EditReviewComment "node1" "first");
               ShowErrorMessage "Editing comment failed " networkError]
  ∧ comments (thread (final r))
    = map (λ x, match x with
                | Confirmed g =>
                    if bool_decide (commentId g = commentId confirmed1)
                    then Confirmed (newGHPRComment (_rawComment confirmed1)
                                      (uri (thread discussion)))
                    else x
                | Temporary _ => x
                end) (comments (thread discussion)).
Proof.
  apply (editComment_failure_restores offline discussion confirmed1 networkError).
  - reflexivity.
  - intros tc Hin.
    apply elem_of_cons in Hin as [Hin|Hin]; [discriminate Hin|].
    apply elem_of_cons in Hin as [Hin|Hin]; [injection Hin as ->; discriminate|].
    apply elem_of_cons in Hin as [Hin|Hin]; [injection Hin as ->; discriminate|].
    by apply elem_of_nil in Hin.
Defined.

Lemma editComment_success_swaps_witness :
  let r := editComment (online []) (Confirmed confirmed1) discussion in
  outcome r = Returned tt
  ∧ trace r = [Request (EditReviewComment "node1" "first")]
  ∧ ∃ tmp, t_id tmp = idPool discussion ∧ t_body tmp = body confirmed1
           ∧ comments (thread (final r))
             = map (λ x, match x with
                         | Confirmed g =>
                             if bool_decide (commentId g = commentId confirmed1)
                             then Temporary tmp else x
                         | Temporary _ => x
                         end) (comments (thread discussion)).
Proof.
  apply (editComment_success_swaps (online []) discussion confirmed1).
  reflexivity.
Defined.

Lemma deleteComment_confirmed_local_witness :
  let r := deleteComment (online []) (Confirmed confirmed1) discussion in
  final r = discussion
  ∧ trace r = [Request (DeleteReviewComment (commentId confirmed1));
               Request ValidateDraftMode]
  ∧ outcome r = Returned tt.
Proof.
  destruct (deleteComment_confirmed_local (online []) confirmed1 discussion)
    as [Hfinal Hsent].
  split; [exact Hfinal|]. apply Hsent. reflexivity.
Defined.

End CommentsMore.

(** ** Reactions, continued *)

Module ReactionsMore.
Import Reactions.
Section facts.
Context `{Helpers} (pr : PullRequestModel).

Lemma State_eta (st : State) :
  {| _fileChanges := _fileChanges st; comment := comment st |} = st.
Proof. by destruct st. Qed.

(** X25: when the reaction request is rejected, [toggleReaction] rejects
    with the same error after that one request, and neither the file
    changes nor the displayed comment have changed. *)
Theorem toggleReaction_request_failure
    (st : State) (reaction : CommentReaction) (params : PRUriParams)
    (changes : list FileChange) (i : nat) (fc : InMemFileChangeNode)
    (commentIndex : nat) (c : IComment) (e : JsError) :
  scheme (parentUri (comment st)) = "pr" →
  fromPRUri (parentUri (comment st)) = Some params →
  _fileChanges st = Some changes →
  list_find (λ change, fc_fileName (base change) = fileName params) changes
    = Some (i, InMem fc) →
  list_find (λ c, pretty (c_id c) = commentId (comment st)) (fc_comments fc)
    = Some (commentIndex, c) →
  let nodeId := graphNodeId (_rawComment (comment st)) in
  (if shouldAdd (comment st) reaction
   then addCommentReaction pr nodeId (label reaction)
   else deleteCommentReaction pr nodeId (label reaction)) = Thrown e →
  toggleReaction pr reaction st
  = (Thrown e, st,
     [Request (if shouldAdd (comment st) reaction
               then AddCommentReaction nodeId (label reaction)
               else DeleteCommentReaction nodeId (label reaction))]).
Proof.
  intros Hscheme Hparams Hchanges Hfile Hcomment nodeId Hcall. subst nodeId.
  unfold toggleReaction. run. rewrite bool_decide_eq_true_2 //. run.
  rewrite Hparams. unfold findMatchingFileNode, getFileChanges,
    ContentProvider.getFileChanges. run. rewrite Hparams. run.
  rewrite Hchanges. run. rewrite Hfile. run. rewrite Hcomment. run.
  unfold set_fileChanges. rewrite -Hchanges State_eta.
  destruct (shouldAdd (comment st) reaction); run; rewrite Hcall; by run.
Qed.

(** X26: a reaction on a comment of a file that the file changes do not
    hold, or hold only as a remote change, is refused before any request:
    [toggleReaction] rejects with an error that names the reason and
    changes nothing. *)
Theorem toggleReaction_unsupported_file
    (st : State) (reaction : CommentReaction) (params : PRUriParams)
    (changes : list FileChange) :
  scheme (parentUri (comment st)) = "pr" →
  fromPRUri (parentUri (comment st)) = Some params →
  _fileChanges st = Some changes →
  let found := list_find (λ change, fc_fileName (base change) = fileName params) changes in
  (found = None ∨ ∃ i n, found = Some (i, Remote n)) →
  toggleReaction pr reaction st
  = (Thrown (Error (match found with
                    | None => "No matching file found"
                    | Some _ => "Comments not supported on remote file changes"
                    end)), st, []).
Proof.
  intros Hscheme Hparams Hchanges found Hfound. subst found.
  unfold toggleReaction. run. rewrite bool_decide_eq_true_2 //. run.
  rewrite Hparams. unfold findMatchingFileNode, getFileChanges,
    ContentProvider.getFileChanges. run. rewrite Hparams. run.
  rewrite Hchanges. run.
  destruct Hfound as [-> | (i & n & ->)]; run;
    unfold set_fileChanges; by rewrite -Hchanges State_eta.
Qed.


End facts.
Import Scenario MoreScenarios.

Lemma toggleReaction_request_failure_witness :
  toggleReaction offline thumbsUp listedComment
  = (Thrown networkError, listedComment,
     [Request (AddCommentReaction "node1" "THUMBS_UP")]).
Proof.
  apply (toggleReaction_request_failure offline listedComment thumbsUp
           (paramsOf "a.ts" false) [InMem changeWithComment] 0 changeWithComment
           0 rawComment1 networkError); reflexivity.
Defined.

Lemma toggleReaction_unsupported_file_witness :
  toggleReaction (online []) thumbsUp commentOnRemote
  = (Thrown (Error "Comments not supported on remote file changes"), commentOnRemote, []).
Proof.
  apply (toggleReaction_unsupported_file (online []) commentOnRemote thumbsUp
           (paramsOf "a.ts" false) [Remote remoteA]).
  - reflexivity.
  - reflexivity.
  - reflexivity.
  - right. exists 0, remoteA. reflexivity.
Defined.


End ReactionsMore.

(** ** Listeners and commenting ranges *)

Module ListenersFacts.
Import Listeners.
Section facts.
Context `{Helpers} (pr : PullRequestModel).
Context {Range : Type} (getCommentingRanges : list DiffHunk → bool → list Range).
Context (updateCommentReviewState : GHPRCommentThread → bool → GHPRCommentThread).

(** The update of the display threads of one cache entry, and of a list of
    entries. *)
Lemma forEach_update_handles (newDraftMode : bool) (handles : list nat) (s : State) :
  ∃ s', forEach handles (λ handle,
          modify (λ s,
            set_display
              (ThreadCache.set_threads
                 (alter (λ thread, updateCommentReviewState thread newDraftMode) handle
                        (ThreadCache.threads (display s)))
                 (display s)) s)) s = (Returned tt, s', [])
        ∧ fileChanges s' = fileChanges s
        ∧ ThreadCache.commentThreadCache (display s')
          = ThreadCache.commentThreadCache (display s)
        ∧ ThreadCache._openPREditors (display s') = ThreadCache._openPREditors (display s)
        ∧ length (ThreadCache.threads (display s'))
          = length (ThreadCache.threads (display s))
        ∧ ∀ h, h ∉ handles →
               ThreadCache.threads (display s') !! h = ThreadCache.threads (display s) !! h.
Proof.
  revert s. induction handles as [|h0 handles IH]; intros s.
  - exists s. by run.
  - run.
    destruct (IH (set_display
                    (ThreadCache.set_threads
                       (alter (λ thread, updateCommentReviewState thread newDraftMode) h0
                              (ThreadCache.threads (display s)))
                       (display s)) s)) as (s' & -> & Hf & Hc & He & Hl & Hframe).
    exists s'. run. split; [done|]. split; [done|]. split; [done|]. split; [done|].
    split; [by rewrite Hl length_alter|].
    intros h [Hne Hnot]%not_elem_of_cons. rewrite Hframe //.
    by rewrite list_lookup_alter_ne.
Qed.

Lemma forEach_update_entries (newDraftMode : bool)
    (entries : list (string * list nat)) (s : State) :
  ∃ s', forEach entries (λ entry,
          forEach entry.2 (λ handle,
            modify (λ s,
              set_display
                (ThreadCache.set_threads
                   (alter (λ thread, updateCommentReviewState thread newDraftMode) handle
                          (ThreadCache.threads (display s)))
                   (display s)) s))) s = (Returned tt, s', [])
        ∧ fileChanges s' = fileChanges s
        ∧ ThreadCache.commentThreadCache (display s')
          = ThreadCache.commentThreadCache (display s)
        ∧ ThreadCache._openPREditors (display s') = ThreadCache._openPREditors (display s)
        ∧ length (ThreadCache.threads (display s'))
          = length (ThreadCache.threads (display s))
        ∧ ∀ h, (∀ entry, entry ∈ entries → h ∉ entry.2) →
               ThreadCache.threads (display s') !! h = ThreadCache.threads (display s) !! h.
Proof.
  revert s. induction entries as [|entry entries IH]; intros s.
  - exists s. by run.
  - cbn [forEach]. unfold mbind, M_bind.
    destruct (forEach_update_handles newDraftMode entry.2 s)
      as (s1 & -> & Hf1 & Hc1 & He1 & Hl1 & Hframe1).
    destruct (IH s1) as (s' & -> & Hf & Hc & He & Hl & Hframe).
    exists s'. split; [done|]. split; [congruence|]. split; [congruence|].
    split; [congruence|]. split; [congruence|].
    intros h Hh. rewrite Hframe.
    + apply Hframe1, Hh. by left.
    + intros e' He'. apply Hh. by right.
Qed.

(** X28: when the pending review ends, every comment of every in-memory
    file change is marked as no draft. With the file changes as
    [getFileChanges] delivers them, the handler stores the same list with
    nothing but the draft flags of the comments changed, and it leaves the
    thread cache and the open editors as they are. *)
Theorem pending_review_ended_clears_drafts
    (st : State) (changes : list FileChange) (cached : ContentProvider.State)
    (tr : list Effect) :
  ContentProvider.getFileChanges pr (fileChanges st) = (Returned changes, cached, tr) →
  let r := onDidChangePendingReviewState pr updateCommentReviewState false st in
  outcome r = Returned tt
  ∧ trace r = tr
  ∧ fileChanges (final r) = Some (map (markDrafts false) changes)
  ∧ (∀ n c, InMem n ∈ default [] (fileChanges (final r)) → c ∈ fc_comments n →
            c_isDraft c = false)
  ∧ map base (default [] (fileChanges (final r))) = map base changes
  ∧ ThreadCache.commentThreadCache (display (final r))
    = ThreadCache.commentThreadCache (display st)
  ∧ ThreadCache._openPREditors (display (final r))
    = ThreadCache._openPREditors (display st).
Proof.
  intros Hget r. subst r. unfold onDidChangePendingReviewState.
  pose proof (forEach_update_entries false) as Hupd.
  run. rewrite Hget. run.
  match goal with
  | |- context [forEach ?entries _ ?s0] =>
      destruct (Hupd entries s0) as (s' & -> & Hf & Hc & He & Hl & Hframe)
  end.
  run. split; [done|]. split; [by rewrite !app_nil_r|].
  rewrite Hf. simpl. split; [done|]. split; [|split; [|done]].
  - intros n c [fc [Hfc Hin]]%list_elem_of_fmap.
    destruct fc as [rn|m]; [done|]. injection Hfc as ->. simpl.
    by intros [c0 [-> _]]%list_elem_of_fmap.
  - rewrite map_map. apply map_ext. by intros [rn|m].
Qed.

(** X29: when a pending review begins, the handler does not touch the file
    changes: they are neither fetched nor marked. In both directions the
    handler returns normally once the file changes are there, keeps the
    cache, the open editors and the number of display threads, and leaves
    every display thread that no cache entry lists as it was. *)
Theorem pending_review_keeps_cache (st : State) (newDraftMode : bool) :
  newDraftMode = true ∨ is_Some (fileChanges st) →
  let r := onDidChangePendingReviewState pr updateCommentReviewState newDraftMode st in
  outcome r = Returned tt
  ∧ trace r = []
  ∧ (newDraftMode = true → fileChanges (final r) = fileChanges st)
  ∧ ThreadCache.commentThreadCache (display (final r))
    = ThreadCache.commentThreadCache (display st)
  ∧ ThreadCache._openPREditors (display (final r))
    = ThreadCache._openPREditors (display st)
  ∧ length (ThreadCache.threads (display (final r)))
    = length (ThreadCache.threads (display st))
  ∧ ∀ h, (∀ file handles, ThreadCache.commentThreadCache (display st) !! file = Some handles →
                          h ∉ handles) →
         ThreadCache.threads (display (final r)) !! h
         = ThreadCache.threads (display st) !! h.
Proof.
  intros Hmode r. subst r. unfold onDidChangePendingReviewState.
  pose proof (forEach_update_entries newDraftMode) as Hupd.
  destruct newDraftMode; run.
  - match goal with
    | |- context [forEach ?entries _ ?s0] =>
        destruct (Hupd entries s0) as (s' & -> & Hf & Hc & He & Hl & Hframe)
    end.
    run. repeat (split; [done|]).
    intros h Hh. apply Hframe. intros [file handles] Hin%elem_of_map_to_list.
    by apply (Hh file).
  - destruct Hmode as [[=]|[changes Hsome]].
    unfold ContentProvider.getFileChanges. run. rewrite Hsome. run.
    match goal with
    | |- context [forEach ?entries _ ?s0] =>
        destruct (Hupd entries s0) as (s' & -> & Hf & Hc & He & Hl & Hframe)
    end.
    run. repeat (split; [done|]).
    intros h Hh. rewrite Hframe //. intros [file handles] Hin%elem_of_map_to_list.
    by apply (Hh file).
Qed.

(** [refreshContextKey] publishes the draft state of the pull request
    for exactly the editors that [getPREditors] counts as editors of the
    pull request, and does nothing for every other editor. *)
Theorem refreshContextKey_agrees_with_getPREditors {S} (editor : TextEditor) (s : S) :
  refreshContextKey pr (Some editor) s
  = (Returned tt, s,
     match ThreadCache.getPREditors pr [editor] with
     | [] => []
     | _ => [SetContext "prInDraft" (hasPendingReview pr)]
     end).
Proof.
  unfold refreshContextKey, ThreadCache.getPREditors. simpl.
  destruct (bool_decide (scheme (document_uri editor) = "pr")); simpl; [|done].
  destruct (fromPRUri (document_uri editor)) as [params|]; [|done].
  by destruct (bool_decide (prNumber params = number pr)).
Qed.

(** X30: commenting ranges are offered on a document of the pull request
    exactly when [findMatchingFileNode] finds an in-memory file change for
    it, and they are then the commenting ranges of the diff hunks of that
    file change on the side of the document. *)
Theorem provideCommentingRanges_iff_file_found
    (documentUri : Uri) (params : PRUriParams) (st : Reactions.State)
    (ranges : list Range) :
  scheme documentUri = "pr" →
  fromPRUri documentUri = Some params →
  prNumber params = number pr →
  outcome (provideCommentingRanges pr getCommentingRanges documentUri
             (Reactions._fileChanges st)) = Returned (Some ranges)
  ↔ ∃ i fileChange,
      outcome (Reactions.findMatchingFileNode pr documentUri st) = Returned (i, fileChange)
      ∧ ranges = getCommentingRanges (diffHunks fileChange) (isBase params).
Proof.
  intros Hscheme Hparams Hnumber.
  unfold provideCommentingRanges, Reactions.findMatchingFileNode, Reactions.getFileChanges.
  rewrite Hparams bool_decide_eq_true_2 // bool_decide_eq_true_2 //. run.
  destruct (ContentProvider.getFileChanges pr (Reactions._fileChanges st))
    as [[[changes|e] cached] tr]; run.
  - destruct (list_find _ changes) as [[i [rn|m]]|]; run.
    + split; [done|]. by intros (? & ? & [=] & _).
    + split.
      * intros [= <-]. by eexists _, _.
      * by intros (? & ? & [= _ <-] & ->).
    + split; [done|]. by intros (? & ? & [=] & _).
  - split; [done|]. by intros (? & ? & [=] & _).
Qed.

End facts.
Import Scenario MoreScenarios.

Lemma pending_review_ended_clears_drafts_witness :
  let r := onDidChangePendingReviewState (online []) sampleUpdate false reviewing in
  outcome r = Returned tt
  ∧ trace r = []
  ∧ fileChanges (final r)
    = Some (map (markDrafts false) [InMem changeWithDraft; Remote remoteChange])
  ∧ (∀ n c, InMem n ∈ default [] (fileChanges (final r)) → c ∈ fc_comments n →
            c_isDraft c = false)
  ∧ map base (default [] (fileChanges (final r)))
    = map base [InMem changeWithDraft; Remote remoteChange]
  ∧ ThreadCache.commentThreadCache (display (final r))
    = ThreadCache.commentThreadCache (display reviewing)
  ∧ ThreadCache._openPREditors (display (final r))
    = ThreadCache._openPREditors (display reviewing).
Proof.
  apply (pending_review_ended_clears_drafts (online []) sampleUpdate reviewing
           [InMem changeWithDraft; Remote remoteChange]
           (Some [InMem changeWithDraft; Remote remoteChange]) []).
  reflexivity.
Defined.

Lemma pending_review_keeps_cache_witness :
  let r := onDidChangePendingReviewState offline sampleUpdate true notFetched in
  outcome r = Returned tt
  ∧ trace r = []
  ∧ fileChanges (final r) = None
  ∧ ThreadCache.commentThreadCache (display (final r))
    = ThreadCache.commentThreadCache (display notFetched)
  ∧ length (ThreadCache.threads (display (final r))) = 2.
Proof.
  destruct (pending_review_keeps_cache offline sampleUpdate notFetched true)
    as (Hout & Htrace & Hfiles & Hcache & _ & Hlength & _).
  - left. reflexivity.
  - split; [exact Hout|]. split; [exact Htrace|]. split; [by apply Hfiles|].
    split; [exact Hcache|]. exact Hlength.
Defined.

Lemma provideCommentingRanges_iff_file_found_witness :
  outcome (provideCommentingRanges (online []) (λ _ _, [0%nat]) (headOf "a.ts")
             (Reactions._fileChanges listedComment)) = Returned (Some [0%nat])
  ↔ ∃ i fileChange,
      outcome (Reactions.findMatchingFileNode (online []) (headOf "a.ts") listedComment)
      = Returned (i, fileChange)
      ∧ [0%nat] = (λ _ _, [0%nat]) (diffHunks fileChange) (isBase (paramsOf "a.ts" false)).
Proof.
  apply (provideCommentingRanges_iff_file_found (online []) (λ _ _, [0%nat])
           (headOf "a.ts") (paramsOf "a.ts" false) listedComment [0%nat]); reflexivity.
Defined.

End ListenersFacts.
